(** * The hardware renderer's texture-cache boundary (PCSX2 GS)

    A shallow embedding of the parts of
    [pcsx2/GS/Renderers/HW/GSRendererHW.cpp], of the declarations of
    [GSTextureCache] that accompany it, and of
    [pcsx2/GS/Renderers/DX11/GSDevice11.cpp] that the properties below
    talk about.

    The renderer drives collaborators whose bodies live elsewhere
    (the texture cache, the PCRTC registers, the host, the Direct3D
    device).  Each modelled body is therefore a small program over a
    signature of collaborator calls; running it against any
    implementation of the collaborators gives the result, the
    implementation's final state and the ordered trace of calls. *)

From Stdlib Require Import ZArith List Bool Lia DecimalString.
From stdpp Require Import base decidable option list strings countable gmap.
Import ListNotations.
Local Open Scope Z_scope.

(** ** Machine integers *)

Module Int.

(** [u32] and [int] values are kept in [Z]; arithmetic that can leave the
    range is wrapped explicitly. *)
Definition u32 (z : Z) : Z := z mod 2 ^ 32.
Definition s32 (z : Z) : Z := (z + 2 ^ 31) mod 2 ^ 32 - 2 ^ 31.

(** A bit-field of [n] bits keeps the low [n] bits of what is stored. *)
Definition bits (n : Z) (z : Z) : Z := Z.land z (Z.ones n).

End Int.

(** ** Programs over a signature of collaborator calls *)

Module Prog.

(** A signature: the calls and, for each call, the type of its answer. *)
Record Sig : Type := MkSig { op : Type; ar : op -> Type }.

Inductive t (E : Sig) (A : Type) : Type :=
| Ret (a : A)
| Do (c : op E) (k : ar E c -> t E A).
Arguments Ret {E A} a.
Arguments Do {E A} c k.

Fixpoint bind {E A B} (p : t E A) (f : A -> t E B) : t E B :=
  match p with
  | Ret a => f a
  | Do c k => Do c (fun r => bind (k r) f)
  end.

Definition call {E} (c : op E) : t E (ar E c) := Do c Ret.

(** One call together with the answer it received. *)
Definition event (E : Sig) : Type := { c : op E & ar E c }.
Definition ev {E} (c : op E) (r : ar E c) : event E := existT c r.
Definition called {E} (e : event E) : op E := projT1 e.

(** An implementation of the collaborators over a state [W]. *)
Definition handler (E : Sig) (W : Type) : Type := forall c : op E, W -> ar E c * W.

(** Result, final collaborator state and trace (oldest call first). *)
Fixpoint run {E W A} (h : handler E W) (p : t E A) (w : W) : A * W * list (event E) :=
  match p with
  | Ret a => (a, w, [])
  | Do c k =>
      let '(r, w1) := h c w in
      let '(a, w2, tr) := run h (k r) w1 in
      (a, w2, ev c r :: tr)
  end.

Definition result {E W A} (h : handler E W) (p : t E A) (w : W) : A := (run h p w).1.1.
Definition final {E W A} (h : handler E W) (p : t E A) (w : W) : W := (run h p w).1.2.
Definition trace {E W A} (h : handler E W) (p : t E A) (w : W) : list (event E) := (run h p w).2.
Definition calls {E W A} (h : handler E W) (p : t E A) (w : W) : list (op E) :=
  map called (trace h p w).

End Prog.

#[global] Instance prog_ret {E} : MRet (Prog.t E) := fun A a => Prog.Ret a.
#[global] Instance prog_bind {E} : MBind (Prog.t E) := fun A B f p => Prog.bind p f.

(** ** GS data used at the boundary *)

(** [GSVector4i]: four [int] lanes.  As a rectangle the lanes are
    (left, top, right, bottom) = (x, y, z, w). *)
Module GSVector4i.
Record t : Type := mk { x : Z; y : Z; z : Z; w : Z }.

(** [GSVector4i::eq]: all four lanes equal. *)
Definition eq (a b : t) : bool :=
  (x a =? x b) && (y a =? y b) && (z a =? z b) && (w a =? w b).

Definition set_x (v : Z) (r : t) : t := mk v (y r) (z r) (w r).
Definition set_y (v : Z) (r : t) : t := mk (x r) v (z r) (w r).
Definition set_z (v : Z) (r : t) : t := mk (x r) (y r) v (w r).
Definition set_w (v : Z) (r : t) : t := mk (x r) (y r) (z r) v.
End GSVector4i.

Module GSVector2i.
Record t : Type := mk { x : Z; y : Z }.
End GSVector2i.

(** A [float], kept as its bit pattern: the modelled bodies only copy
    such values. *)
Inductive f32 : Type := F32 (pattern : Z).

(** [GIFRegBITBLTBUF]: source and destination buffer of a transfer. *)
Record GIFRegBITBLTBUF : Type := mkBITBLTBUF {
  SBP : Z; SBW : Z; SPSM : Z;
  DBP : Z; DBW : Z; DPSM : Z
}.

(** [GIFRegTEX0], the three fields the modelled bodies set or read; the
    others stay zero ([GIFRegTEX0 TEX0 = {}]). *)
Record GIFRegTEX0 : Type := mkTEX0 { TBP0 : Z; TBW : Z; PSM : Z }.

(** Assignments to the bit-fields [TBP0:14], [TBW:6], [PSM:6]. *)
Definition TEX0_of (bp bw psm : Z) : GIFRegTEX0 :=
  mkTEX0 (Int.bits 14 bp) (Int.bits 6 bw) (Int.bits 6 psm).

(** What [GSLocalMemory::GetOffset (bp, bw, psm)] hands back is fixed by
    its three arguments; the offset object is represented by them. *)
Record GSOffset : Type := GetOffset { off_bp : Z; off_bw : Z; off_psm : Z }.

(** [GSState::GSUploadQueue]: a transfer recorded for a draw. *)
Record GSUploadQueue : Type := mkUpload {
  blit : GIFRegBITBLTBUF;
  rect : GSVector4i.t;
  draw : Z
}.

(** Objects owned by collaborators are named by handles. *)
Definition TargetPtr : Type := positive.
Definition GSTexturePtr : Type := positive.

Inductive TexturePreloadingLevel : Type := Off | Partial | Full.

(** The [GSConfig] options the modelled bodies read or write. *)
Record GSOptions : Type := mkOptions {
  LoadTextureReplacements : bool;
  TexturePreloading : TexturePreloadingLevel;
  UpscaleMultiplier : f32
}.

(** The [GSRendererHW] members the modelled bodies read or write.  The
    collaborator calls answer through the handler and are taken to leave
    these members alone. *)
Record GSRendererHW : Type := mkHW {
  m_force_preload : Z;
  m_draw_transfers : list GSUploadQueue;
  m_last_draw_n : Z;
  m_last_transfer_n : Z;
  m_skip : Z;
  m_skip_offset : Z
}.

(** ** The collaborators of the renderer *)

Inductive hw_call : Type :=
(* GSTextureCache, reached through [m_tc] *)
| TC_InvalidateVideoMem (off : GSOffset) (r : GSVector4i.t) (eewrite target : bool)
| TC_InvalidateLocalMem (off : GSOffset) (r : GSVector4i.t)
| TC_IncAge
| TC_RemoveAll
| TC_GetHashCacheMemoryUsage
| TC_LookupDisplayTarget (TEX0 : GIFRegTEX0) (size : GSVector2i.t) (scale : f32)
(* a Target of the cache, reached through the pointer that was looked up *)
| Target_Update (rt : TargetPtr) (reset_age : bool)
| Target_m_texture (rt : TargetPtr)
| Target_m_scale (rt : TargetPtr)
| Target_m_TEX0 (rt : TargetPtr)
(* the rest of the emulator *)
| GSTextureReplacements_ProcessAsyncLoadedTextures
| GSRenderer_VSync (field : Z) (registers_written : bool)
| Host_AddKeyedFormattedOSDMessage (key : string) (bytes : Z)
| Device_PurgePool
| PCRTC_GetFramebufferSize (i : Z)
| PCRTC_RemoveFramebufferOffset (i : Z)
| PCRTC_Block (index : Z)
| PCRTC_FBW (index : Z)
| PCRTC_PSM (index : Z)
| GSLocalMemory_psm_pgs_y (psm : Z).

Definition hw_answer (c : hw_call) : Type :=
  match c with
  | TC_GetHashCacheMemoryUsage => Z
  | TC_LookupDisplayTarget _ _ _ => option TargetPtr
  | Target_m_texture _ => option GSTexturePtr
  | Target_m_scale _ => f32
  | Target_m_TEX0 _ => GIFRegTEX0
  | PCRTC_GetFramebufferSize _ => GSVector2i.t
  | PCRTC_Block _ | PCRTC_FBW _ | PCRTC_PSM _ | GSLocalMemory_psm_pgs_y _ => Z
  | _ => unit
  end.

Definition HW : Prog.Sig := Prog.MkSig hw_call hw_answer.

Definition hw (c : hw_call) : Prog.t HW (hw_answer c) := @Prog.call HW c.

(** ** [GSRendererHW::InvalidateVideoMem] *)

Definition InvalidateVideoMem (BITBLTBUF : GIFRegBITBLTBUF) (r : GSVector4i.t)
    (eewrite : bool) : Prog.t HW unit :=
  let rect := r in
  let loop_h := 2048 <? GSVector4i.w r in
  let rect := if loop_h then GSVector4i.set_w 2048 rect else rect in
  let loop_w := 2048 <? GSVector4i.z r in
  let rect := if loop_w then GSVector4i.set_z 2048 rect else rect in
  let off := GetOffset (DBP BITBLTBUF) (DBW BITBLTBUF) (DPSM BITBLTBUF) in
  if loop_h || loop_w then
    hw (TC_InvalidateVideoMem off rect eewrite true);;
    let rect :=
      if loop_h
      then GSVector4i.set_w (Int.s32 (GSVector4i.w r - 2048)) (GSVector4i.set_y 0 rect)
      else rect in
    let rect :=
      if loop_w
      then GSVector4i.set_z (Int.s32 (GSVector4i.w r - 2048)) (GSVector4i.set_x 0 rect)
      else rect in
    hw (TC_InvalidateVideoMem off rect eewrite true)
  else
    hw (TC_InvalidateVideoMem off r eewrite true).

(** ** [GSRendererHW::InvalidateLocalMem] *)

(** The test of the scan over [m_draw_transfers]. *)
Definition same_transfer (s_n : Z) (BITBLTBUF : GIFRegBITBLTBUF) (r : GSVector4i.t)
    (iter : GSUploadQueue) : bool :=
  (draw iter =? s_n) && (SBP BITBLTBUF =? DBP (blit iter))
  && (DPSM (blit iter) =? SPSM BITBLTBUF) && GSVector4i.eq r (rect iter).

(** The [while] loop, walking from the newest transfer to the oldest;
    the answer is the final value of [skip]. *)
Fixpoint scan_transfers (s_n : Z) (BITBLTBUF : GIFRegBITBLTBUF) (r : GSVector4i.t)
    (newest_first : list GSUploadQueue) : Prog.t HW bool :=
  match newest_first with
  | [] => mret false
  | iter :: older =>
      if same_transfer s_n BITBLTBUF r iter then
        hw (TC_InvalidateVideoMem
              (GetOffset (SBP BITBLTBUF) (SBW BITBLTBUF) (SPSM BITBLTBUF)) r false true);;
        mret true
      else scan_transfers s_n BITBLTBUF r older
  end.

Definition InvalidateLocalMem (s_n : Z) (this : GSRendererHW)
    (BITBLTBUF : GIFRegBITBLTBUF) (r : GSVector4i.t) (clut : bool) : Prog.t HW unit :=
  if clut then mret tt
  else
    skip ← scan_transfers s_n BITBLTBUF r (rev (m_draw_transfers this));
    if skip : bool then mret tt
    else hw (TC_InvalidateLocalMem
               (GetOffset (SBP BITBLTBUF) (SBW BITBLTBUF) (SPSM BITBLTBUF)) r).

(** ** [GSRendererHW::VSync] *)

(** The static draw and transfer counters [s_n] and [s_transfer_n] are
    read before the base-class call only; they are arguments.  [GL_INS]
    only writes to the debug log. *)
Definition VSync (s_n s_transfer_n : Z) (GSConfig : GSOptions) (this : GSRendererHW)
    (field : Z) (registers_written : bool) : Prog.t HW (GSRendererHW * GSOptions) :=
  let '(force_preload, transfers) :=
    if 0 <? m_force_preload this then
      let force_preload := m_force_preload this - 1 in
      if force_preload =? 0 then
        (force_preload,
         List.filter (fun iter => negb (5 <? Int.s32 (s_n - draw iter)))
                     (m_draw_transfers this))
      else (force_preload, m_draw_transfers this)
    else (m_force_preload this, []) in
  (if LoadTextureReplacements GSConfig
   then hw GSTextureReplacements_ProcessAsyncLoadedTextures else mret tt);;
  (if (m_last_draw_n this =? s_n) && (m_last_transfer_n this =? s_transfer_n)
   then mret tt else hw TC_IncAge);;
  let last_draw_n := Int.s32 (s_n + 1) in
  let last_transfer_n := s_transfer_n in
  hw (GSRenderer_VSync field registers_written);;
  usage ← hw TC_GetHashCacheMemoryUsage;
  GSConfig ←
    (if 1024 * 1024 * 1024 <? usage then
       shown ← hw TC_GetHashCacheMemoryUsage;
       hw (Host_AddKeyedFormattedOSDMessage "HashCacheOverflow" shown);;
       hw TC_RemoveAll;;
       hw Device_PurgePool;;
       mret (mkOptions (LoadTextureReplacements GSConfig) Partial (UpscaleMultiplier GSConfig))
     else mret GSConfig);
  mret (mkHW force_preload transfers last_draw_n last_transfer_n 0 0, GSConfig).

(** ** [GSRendererHW::GetOutput] and [GSRendererHW::GetFeedbackOutput] *)

Definition GetUpscaleMultiplier (GSConfig : GSOptions) : f32 := UpscaleMultiplier GSConfig.
Definition GetTextureScaleFactor (GSConfig : GSOptions) : f32 := GetUpscaleMultiplier GSConfig.

(** The results are the returned texture pointer and the two reference
    parameters [scale] and [y_offset].  [curFramebuffer] is a reference
    into [PCRTCDisplays]: every use of one of its members is a read. *)
Definition GetOutput (GSConfig : GSOptions) (i : Z) (scale : f32) (y_offset : Z)
    : Prog.t HW (option GSTexturePtr * f32 * Z) :=
  let index := if 0 <=? i then i else 1 in
  framebufferSize ← hw (PCRTC_GetFramebufferSize i);
  hw (PCRTC_RemoveFramebufferOffset i);;
  block ← hw (PCRTC_Block index);
  fbw ← hw (PCRTC_FBW index);
  psm ← hw (PCRTC_PSM index);
  let TEX0 := TEX0_of block fbw psm in
  found ← hw (TC_LookupDisplayTarget TEX0 framebufferSize (GetTextureScaleFactor GSConfig));
  match found with
  | Some rt =>
      hw (Target_Update rt false);;
      t ← hw (Target_m_texture rt);
      scale ← hw (Target_m_scale rt);
      rt_TEX0 ← hw (Target_m_TEX0 rt);
      let delta := TBP0 TEX0 - TBP0 rt_TEX0 in
      if 0 <? delta then
        fbw ← hw (PCRTC_FBW index);
        if negb (fbw =? 0) then
          let pages := Z.shiftr delta 5 in
          fbw ← hw (PCRTC_FBW index);
          let y_pages := Z.quot pages fbw in
          psm ← hw (PCRTC_PSM index);
          pgs_y ← hw (GSLocalMemory_psm_pgs_y psm);
          mret (t, scale, Int.s32 (y_pages * pgs_y))
        else mret (t, scale, y_offset)
      else mret (t, scale, y_offset)
  | None => mret (None, scale, y_offset)
  end.

(** The [EXTBUF] privileged register. *)
Record GSRegEXTBUF : Type := mkEXTBUF { EXBP : Z; EXBW : Z; FBIN : Z }.

Definition GetFeedbackOutput (GSConfig : GSOptions) (EXTBUF : GSRegEXTBUF) (scale : f32)
    : Prog.t HW (option GSTexturePtr * f32) :=
  let index := Z.land (FBIN EXTBUF) 1 in
  fb_size ← hw (PCRTC_GetFramebufferSize index);
  psm ← hw (PCRTC_PSM index);
  let TEX0 := TEX0_of (EXBP EXTBUF) (EXBW EXTBUF) psm in
  found ← hw (TC_LookupDisplayTarget TEX0 fb_size (GetTextureScaleFactor GSConfig));
  match found with
  | None => mret (None, scale)
  | Some rt =>
      hw (Target_Update rt false);;
      t ← hw (Target_m_texture rt);
      scale ← hw (Target_m_scale rt);
      mret (t, scale)
  end.

(** ** [GSDevice11::CreateSurface] *)

Module D3D11.

(** Values of the Direct3D 11 headers. *)
Definition D3D11_USAGE_DEFAULT : Z := 0.
Definition D3D11_BIND_SHADER_RESOURCE : Z := 0x8.
Definition D3D11_BIND_RENDER_TARGET : Z := 0x20.
Definition D3D11_BIND_DEPTH_STENCIL : Z := 0x40.
Definition D3D11_BIND_UNORDERED_ACCESS : Z := 0x80.
Definition D3D11_RESOURCE_MISC_GENERATE_MIPS : Z := 0x1.

(** [SUCCEEDED (hr)]: an [HRESULT] is a signed 32-bit value. *)
Definition SUCCEEDED (hr : Z) : bool := 0 <=? hr.

Record D3D11_TEXTURE2D_DESC : Type := mkDesc {
  Width : Z; Height : Z; MipLevels : Z; ArraySize : Z; Format : Z;
  SampleDesc_Count : Z; SampleDesc_Quality : Z;
  Usage : Z; BindFlags : Z; CPUAccessFlags : Z; MiscFlags : Z
}.

(** [GSTexture::Type]; [OtherType] stands for the values the [switch]
    leaves to [default]. *)
Inductive GSTexture_Type : Type := RenderTarget | DepthStencil | Texture | RWTexture | OtherType.

(** [GSTexture::Format], by its enumerator value. *)
Definition GSTexture_Format : Type := Z.

Definition ID3D11Texture2D : Type := positive.

(** The object built by [new GSTexture11 (texture, desc, type, format)]. *)
Record GSTexture11 : Type := mkGSTexture11 {
  m_texture : option ID3D11Texture2D;
  m_desc : D3D11_TEXTURE2D_DESC;
  m_type : GSTexture_Type;
  m_format : GSTexture_Format
}.

Definition GetType (t : GSTexture11) : GSTexture_Type := m_type t.

(** How a call ends: with the returned value or with a thrown exception. *)
Inductive exn : Type := std_bad_alloc.
Inductive outcome (A : Type) : Type :=
| Returned (a : A)
| Thrown (e : exn).
Arguments Returned {A} a.
Arguments Thrown {A} e.

(** The device call: [m_dev->CreateTexture2D (&desc, nullptr, texture.put ())]
    answers an [HRESULT] and what it stored through [texture.put ()]. *)
Inductive d3d_call : Type :=
| ID3D11Device_CreateTexture2D (desc : D3D11_TEXTURE2D_DESC).

Definition d3d_answer (c : d3d_call) : Type := (Z * option ID3D11Texture2D)%type.

Definition D3D : Prog.Sig := Prog.MkSig d3d_call d3d_answer.

(** [std::clamp (v, lo, hi)]. *)
Definition clamp (v lo hi : Z) : Z := if v <? lo then lo else if hi <? v then hi else v.

Section CreateSurface.

(** [GSTexture11::GetDXGIFormat] and [GSTexture::IsCompressedFormat] are
    static tables defined with the texture classes. *)
Variable GetDXGIFormat : GSTexture_Format -> Z.
Variable IsCompressedFormat : GSTexture_Format -> bool.

(** The descriptor filled in before the device is asked. *)
Definition surface_desc (m_d3d_texsize : Z) (type : GSTexture_Type)
    (width height levels : Z) (format : GSTexture_Format) : D3D11_TEXTURE2D_DESC :=
  let mips := (1 <? levels) && negb (IsCompressedFormat format) in
  let bind :=
    match type with
    | RenderTarget => Z.lor D3D11_BIND_RENDER_TARGET D3D11_BIND_SHADER_RESOURCE
    | DepthStencil => Z.lor D3D11_BIND_DEPTH_STENCIL D3D11_BIND_SHADER_RESOURCE
    | Texture =>
        if mips then Z.lor D3D11_BIND_RENDER_TARGET D3D11_BIND_SHADER_RESOURCE
        else D3D11_BIND_SHADER_RESOURCE
    | RWTexture => Z.lor D3D11_BIND_UNORDERED_ACCESS D3D11_BIND_SHADER_RESOURCE
    | OtherType => 0
    end in
  let misc :=
    match type with
    | Texture => if mips then D3D11_RESOURCE_MISC_GENERATE_MIPS else 0
    | _ => 0
    end in
  {| Width := clamp width 1 m_d3d_texsize;
     Height := clamp height 1 m_d3d_texsize;
     MipLevels := Int.u32 levels;
     ArraySize := 1;
     Format := GetDXGIFormat format;
     SampleDesc_Count := 1;
     SampleDesc_Quality := 0;
     Usage := D3D11_USAGE_DEFAULT;
     BindFlags := bind;
     CPUAccessFlags := 0;
     MiscFlags := misc |}.

(** The returned [GSTexture*] is [None] for a null pointer. *)
Definition CreateSurface (m_d3d_texsize : Z) (type : GSTexture_Type)
    (width height levels : Z) (format : GSTexture_Format)
    : Prog.t D3D (outcome (option GSTexture11)) :=
  let desc := surface_desc m_d3d_texsize type width height levels format in
  '(hr, texture) ← @Prog.call D3D (ID3D11Device_CreateTexture2D desc);
  if SUCCEEDED hr then
    mret (Returned (Some (mkGSTexture11 texture desc type format)))
  else
    mret (Thrown std_bad_alloc).

End CreateSurface.

End D3D11.

(** ** Declarations of [GSTextureCache] *)

Module GSTextureCache.

(** The [enum] of resource types; [m_dst] has one list per value. *)
Inductive TargetType : Type := RenderTarget | DepthStencil.

Definition MAX_BP : Z := 0x3fff.

Definition CheckOverlap (a_bp a_bp_end b_bp b_bp_end : Z) : bool :=
  let valid := (a_bp <=? a_bp_end) && (b_bp <=? b_bp_end) in
  let overlap := (a_bp <=? b_bp_end) && (a_bp_end >=? b_bp) in
  valid && overlap.

(** [Surface], with the members that the address range is made of. *)
Record Surface : Type := mkSurface {
  m_TEX0 : GIFRegTEX0;
  m_age : Z;
  m_end_block : Z
}.

(** [Target]: a [Surface] with its resource type. *)
Record Target : Type := mkTarget {
  surface :> Surface;
  m_type : TargetType
}.

Record SurfaceOffsetKeyElem : Type := mkElem {
  psm : Z;
  bp : Z;
  bw : Z;
  rect : GSVector4i.t
}.

(** [std::array<SurfaceOffsetKeyElem, 2> elems]: the A and the B element. *)
Record SurfaceOffsetKey : Type := mkKey {
  elem_a : SurfaceOffsetKeyElem;
  elem_b : SurfaceOffsetKeyElem
}.

Record SurfaceOffset : Type := mkSurfaceOffset {
  is_valid : bool;
  b2a_offset : GSVector4i.t
}.

Definition S_SURFACE_OFFSET_CACHE_MAX_SIZE : Z := 65535.

Section AddressSpace.

(** [MAX_BLOCKS] is a constant of [GSLocalMemory]: the number of blocks
    of the GS memory. *)
Variable MAX_BLOCKS : Z.

(** Returns true if the target wraps around the end of GS memory. *)
Definition Wraps (s : Surface) : bool := m_end_block s <? TBP0 (m_TEX0 s).

(** The end block, not wrapped at 0x3FFF; [u32] arithmetic. *)
Definition UnwrappedEndBlock (s : Surface) : Z :=
  Int.u32 (m_end_block s + (if Wraps s then MAX_BLOCKS else 0)).

End AddressSpace.

End GSTextureCache.

(** The key that [GSRendererHW::HasEEUpload] builds for a recorded
    transfer [iter] and the rectangle [r] sampled from the texture
    described by [m_context->TEX0]. *)
Definition HasEEUpload_sok (iter : GSUploadQueue) (TEX0 : GIFRegTEX0) (r : GSVector4i.t)
    : GSTextureCache.SurfaceOffsetKey :=
  GSTextureCache.mkKey
    (GSTextureCache.mkElem (DPSM (blit iter)) (DBP (blit iter)) (DBW (blit iter)) (rect iter))
    (GSTextureCache.mkElem (PSM TEX0) (TBP0 TEX0) (TBW TEX0) r).

(** ** The memo table of [ComputeSurfaceOffset] *)

#[global] Instance GSVector4i_eq_dec : EqDecision GSVector4i.t.
Proof. solve_decision. Defined.

#[global] Instance GSVector4i_countable : Countable GSVector4i.t.
Proof.
  refine (inj_countable'
            (fun r => (GSVector4i.x r, GSVector4i.y r, GSVector4i.z r, GSVector4i.w r))
            (fun q => GSVector4i.mk q.1.1.1 q.1.1.2 q.1.2 q.2) _).
  intros []. reflexivity.
Defined.

Module SurfaceOffsetCache.
Import GSTextureCache.

(** A surface descriptor: block pointer, buffer width, pixel storage
    mode. *)
Definition descriptor : Type := Z * Z * Z.

Definition descriptor_of (e : SurfaceOffsetKeyElem) : descriptor := (bp e, bw e, psm e).

(** The tuple of a key: descriptor A, rectangle A, descriptor B. *)
Definition tuple : Type := descriptor * GSVector4i.t * descriptor.

Definition tuple_of (k : SurfaceOffsetKey) : tuple :=
  (descriptor_of (elem_a k), rect (elem_a k), descriptor_of (elem_b k)).

(** Modelled from the spec: [SurfaceOffsetKeyEqual::operator()], and
    [SurfaceOffsetKeyHash::operator()] that goes with it, are declared
    with the cache and defined in GSTextureCache.cpp, which is not among
    the sources.  Per the spec the memo is keyed by the full (descriptor
    A, rectangle A, descriptor B) tuple: two keys are equal when their
    tuples are. *)
Definition SurfaceOffsetKeyEqual (lhs rhs : SurfaceOffsetKey) : bool :=
  bool_decide (tuple_of lhs = tuple_of rhs).

(** [m_surface_offset_cache]: an [unordered_map] whose keys are compared
    by [SurfaceOffsetKeyEqual], that is, a finite map on the tuples. *)
Abbreviation cache := (gmap tuple SurfaceOffset).

Section Memo.

(** The geometric translation itself, through the page mapper. *)
Variable resolve : SurfaceOffsetKey -> SurfaceOffset.

(** What a full cache is left with before a new entry goes in. *)
Variable make_room : cache -> cache.

(** Modelled from the spec: the body of
    [GSTextureCache::ComputeSurfaceOffset (const SurfaceOffsetKey&)] is in
    GSTextureCache.cpp, which is not among the sources.  Per the spec the
    results are memoized in a bounded cache keyed as above; the bound is
    the declared [S_SURFACE_OFFSET_CACHE_MAX_SIZE].  The spec does not
    say which entries leave a full cache: [make_room] stands for that. *)
Definition ComputeSurfaceOffset (sok : SurfaceOffsetKey) (m_surface_offset_cache : cache)
    : SurfaceOffset * cache :=
  match m_surface_offset_cache !! tuple_of sok with
  | Some so => (so, m_surface_offset_cache)
  | None =>
      let so := resolve sok in
      let kept :=
        if S_SURFACE_OFFSET_CACHE_MAX_SIZE <=? Z.of_nat (size m_surface_offset_cache)
        then make_room m_surface_offset_cache else m_surface_offset_cache in
      (so, <[tuple_of sok := so]> kept)
  end.

(** The cache after a sequence of queries, oldest first. *)
Definition after (soks : list SurfaceOffsetKey) (table : cache) : cache :=
  fold_left (fun c sok => (ComputeSurfaceOffset sok c).2) soks table.

(** Modelled from the spec: what a bounded cache asks of [make_room].  A
    full cache is left with fewer entries than the bound, and with
    entries it had. *)
Definition makes_room : Prop :=
  forall table : cache,
    Z.of_nat (size table) = S_SURFACE_OFFSET_CACHE_MAX_SIZE ->
    Z.of_nat (size (make_room table)) < S_SURFACE_OFFSET_CACHE_MAX_SIZE
    /\ make_room table ⊆ table.


End Memo.

(** Two ways to make room, for the examples: to drop everything, and
    to drop one entry. *)
Definition drop_all (table : cache) : cache := ∅.


End SurfaceOffsetCache.

(** ** The registry of live Targets *)

Module TargetRegistry.
Import GSTextureCache.

(** [FastList<Target*> m_dst[2]]. *)
Record t : Type := mk { dst_rt : list Target; dst_ds : list Target }.

Definition m_dst (c : t) (type : TargetType) : list Target :=
  match type with RenderTarget => dst_rt c | DepthStencil => dst_ds c end.

Definition set_m_dst (type : TargetType) (l : list Target) (c : t) : t :=
  match type with
  | RenderTarget => mk l (dst_ds c)
  | DepthStencil => mk (dst_rt c) l
  end.

Definition empty : t := mk [] [].

Section Registry.

Variable MAX_BLOCKS : Z.




(** Modelled from the spec: the overlap test on the page ranges of two
    surfaces.  Per the spec the test uses the unwrapped ends, and a range
    may wrap the address space: the ranges are compared as they lie and
    with one of them moved by the size of the memory, so that the blocks
    from 0 of a range that wraps are met too. *)
Definition overlaps (a b : Surface) : bool :=
  let a_bp := TBP0 (m_TEX0 a) in
  let a_end := UnwrappedEndBlock MAX_BLOCKS a in
  let b_bp := TBP0 (m_TEX0 b) in
  let b_end := UnwrappedEndBlock MAX_BLOCKS b in
  CheckOverlap a_bp a_end b_bp b_end
  || CheckOverlap a_bp a_end (b_bp + MAX_BLOCKS) (b_end + MAX_BLOCKS)
  || CheckOverlap (a_bp + MAX_BLOCKS) (a_end + MAX_BLOCKS) b_bp b_end.

(** No two Targets of the list overlap. *)
Fixpoint exclusive (l : list Target) : bool :=
  match l with
  | [] => true
  | a :: rest => forallb (fun b : Target => negb (overlaps a b)) rest && exclusive rest
  end.

Definition mutually_exclusive (c : t) : bool :=
  exclusive (dst_rt c) && exclusive (dst_ds c).


(** Drops the first element that satisfies [p]. *)
Fixpoint evict_first (p : Target -> bool) (l : list Target) : list Target :=
  match l with
  | [] => []
  | a :: rest => if p a then rest else a :: evict_first p rest
  end.

(** Modelled from the spec: the test of [FindTargetOverlap], an existing
    Target at a different base address that the requested range
    overlaps. *)
Definition overlap_at_other_base (req : Surface) (old : Target) : bool :=
  negb (TBP0 (m_TEX0 old) =? TBP0 (m_TEX0 req)) && overlaps req old.


(** Modelled from the spec: a lookup hits a live Target of the type that
    matches exactly (same base address) or contains the requested range. *)
Definition matches (req : Surface) (old : Target) : bool :=
  (TBP0 (m_TEX0 old) =? TBP0 (m_TEX0 req))
  || ((TBP0 (m_TEX0 old) <=? TBP0 (m_TEX0 req))
      && (UnwrappedEndBlock MAX_BLOCKS req <=? UnwrappedEndBlock MAX_BLOCKS old)).

(** Modelled from the spec: the resize in place of the Target that a
    lookup found.  A Target that ends before the requested range does is
    made to end where the request ends; the renderer shows the end block
    of a Target changing with [ResizeTexture]. *)
Definition resize_in_place (req : Surface) (dst : Target) : Target :=
  if UnwrappedEndBlock MAX_BLOCKS req <=? UnwrappedEndBlock MAX_BLOCKS dst then dst
  else mkTarget (mkSurface (m_TEX0 dst) (m_age dst) (m_end_block req)) (m_type dst).

(** Modelled from the spec: [GSTextureCache::LookupTarget] is defined in
    GSTextureCache.cpp, which is not among the sources.  Per the spec: the
    live Targets of [type] are searched for an exact or containing match,
    which is resized in place and returned; on a miss a new Target is
    allocated, and where its range overlaps an existing Target at a
    different base address, that one (a result of [FindTargetOverlap]) is
    copied forward and evicted.  Overlapping claims must be resolved
    before a new claim is created: every Target that overlaps the new
    range is evicted, and so is every other Target that overlaps the
    range of a resized one.  [end_block] is the end of the requested
    range, which the page mapper derives from the size; the copy forward
    moves pixels, which the registry does not hold. *)
Definition LookupTarget (TEX0 : GIFRegTEX0) (end_block : Z) (type : TargetType) (c : t)
    : Target * t :=
  let req := mkSurface TEX0 0 end_block in
  match List.find (matches req) (m_dst c type) with
  | Some found =>
      let dst := resize_in_place req found in
      let others := evict_first (matches req) (m_dst c type) in
      let live := List.filter (fun old : Target => negb (overlaps dst old)) others in
      (dst, set_m_dst type (dst :: live) c)
  | None =>
      let dst := mkTarget req type in
      let live :=
        List.filter (fun old => negb (overlap_at_other_base req old)) (m_dst c type) in
      (dst, set_m_dst type (dst :: live) c)
  end.

(** Modelled from the spec: the Target side of
    [GSTextureCache::InvalidateVideoMem], defined in GSTextureCache.cpp.
    Per the spec another Target that overlaps the written rectangle has
    its valid rectangle shrunk, or is evicted when the intersection
    dominates it; [dominated] says for which Targets the rectangle
    arithmetic comes out that way. *)
Definition InvalidateVideoMem (dominated : Target -> bool) (c : t) : t :=
  mk (List.filter (fun a => negb (dominated a)) (dst_rt c))
     (List.filter (fun a => negb (dominated a)) (dst_ds c)).

(** Modelled from the spec: [GSTextureCache::InvalidateLocalMem] appends
    the write to the dirty queue of the intersecting Targets; the set of
    live Targets and their ranges stay. *)
Definition InvalidateLocalMem (c : t) : t := c.

Inductive operation : Type :=
| OpLookupTarget (TEX0 : GIFRegTEX0) (end_block : Z) (type : TargetType)
| OpInvalidateVideoMem (dominated : Target -> bool)
| OpInvalidateLocalMem.

Definition step (c : t) (o : operation) : t :=
  match o with
  | OpLookupTarget TEX0 end_block type => (LookupTarget TEX0 end_block type c).2
  | OpInvalidateVideoMem dominated => InvalidateVideoMem dominated c
  | OpInvalidateLocalMem => InvalidateLocalMem c
  end.

Definition steps (c : t) (os : list operation) : t := fold_left step os c.



End Registry.


End TargetRegistry.

(** ** A collaborator that only records *)

(** The answers given when nothing is known about the collaborators: no
    Target is found, every number is zero. *)
Definition default_answer (c : hw_call) : hw_answer c :=
  match c with
  | TC_InvalidateVideoMem _ _ _ _ => tt
  | TC_InvalidateLocalMem _ _ => tt
  | TC_IncAge => tt
  | TC_RemoveAll => tt
  | TC_GetHashCacheMemoryUsage => 0
  | TC_LookupDisplayTarget _ _ _ => None
  | Target_Update _ _ => tt
  | Target_m_texture _ => None
  | Target_m_scale _ => F32 0
  | Target_m_TEX0 _ => mkTEX0 0 0 0
  | GSTextureReplacements_ProcessAsyncLoadedTextures => tt
  | GSRenderer_VSync _ _ => tt
  | Host_AddKeyedFormattedOSDMessage _ _ => tt
  | Device_PurgePool => tt
  | PCRTC_GetFramebufferSize _ => GSVector2i.mk 0 0
  | PCRTC_RemoveFramebufferOffset _ => tt
  | PCRTC_Block _ => 0
  | PCRTC_FBW _ => 0
  | PCRTC_PSM _ => 0
  | GSLocalMemory_psm_pgs_y _ => 0
  end.

(** Its state is the list of the calls received so far, oldest first;
    the hash cache reports [usage] bytes. *)
Definition recorder (usage : Z) : Prog.handler HW (list hw_call) :=
  fun c seen =>
    (match c return hw_answer c with
     | TC_GetHashCacheMemoryUsage => usage
     | c => default_answer c
     end, seen ++ [c]).

(** A collaborator whose display lookup finds Target 1, with texture 9
    at block 0x100; the frame buffer is at block 0x500, ten pages wide,
    and a page of its format is 32 lines high. *)
Definition display_with_target : Prog.handler HW (list hw_call) :=
  fun c seen =>
    (match c return hw_answer c with
     | TC_LookupDisplayTarget _ _ _ => Some 1%positive
     | Target_m_texture _ => Some 9%positive
     | Target_m_TEX0 _ => mkTEX0 0x100 10 0
     | PCRTC_Block _ => 0x500
     | PCRTC_FBW _ => 10
     | GSLocalMemory_psm_pgs_y _ => 32
     | c => default_answer c
     end, seen ++ [c]).

(** ** Reading traces *)

Definition is_IncAge (c : hw_call) : bool :=
  match c with TC_IncAge => true | _ => false end.

(** The Targets whose [Update] was called, in order. *)
Definition updated (c : hw_call) : option (TargetPtr * bool) :=
  match c with Target_Update rt reset_age => Some (rt, reset_age) | _ => None end.

Definition updates (cs : list hw_call) : list (TargetPtr * bool) := omap updated cs.

(** The memory usage that a [TC_GetHashCacheMemoryUsage] event reports. *)
Definition reported_usage (e : Prog.event HW) : option Z :=
  match projT1 e as c return hw_answer c -> option Z with
  | TC_GetHashCacheMemoryUsage => fun bytes => Some bytes
  | _ => fun _ => None
  end (projT2 e).

Definition first_usage (tr : list (Prog.event HW)) : option Z :=
  head (omap reported_usage tr).

(** A trace shows a display lookup whose Target, if one is found, is
    updated at once and whose texture is read right after the update:
    [Update] is called on the found Target, before its texture is read,
    and on nothing else; [returned] is the texture handed back. *)
Definition updates_found_target_only (tr : list (Prog.event HW))
    (returned : option GSTexturePtr) : Prop :=
  exists (pre : list (Prog.event HW)) (TEX0 : GIFRegTEX0) (size : GSVector2i.t) (scale : f32)
         (found : option TargetPtr) (rest : list (Prog.event HW)),
    tr = pre ++ Prog.ev (E := HW) (TC_LookupDisplayTarget TEX0 size scale) found :: rest
    /\ updates (map Prog.called pre) = []
    /\ match found with
       | Some rt =>
           exists (t : option GSTexturePtr) (later : list (Prog.event HW)),
             rest = Prog.ev (E := HW) (Target_Update rt false) tt
                    :: Prog.ev (E := HW) (Target_m_texture rt) t :: later
             /\ updates (map Prog.called later) = []
             /\ returned = t
       | None => rest = [] /\ returned = None
       end.

(** The rectangle of the first of two invalidations: the original one
    clamped to the 2048 boundary. *)
Definition clamped_2048 (r : GSVector4i.t) : GSVector4i.t :=
  GSVector4i.mk (GSVector4i.x r) (GSVector4i.y r)
                (Z.min (GSVector4i.z r) 2048) (Z.min (GSVector4i.w r) 2048).

(** A Direct3D device that is out of memory: every creation fails with
    [E_OUTOFMEMORY] (0x8007000E as a signed 32-bit value) and stores no
    texture. *)
Definition E_OUTOFMEMORY : Z := Int.s32 0x8007000E.

Definition device_out_of_memory : Prog.handler D3D11.D3D unit :=
  fun c w => ((E_OUTOFMEMORY, None), w).

(** ** [GSTextureCache::SourceRegion] *)

Module SourceRegion.

Definition u64 (z : Z) : Z := z mod 2 ^ 64.

(** [u64 bits]: the X range in the low 32 bits, the Y range in the high
    32 bits, 16 bits for each bound. *)
Record t : Type := mk { bits : Z }.

Definition HasX (s : t) : bool := negb (Int.u32 (bits s) =? 0).
Definition HasY (s : t) : bool := negb (Int.u32 (Z.shiftr (bits s) 32) =? 0).
Definition HasEither (s : t) : bool := negb (bits s =? 0).

(** [bits |= (min | (max << 16))], on [u32] operands. *)
Definition SetX (min max : Z) (s : t) : t :=
  mk (Z.lor (bits s) (Z.lor min (Int.u32 (Z.shiftl max 16)))).

(** [bits |= ((static_cast<u64>(min) << 32) | (static_cast<u64>(max) << 48))]. *)
Definition SetY (min max : Z) (s : t) : t :=
  mk (Z.lor (bits s) (Z.lor (u64 (Z.shiftl min 32)) (u64 (Z.shiftl max 48)))).

Definition GetMinX (s : t) : Z := Z.land (Int.u32 (bits s)) 0xFFFF.
Definition GetMaxX (s : t) : Z := Z.land (Int.u32 (Z.shiftr (bits s) 16)) 0xFFFF.
Definition GetMinY (s : t) : Z := Z.land (Int.u32 (Z.shiftr (bits s) 32)) 0xFFFF.
Definition GetMaxY (s : t) : Z := Int.u32 (Z.shiftr (bits s) 48).

Definition GetWidth (s : t) : Z := Int.u32 (GetMaxX s - GetMinX s).
Definition GetHeight (s : t) : Z := Int.u32 (GetMaxY s - GetMinY s).

End SourceRegion.

(** ** [GSRendererHW::Reset] and [GSRendererHW::HasEEUpload] *)

(** The collaborators of these two bodies. *)
Inductive hw_call2 : Type :=
| TC2_RemoveAll
| GSRenderer_Reset (hardware_reset : bool)
| TC2_ComputeSurfaceOffset (sok : GSTextureCache.SurfaceOffsetKey).

Definition hw_answer2 (c : hw_call2) : Type :=
  match c with
  | TC2_ComputeSurfaceOffset _ => GSTextureCache.SurfaceOffset
  | _ => unit
  end.

Definition HW2 : Prog.Sig := Prog.MkSig hw_call2 hw_answer2.

Definition hw2 (c : hw_call2) : Prog.t HW2 (hw_answer2 c) := @Prog.call HW2 c.

(** Force targets to preload for 2 frames (for 30fps games). *)
Definition TARGET_PRELOAD_FRAMES : Z := 2.

Definition Reset (this : GSRendererHW) (hardware_reset : bool) : Prog.t HW2 GSRendererHW :=
  hw2 TC2_RemoveAll;;
  let this := mkHW TARGET_PRELOAD_FRAMES (m_draw_transfers this) (m_last_draw_n this)
                   (m_last_transfer_n this) (m_skip this) (m_skip_offset this) in
  hw2 (GSRenderer_Reset hardware_reset);;
  mret this.

Section HasEEUpload.

(** [GSUtil::HasSharedBits], [GSUtil::HasCompatibleBits] and
    [GSVector4i::rintersect] are defined with their classes. *)
Variable HasSharedBits : Z -> Z -> bool.
Variable HasCompatibleBits : Z -> Z -> bool.
Variable rintersect : GSVector4i.t -> GSVector4i.t -> GSVector4i.t.

(** The body of the [for] loop for one recorded transfer: [Some true]
    when the function returns from inside the loop. *)
Definition HasEEUpload_iter (s_n : Z) (TEX0 : GIFRegTEX0) (r : GSVector4i.t)
    (iter : GSUploadQueue) : Prog.t HW2 bool :=
  if (draw iter =? Int.s32 (s_n - 1)) && (DBP (blit iter) =? TBP0 TEX0)
     && HasSharedBits (DPSM (blit iter)) (PSM TEX0)
  then
    rect ←
      (if negb (HasCompatibleBits (DPSM (blit iter)) (PSM TEX0)) then
         so ← hw2 (TC2_ComputeSurfaceOffset (HasEEUpload_sok iter TEX0 r));
         mret (GSTextureCache.b2a_offset so)
       else mret r);
    mret (GSVector4i.eq (rintersect rect r) r)
  else mret false.

Fixpoint HasEEUpload_from (s_n : Z) (TEX0 : GIFRegTEX0) (r : GSVector4i.t)
    (transfers : list GSUploadQueue) : Prog.t HW2 bool :=
  match transfers with
  | [] => mret false
  | iter :: later =>
      found ← HasEEUpload_iter s_n TEX0 r iter;
      if found : bool then mret true else HasEEUpload_from s_n TEX0 r later
  end.

(** A transfer that the loop looks at: recorded for the previous draw,
    to the base of the texture, in a format that shares bits with it. *)
Definition candidate (s_n : Z) (TEX0 : GIFRegTEX0) (iter : GSUploadQueue) : Prop :=
  draw iter = Int.s32 (s_n - 1) /\ DBP (blit iter) = TBP0 TEX0
  /\ HasSharedBits (DPSM (blit iter)) (PSM TEX0) = true.

(** [TEX0] is [m_context->TEX0]. *)
Definition HasEEUpload (s_n : Z) (this : GSRendererHW) (TEX0 : GIFRegTEX0) (r : GSVector4i.t)
    : Prog.t HW2 bool :=
  HasEEUpload_from s_n TEX0 r (m_draw_transfers this).

End HasEEUpload.

(** The keys that reach the surface offset resolver. *)
Definition offset_query (c : hw_call2) : option GSTextureCache.SurfaceOffsetKey :=
  match c with TC2_ComputeSurfaceOffset sok => Some sok | _ => None end.

(** The rectangle intersection of [GSVector4i], for the examples. *)
Definition rintersect_example (a b : GSVector4i.t) : GSVector4i.t :=
  GSVector4i.mk (Z.max (GSVector4i.x a) (GSVector4i.x b)) (Z.max (GSVector4i.y a) (GSVector4i.y b))
                (Z.min (GSVector4i.z a) (GSVector4i.z b)) (Z.min (GSVector4i.w a) (GSVector4i.w b)).


(** ** [GSDevice11]: stream buffers and the cached pipeline state *)

Module Device11.

(** Pointers are addresses; [nullptr] is 0. *)
Definition ptr : Type := Z.
Definition nullptr : ptr := 0.

Inductive D3D11_MAP : Type := D3D11_MAP_WRITE_DISCARD | D3D11_MAP_WRITE_NO_OVERWRITE.

(** The two stream buffers of the device. *)
Inductive stream_buffer : Type := m_vb | m_ib.

(** [FAILED (hr)]. *)
Definition FAILED (hr : Z) : bool := hr <? 0.

Definition D3D11_PRIMITIVE_TOPOLOGY_TRIANGLESTRIP : Z := 5.

(** [GSVector2i::operator!=]. *)
Definition GSVector2i_ne (a b : GSVector2i.t) : bool :=
  negb ((GSVector2i.x a =? GSVector2i.x b) && (GSVector2i.y a =? GSVector2i.y b)).

(** [m_state]: what the device remembers to have bound. *)
Record State : Type := mkState {
  vb_stride : Z;
  layout : ptr;
  topology : Z;
  vs : ptr;
  vs_cb : ptr;
  gs : ptr;
  gs_cb : ptr;
  ps : ptr;
  ps_cb : ptr;
  ps_sr_views : list ptr;
  ps_ss : list ptr;
  dss : ptr;
  sref : Z;
  bs : ptr;
  bf : f32;
  rt_view : ptr;
  dsv : ptr;
  viewport : GSVector2i.t;
  scissor : GSVector4i.t
}.

Definition set_vb_stride (v : Z) (s : State) : State :=
  mkState v (layout s) (topology s) (vs s) (vs_cb s) (gs s) (gs_cb s) (ps s) (ps_cb s) (ps_sr_views s) (ps_ss s) (dss s) (sref s) (bs s) (bf s) (rt_view s) (dsv s) (viewport s) (scissor s).

Definition set_layout (v : ptr) (s : State) : State :=
  mkState (vb_stride s) v (topology s) (vs s) (vs_cb s) (gs s) (gs_cb s) (ps s) (ps_cb s) (ps_sr_views s) (ps_ss s) (dss s) (sref s) (bs s) (bf s) (rt_view s) (dsv s) (viewport s) (scissor s).

Definition set_topology (v : Z) (s : State) : State :=
  mkState (vb_stride s) (layout s) v (vs s) (vs_cb s) (gs s) (gs_cb s) (ps s) (ps_cb s) (ps_sr_views s) (ps_ss s) (dss s) (sref s) (bs s) (bf s) (rt_view s) (dsv s) (viewport s) (scissor s).

Definition set_vs (v : ptr) (s : State) : State :=
  mkState (vb_stride s) (layout s) (topology s) v (vs_cb s) (gs s) (gs_cb s) (ps s) (ps_cb s) (ps_sr_views s) (ps_ss s) (dss s) (sref s) (bs s) (bf s) (rt_view s) (dsv s) (viewport s) (scissor s).

Definition set_vs_cb (v : ptr) (s : State) : State :=
  mkState (vb_stride s) (layout s) (topology s) (vs s) v (gs s) (gs_cb s) (ps s) (ps_cb s) (ps_sr_views s) (ps_ss s) (dss s) (sref s) (bs s) (bf s) (rt_view s) (dsv s) (viewport s) (scissor s).

Definition set_gs (v : ptr) (s : State) : State :=
  mkState (vb_stride s) (layout s) (topology s) (vs s) (vs_cb s) v (gs_cb s) (ps s) (ps_cb s) (ps_sr_views s) (ps_ss s) (dss s) (sref s) (bs s) (bf s) (rt_view s) (dsv s) (viewport s) (scissor s).

Definition set_gs_cb (v : ptr) (s : State) : State :=
  mkState (vb_stride s) (layout s) (topology s) (vs s) (vs_cb s) (gs s) v (ps s) (ps_cb s) (ps_sr_views s) (ps_ss s) (dss s) (sref s) (bs s) (bf s) (rt_view s) (dsv s) (viewport s) (scissor s).

Definition set_ps (v : ptr) (s : State) : State :=
  mkState (vb_stride s) (layout s) (topology s) (vs s) (vs_cb s) (gs s) (gs_cb s) v (ps_cb s) (ps_sr_views s) (ps_ss s) (dss s) (sref s) (bs s) (bf s) (rt_view s) (dsv s) (viewport s) (scissor s).

Definition set_ps_cb (v : ptr) (s : State) : State :=
  mkState (vb_stride s) (layout s) (topology s) (vs s) (vs_cb s) (gs s) (gs_cb s) (ps s) v (ps_sr_views s) (ps_ss s) (dss s) (sref s) (bs s) (bf s) (rt_view s) (dsv s) (viewport s) (scissor s).

Definition set_ps_sr_views (v : list ptr) (s : State) : State :=
  mkState (vb_stride s) (layout s) (topology s) (vs s) (vs_cb s) (gs s) (gs_cb s) (ps s) (ps_cb s) v (ps_ss s) (dss s) (sref s) (bs s) (bf s) (rt_view s) (dsv s) (viewport s) (scissor s).

Definition set_ps_ss (v : list ptr) (s : State) : State :=
  mkState (vb_stride s) (layout s) (topology s) (vs s) (vs_cb s) (gs s) (gs_cb s) (ps s) (ps_cb s) (ps_sr_views s) v (dss s) (sref s) (bs s) (bf s) (rt_view s) (dsv s) (viewport s) (scissor s).

Definition set_dss (v : ptr) (s : State) : State :=
  mkState (vb_stride s) (layout s) (topology s) (vs s) (vs_cb s) (gs s) (gs_cb s) (ps s) (ps_cb s) (ps_sr_views s) (ps_ss s) v (sref s) (bs s) (bf s) (rt_view s) (dsv s) (viewport s) (scissor s).

Definition set_sref (v : Z) (s : State) : State :=
  mkState (vb_stride s) (layout s) (topology s) (vs s) (vs_cb s) (gs s) (gs_cb s) (ps s) (ps_cb s) (ps_sr_views s) (ps_ss s) (dss s) v (bs s) (bf s) (rt_view s) (dsv s) (viewport s) (scissor s).

Definition set_bs (v : ptr) (s : State) : State :=
  mkState (vb_stride s) (layout s) (topology s) (vs s) (vs_cb s) (gs s) (gs_cb s) (ps s) (ps_cb s) (ps_sr_views s) (ps_ss s) (dss s) (sref s) v (bf s) (rt_view s) (dsv s) (viewport s) (scissor s).

Definition set_bf (v : f32) (s : State) : State :=
  mkState (vb_stride s) (layout s) (topology s) (vs s) (vs_cb s) (gs s) (gs_cb s) (ps s) (ps_cb s) (ps_sr_views s) (ps_ss s) (dss s) (sref s) (bs s) v (rt_view s) (dsv s) (viewport s) (scissor s).

Definition set_rt_view (v : ptr) (s : State) : State :=
  mkState (vb_stride s) (layout s) (topology s) (vs s) (vs_cb s) (gs s) (gs_cb s) (ps s) (ps_cb s) (ps_sr_views s) (ps_ss s) (dss s) (sref s) (bs s) (bf s) v (dsv s) (viewport s) (scissor s).

Definition set_dsv (v : ptr) (s : State) : State :=
  mkState (vb_stride s) (layout s) (topology s) (vs s) (vs_cb s) (gs s) (gs_cb s) (ps s) (ps_cb s) (ps_sr_views s) (ps_ss s) (dss s) (sref s) (bs s) (bf s) (rt_view s) v (viewport s) (scissor s).

Definition set_viewport (v : GSVector2i.t) (s : State) : State :=
  mkState (vb_stride s) (layout s) (topology s) (vs s) (vs_cb s) (gs s) (gs_cb s) (ps s) (ps_cb s) (ps_sr_views s) (ps_ss s) (dss s) (sref s) (bs s) (bf s) (rt_view s) (dsv s) v (scissor s).

Definition set_scissor (v : GSVector4i.t) (s : State) : State :=
  mkState (vb_stride s) (layout s) (topology s) (vs s) (vs_cb s) (gs s) (gs_cb s) (ps s) (ps_cb s) (ps_sr_views s) (ps_ss s) (dss s) (sref s) (bs s) (bf s) (rt_view s) (dsv s) (viewport s) v.
(** [m_vertex] and [m_index]: the range of the last mapping. *)
Module Range.
Record t : Type := mk { start : Z; count : Z }.
End Range.

(** The members of [GSDevice11] that the modelled bodies use; the
    positions and ranges are [u32]. *)
Record t : Type := mk {
  m_vb_pos : Z;
  m_ib_pos : Z;
  m_vertex : Range.t;
  m_index : Range.t;
  m_state : State
}.

Definition set_m_vb_pos (v : Z) (d : t) : t := mk v (m_ib_pos d) (m_vertex d) (m_index d) (m_state d).
Definition set_m_ib_pos (v : Z) (d : t) : t := mk (m_vb_pos d) v (m_vertex d) (m_index d) (m_state d).
Definition set_m_vertex (v : Range.t) (d : t) : t := mk (m_vb_pos d) (m_ib_pos d) v (m_index d) (m_state d).
Definition set_m_index (v : Range.t) (d : t) : t := mk (m_vb_pos d) (m_ib_pos d) (m_vertex d) v (m_state d).
Definition set_m_state (v : State) (d : t) : t := mk (m_vb_pos d) (m_ib_pos d) (m_vertex d) (m_index d) v.

(** The calls made on [m_ctx], on views and textures, and the copies into
    mapped memory.  [Ctx_Map] answers the [HRESULT] and [m.pData];
    [Ctx_RSSetViewports size] is the call with the viewport at the origin,
    of the width and height of [size], with depth from 0 to 1;
    [Ctx_OMSetRenderTargets n rtv dsv] passes [n] render target views. *)
Inductive ctx_call : Type :=
| Ctx_Map (b : stream_buffer) (type : D3D11_MAP)
| Ctx_Unmap (b : stream_buffer)
| Ctx_storent (dst src : ptr) (size : Z)
| Ctx_memcpy (dst src : ptr) (size : Z)
| Ctx_IASetVertexBuffers (stride : Z)
| Ctx_IASetIndexBuffer
| Ctx_IASetInputLayout (layout : ptr)
| Ctx_IASetPrimitiveTopology (topology : Z)
| Ctx_VSSetShader (vs : ptr)
| Ctx_VSSetConstantBuffers (cb : ptr)
| Ctx_GSSetShader (gs : ptr)
| Ctx_GSSetConstantBuffers (cb : ptr)
| Ctx_PSSetShader (ps : ptr)
| Ctx_PSSetConstantBuffers (cb : ptr)
| Ctx_PSSetShaderResources (views : list ptr)
| Ctx_PSSetSamplers (samplers : list ptr)
| Ctx_OMSetDepthStencilState (dss : ptr) (sref : Z)
| Ctx_OMSetBlendState (bs : ptr) (factors : list f32) (mask : Z)
| Ctx_OMSetRenderTargets (n : Z) (rtv dsv : ptr)
| Ctx_RSSetViewports (size : GSVector2i.t)
| Ctx_RSSetScissorRects (r : GSVector4i.t)
| Ctx_RSSetState
| Ctx_AddRef (view : ptr)
| Ctx_Release (view : ptr)
| Ctx_Draw (count start : Z)
| Ctx_DrawIndexed (count start base : Z)
| PerfMon_Put_DrawCalls
| Texture_RenderTargetView (t : ptr)
| Texture_DepthStencilView (t : ptr)
| Texture_GetSize (t : ptr).

Definition ctx_answer (c : ctx_call) : Type :=
  match c with
  | Ctx_Map _ _ => (Z * ptr)%type
  | Texture_RenderTargetView _ | Texture_DepthStencilView _ => ptr
  | Texture_GetSize _ => GSVector2i.t
  | _ => unit
  end.

Definition CTX : Prog.Sig := Prog.MkSig ctx_call ctx_answer.

Definition ctx (c : ctx_call) : Prog.t CTX (ctx_answer c) := @Prog.call CTX c.

(** *** The stream buffers *)

Section Buffers.

(** The sizes in bytes of the two buffers, constants of the class. *)
Variable VERTEX_BUFFER_SIZE : Z.
Variable INDEX_BUFFER_SIZE : Z.

(** [stride] and [count] are [u32]; the division is undefined in the
    source for a [stride] of 0. *)
Definition IAMapVertexBuffer (this : t) (stride count : Z) : Prog.t CTX (ptr * t) :=
  let size := Int.u32 (stride * count) in
  if VERTEX_BUFFER_SIZE <? size then mret (nullptr, this)
  else
    let type := D3D11_MAP_WRITE_NO_OVERWRITE in
    let this := set_m_vertex
                  (Range.mk (Int.u32 (m_vb_pos this + (stride - 1)) / stride)
                           (Range.count (m_vertex this))) this in
    let this := set_m_vb_pos (Int.u32 (Range.start (m_vertex this) * stride + size)) this in
    let '(this, type) :=
      if VERTEX_BUFFER_SIZE <? m_vb_pos this then
        (set_m_vb_pos size (set_m_vertex (Range.mk 0 (Range.count (m_vertex this))) this),
         D3D11_MAP_WRITE_DISCARD)
      else (this, type) in
    '(hr, pData) ← ctx (Ctx_Map m_vb type);
    if FAILED hr then mret (nullptr, this)
    else mret (pData + Int.u32 (Range.start (m_vertex this) * stride), this).

Definition IAUnmapVertexBuffer (this : t) (stride count : Z) : Prog.t CTX t :=
  ctx (Ctx_Unmap m_vb);;
  this ←
    (if negb (vb_stride (m_state this) =? stride) then
       let this := set_m_state (set_vb_stride stride (m_state this)) this in
       ctx (Ctx_IASetVertexBuffers stride);;
       mret this
     else mret this);
  mret (set_m_vertex (Range.mk (Range.start (m_vertex this)) count) this).

Definition IASetVertexBuffer (this : t) (vertex : ptr) (stride count : Z)
    : Prog.t CTX (bool * t) :=
  '(map, this) ← IAMapVertexBuffer this stride count;
  if map =? nullptr then mret (false, this)
  else
    ctx (Ctx_storent map vertex (Int.u32 (count * stride)));;
    this ← IAUnmapVertexBuffer this stride count;
    mret (true, this).

(** [sizeof (u32)] is 4; the returned [u32*] advances by elements. *)
Definition IAMapIndexBuffer (this : t) (count : Z) : Prog.t CTX (ptr * t) :=
  if INDEX_BUFFER_SIZE / 4 <? count then mret (nullptr, this)
  else
    let type := D3D11_MAP_WRITE_NO_OVERWRITE in
    let this := set_m_index (Range.mk (m_ib_pos this) (Range.count (m_index this))) this in
    let this := set_m_ib_pos (Int.u32 (m_ib_pos this + count)) this in
    let '(this, type) :=
      if INDEX_BUFFER_SIZE / 4 <? m_ib_pos this then
        (set_m_ib_pos count (set_m_index (Range.mk 0 (Range.count (m_index this))) this),
         D3D11_MAP_WRITE_DISCARD)
      else (this, type) in
    '(hr, pData) ← ctx (Ctx_Map m_ib type);
    if FAILED hr then mret (nullptr, this)
    else mret (pData + 4 * Range.start (m_index this), this).

Definition IAUnmapIndexBuffer (this : t) (count : Z) : Prog.t CTX t :=
  ctx (Ctx_Unmap m_ib);;
  mret (set_m_index (Range.mk (Range.start (m_index this)) count) this).

Definition IASetIndexBuffer (this : t) (index : ptr) (count : Z) : Prog.t CTX (bool * t) :=
  '(map, this) ← IAMapIndexBuffer this count;
  if map =? nullptr then mret (false, this)
  else
    ctx (Ctx_memcpy map index (count * 4));;
    this ← IAUnmapIndexBuffer this count;
    mret (true, this).

End Buffers.

(** *** Drawing *)

Definition PSUpdateShaderState (this : t) : Prog.t CTX unit :=
  ctx (Ctx_PSSetShaderResources (ps_sr_views (m_state this)));;
  ctx (Ctx_PSSetSamplers (ps_ss (m_state this))).

Definition DrawPrimitive (this : t) : Prog.t CTX unit :=
  ctx PerfMon_Put_DrawCalls;;
  PSUpdateShaderState this;;
  ctx (Ctx_Draw (Range.count (m_vertex this)) (Range.start (m_vertex this))).

Definition DrawIndexedPrimitive (this : t) : Prog.t CTX unit :=
  ctx PerfMon_Put_DrawCalls;;
  PSUpdateShaderState this;;
  ctx (Ctx_DrawIndexed (Range.count (m_index this)) (Range.start (m_index this)) (Range.start (m_vertex this))).

(** The overload with [int offset, int count]; the [ASSERT] is a debug
    check. *)
Definition DrawIndexedPrimitive_range (this : t) (offset count : Z) : Prog.t CTX unit :=
  ctx PerfMon_Put_DrawCalls;;
  PSUpdateShaderState this;;
  ctx (Ctx_DrawIndexed (Int.u32 count) (Int.u32 (Range.start (m_index this) + offset))
         (Range.start (m_vertex this))).

(** *** The state setters *)

Definition IASetInputLayout (this : t) (layout : ptr) : Prog.t CTX t :=
  if negb (Device11.layout (m_state this) =? layout) then
    let this := set_m_state (set_layout layout (m_state this)) this in
    ctx (Ctx_IASetInputLayout layout);;
    mret this
  else mret this.

Definition IASetPrimitiveTopology (this : t) (topology : Z) : Prog.t CTX t :=
  if negb (Device11.topology (m_state this) =? topology) then
    let this := set_m_state (set_topology topology (m_state this)) this in
    ctx (Ctx_IASetPrimitiveTopology topology);;
    mret this
  else mret this.

Definition VSSetShader (this : t) (vs vs_cb : ptr) : Prog.t CTX t :=
  this ←
    (if negb (Device11.vs (m_state this) =? vs) then
       let this := set_m_state (set_vs vs (m_state this)) this in
       ctx (Ctx_VSSetShader vs);;
       mret this
     else mret this);
  if negb (Device11.vs_cb (m_state this) =? vs_cb) then
    let this := set_m_state (set_vs_cb vs_cb (m_state this)) this in
    ctx (Ctx_VSSetConstantBuffers vs_cb);;
    mret this
  else mret this.

Definition GSSetShader (this : t) (gs gs_cb : ptr) : Prog.t CTX t :=
  this ←
    (if negb (Device11.gs (m_state this) =? gs) then
       let this := set_m_state (set_gs gs (m_state this)) this in
       ctx (Ctx_GSSetShader gs);;
       mret this
     else mret this);
  if negb (Device11.gs_cb (m_state this) =? gs_cb) then
    let this := set_m_state (set_gs_cb gs_cb (m_state this)) this in
    ctx (Ctx_GSSetConstantBuffers gs_cb);;
    mret this
  else mret this.

Definition PSSetShader (this : t) (ps ps_cb : ptr) : Prog.t CTX t :=
  this ←
    (if negb (Device11.ps (m_state this) =? ps) then
       let this := set_m_state (set_ps ps (m_state this)) this in
       ctx (Ctx_PSSetShader ps);;
       mret this
     else mret this);
  if negb (Device11.ps_cb (m_state this) =? ps_cb) then
    let this := set_m_state (set_ps_cb ps_cb (m_state this)) this in
    ctx (Ctx_PSSetConstantBuffers ps_cb);;
    mret this
  else mret this.

(** [sref] is a [u8]. *)
Definition OMSetDepthStencilState (this : t) (dss sref : Z) : Prog.t CTX t :=
  if negb (Device11.dss (m_state this) =? dss) || negb (Device11.sref (m_state this) =? sref) then
    let this := set_m_state (set_sref sref (set_dss dss (m_state this))) this in
    ctx (Ctx_OMSetDepthStencilState dss sref);;
    mret this
  else mret this.

(** How a call ends. *)
Inductive completion : Type := Returns | Throws_GSRecoverableError.

(** [rt] and [ds] are [GSTexture*]; converting a texture to a view and
    asking its size are calls on the texture.  [scissor] is [None] for
    the default argument, a null pointer.  [GSVector4i (size).zwxy ()] has
    the lanes (0, 0, size.x, size.y). *)
Definition OMSetRenderTargets (this : t) (rt ds : ptr) (scissor : option GSVector4i.t)
    : Prog.t CTX (completion * t) :=
  if (rt =? nullptr) && (ds =? nullptr) then mret (Throws_GSRecoverableError, this)
  else
    rtv ← (if negb (rt =? nullptr) then ctx (Texture_RenderTargetView rt) else mret nullptr);
    dsv ← (if negb (ds =? nullptr) then ctx (Texture_DepthStencilView ds) else mret nullptr);
    let changed := negb (rt_view (m_state this) =? rtv) || negb (Device11.dsv (m_state this) =? dsv) in
    this ←
      (if negb (rt_view (m_state this) =? rtv) then
         (if negb (rt_view (m_state this) =? nullptr)
          then ctx (Ctx_Release (rt_view (m_state this))) else mret tt);;
         (if negb (rtv =? nullptr) then ctx (Ctx_AddRef rtv) else mret tt);;
         mret (set_m_state (set_rt_view rtv (m_state this)) this)
       else mret this);
    this ←
      (if negb (Device11.dsv (m_state this) =? dsv) then
         (if negb (Device11.dsv (m_state this) =? nullptr)
          then ctx (Ctx_Release (Device11.dsv (m_state this))) else mret tt);;
         (if negb (dsv =? nullptr) then ctx (Ctx_AddRef dsv) else mret tt);;
         mret (set_m_state (set_dsv dsv (m_state this)) this)
       else mret this);
    (if changed then ctx (Ctx_OMSetRenderTargets 1 rtv dsv) else mret tt);;
    size ← ctx (Texture_GetSize (if negb (rt =? nullptr) then rt else ds));
    this ←
      (if GSVector2i_ne (viewport (m_state this)) size then
         let this := set_m_state (set_viewport size (m_state this)) this in
         ctx (Ctx_RSSetViewports size);;
         mret this
       else mret this);
    let r := match scissor with
             | Some s => s
             | None => GSVector4i.mk 0 0 (GSVector2i.x size) (GSVector2i.y size)
             end in
    this ←
      (if negb (GSVector4i.eq (Device11.scissor (m_state this)) r) then
         let this := set_m_state (set_scissor r (m_state this)) this in
         ctx (Ctx_RSSetScissorRects r);;
         mret this
       else mret this);
    mret (Returns, this).

(** [GSDevice11::ResetAPIState] and [GSDevice11::RestoreAPIState]. *)
Definition ResetAPIState (this : t) : Prog.t CTX unit :=
  ctx (Ctx_GSSetShader nullptr).

Definition RestoreAPIState (this : t) : Prog.t CTX unit :=
  let s := m_state this in
  ctx (Ctx_IASetVertexBuffers (vb_stride s));;
  ctx Ctx_IASetIndexBuffer;;
  ctx (Ctx_IASetInputLayout (layout s));;
  ctx (Ctx_IASetPrimitiveTopology (topology s));;
  ctx (Ctx_VSSetShader (vs s));;
  ctx (Ctx_VSSetConstantBuffers (vs_cb s));;
  ctx (Ctx_GSSetShader (gs s));;
  ctx (Ctx_GSSetConstantBuffers (gs_cb s));;
  ctx (Ctx_PSSetShader (ps s));;
  ctx (Ctx_PSSetConstantBuffers (ps_cb s));;
  ctx (Ctx_RSSetViewports (viewport s));;
  ctx (Ctx_RSSetScissorRects (scissor s));;
  ctx Ctx_RSSetState;;
  ctx (Ctx_OMSetDepthStencilState (dss s) (sref s));;
  ctx (Ctx_OMSetBlendState (bs s) [bf s; bf s; bf s; bf s] 0xFFFFFFFF);;
  PSUpdateShaderState this;;
  if negb (rt_view s =? nullptr) then ctx (Ctx_OMSetRenderTargets 1 (rt_view s) (dsv s))
  else ctx (Ctx_OMSetRenderTargets 0 nullptr (dsv s)).

(** [GSDevice11::OMSetBlendState].  [float_ne a b] is the comparison
    [a != b] of two [float]s; the last blend factor passed to the context
    is the literal [0]. *)
Definition OMSetBlendState (float_ne : f32 -> f32 -> bool) (this : t) (bs' : ptr) (bf' : f32)
    : Prog.t CTX t :=
  if negb (bs (m_state this) =? bs') || float_ne (bf (m_state this)) bf' then
    let this := set_m_state (set_bf bf' (set_bs bs' (m_state this))) this in
    ctx (Ctx_OMSetBlendState bs' [bf'; bf'; bf'; F32 0] 0xffffffff);;
    mret this
  else mret this.

(** One use of a setter, and a sequence of them; a throw ends the
    sequence. *)
Inductive invocation : Type :=
| Use_IAUnmapVertexBuffer (stride count : Z)
| Use_IASetInputLayout (layout : ptr)
| Use_IASetPrimitiveTopology (topology : Z)
| Use_VSSetShader (vs vs_cb : ptr)
| Use_GSSetShader (gs gs_cb : ptr)
| Use_PSSetShader (ps ps_cb : ptr)
| Use_OMSetDepthStencilState (dss sref : Z)
| Use_OMSetRenderTargets (rt ds : ptr) (scissor : option GSVector4i.t).

Definition invoke (this : t) (i : invocation) : Prog.t CTX (completion * t) :=
  match i with
  | Use_IAUnmapVertexBuffer stride count =>
      this ← IAUnmapVertexBuffer this stride count; mret (Returns, this)
  | Use_IASetInputLayout layout => this ← IASetInputLayout this layout; mret (Returns, this)
  | Use_IASetPrimitiveTopology topology =>
      this ← IASetPrimitiveTopology this topology; mret (Returns, this)
  | Use_VSSetShader vs vs_cb => this ← VSSetShader this vs vs_cb; mret (Returns, this)
  | Use_GSSetShader gs gs_cb => this ← GSSetShader this gs gs_cb; mret (Returns, this)
  | Use_PSSetShader ps ps_cb => this ← PSSetShader this ps ps_cb; mret (Returns, this)
  | Use_OMSetDepthStencilState dss sref =>
      this ← OMSetDepthStencilState this dss sref; mret (Returns, this)
  | Use_OMSetRenderTargets rt ds scissor => OMSetRenderTargets this rt ds scissor
  end.

Fixpoint invoke_all (this : t) (uses : list invocation) : Prog.t CTX (completion * t) :=
  match uses with
  | [] => mret (Returns, this)
  | i :: later =>
      '(c, this) ← invoke this i;
      match c with
      | Returns => invoke_all this later
      | Throws_GSRecoverableError => mret (c, this)
      end
  end.

(** What the context has bound after a call: a [Set] call replaces the
    binding of its slot, any other call leaves the bindings as they
    are. *)
Definition bound_after (b : State) (c : ctx_call) : State :=
  match c with
  | Ctx_IASetVertexBuffers stride => set_vb_stride stride b
  | Ctx_IASetInputLayout layout => set_layout layout b
  | Ctx_IASetPrimitiveTopology topology => set_topology topology b
  | Ctx_VSSetShader vs => set_vs vs b
  | Ctx_VSSetConstantBuffers cb => set_vs_cb cb b
  | Ctx_GSSetShader gs => set_gs gs b
  | Ctx_GSSetConstantBuffers cb => set_gs_cb cb b
  | Ctx_PSSetShader ps => set_ps ps b
  | Ctx_PSSetConstantBuffers cb => set_ps_cb cb b
  | Ctx_OMSetDepthStencilState dss sref => set_sref sref (set_dss dss b)
  | Ctx_OMSetRenderTargets n rtv dsv =>
      set_dsv dsv (set_rt_view (if n =? 0 then nullptr else rtv) b)
  | Ctx_RSSetViewports size => set_viewport size b
  | Ctx_RSSetScissorRects r => set_scissor r b
  | _ => b
  end.

(** The remembered state agrees with the bindings of the context on
    the slots that the setters filter. *)
Definition agrees (s b : State) : Prop :=
  vb_stride s = vb_stride b /\ layout s = layout b /\ topology s = topology b
  /\ vs s = vs b /\ vs_cb s = vs_cb b /\ gs s = gs b /\ gs_cb s = gs_cb b
  /\ ps s = ps b /\ ps_cb s = ps_cb b /\ dss s = dss b /\ sref s = sref b
  /\ rt_view s = rt_view b /\ dsv s = dsv b
  /\ viewport s = viewport b /\ scissor s = scissor b.

(** The blend state, blend factors and sample mask that the context has
    bound after a sequence of calls, and the shader resource views and
    samplers of its pixel shader stage. *)
Definition blend_after (b : ptr * list f32 * Z) (calls : list ctx_call) : ptr * list f32 * Z :=
  fold_left (fun b c =>
               match c with
               | Ctx_OMSetBlendState bs factors mask => (bs, factors, mask)
               | _ => b
               end) calls b.

Definition ps_resources_after (b : list ptr * list ptr) (calls : list ctx_call)
    : list ptr * list ptr :=
  fold_left (fun b c =>
               match c with
               | Ctx_PSSetShaderResources views => (views, b.2)
               | Ctx_PSSetSamplers samplers => (b.1, samplers)
               | _ => b
               end) calls b.

(** The references taken less the references dropped on [view] by a
    sequence of calls, and the references that a state accounts for. *)
Definition reference_balance (view : ptr) (calls : list ctx_call) : Z :=
  fold_right (fun c n =>
                match c with
                | Ctx_AddRef v => if v =? view then n + 1 else n
                | Ctx_Release v => if v =? view then n - 1 else n
                | _ => n
                end) 0 calls.

Definition held (s : State) (view : ptr) : Z :=
  (if rt_view s =? view then 1 else 0) + (if dsv s =? view then 1 else 0).

(** [GSDevice11::~GSDevice11]. *)
Definition GSDevice11_destructor (this : t) : Prog.t CTX unit :=
  (if negb (rt_view (m_state this) =? nullptr)
   then ctx (Ctx_Release (rt_view (m_state this))) else mret tt);;
  if negb (dsv (m_state this) =? nullptr)
  then ctx (Ctx_Release (dsv (m_state this))) else mret tt.

(** A context for the examples: every mapping succeeds at address 4096,
    the views of a texture are at its address plus 1 and plus 2, and every
    texture is 640 by 448. *)
Definition context_example : Prog.handler CTX unit :=
  fun c w =>
    (match c return ctx_answer c with
     | Ctx_Map _ _ => (0, 4096)
     | Texture_RenderTargetView t => t + 1
     | Texture_DepthStencilView t => t + 2
     | Texture_GetSize _ => GSVector2i.mk 640 448
     | _ => tt
     end, w).

(** A device with nothing bound, and with write positions [vb] and [ib]. *)
Definition unbound (vb ib : Z) : t :=
  mk vb ib (Range.mk 0 0) (Range.mk 0 0)
     (mkState 0 0 0 0 0 0 0 0 0 [] [] 0 0 0 (F32 0) 0 0
        (GSVector2i.mk 0 0) (GSVector4i.mk 0 0 0 0)).

End Device11.

(** ** [GSRendererHW::VerifyIndices] *)

(** [GS_PRIM_CLASS]. *)
Inductive GS_PRIM_CLASS : Type :=
| GS_POINT_CLASS | GS_LINE_CLASS | GS_TRIANGLE_CLASS | GS_SPRITE_CLASS | GS_INVALID_CLASS.

(** [m_index]: the buffer of [u32] indices and the number of them in
    use. *)
Module IndexQueue.
Record t : Type := mk { buff : list Z; tail : Z }.

(** [buff[i]]; reading beyond the buffer is undefined in the source. *)
Definition at_ (b : list Z) (i : Z) : Z := nth (Z.to_nat i) b 0.
End IndexQueue.

(** [for (u32 i = first; i < tail; i += step) if (!ok (i)) return false;]
    with at most [fuel] iterations. *)
Fixpoint VerifyIndices_loop (ok : Z -> bool) (step tail i : Z) (fuel : nat) : bool :=
  match fuel with
  | O => true
  | S fuel =>
      if i <? tail then
        if ok i then VerifyIndices_loop ok step tail (i + step) fuel else false
      else true
  end.

Definition VerifyIndices (m_primclass : GS_PRIM_CLASS) (provoking_vertex_last : bool)
    (m_index : IndexQueue.t) : bool :=
  let buff := IndexQueue.at_ (IndexQueue.buff m_index) in
  let tail := IndexQueue.tail m_index in
  let flat_increasing :=
    VerifyIndices_loop (fun i => buff i =? i) 1 tail 0 (Z.to_nat tail) in
  match m_primclass with
  | GS_SPRITE_CLASS =>
      if negb (tail mod 2 =? 0) then false else flat_increasing
  | GS_POINT_CLASS => flat_increasing
  | GS_LINE_CLASS =>
      if negb (tail mod 2 =? 0) then false
      else if provoking_vertex_last then
        VerifyIndices_loop (fun i => Int.u32 (buff i + 1) =? buff (i + 1)) 2 tail 0
          (Z.to_nat tail)
      else
        VerifyIndices_loop (fun i => buff i =? Int.u32 (buff (i + 1) + 1)) 2 tail 0
          (Z.to_nat tail)
  | GS_TRIANGLE_CLASS => if negb (tail mod 3 =? 0) then false else true
  | GS_INVALID_CLASS => true
  end.

(** ** [GSDevice11]: copies and stretched draws *)

Module Device11Draw.

Definition ptr : Type := Z.
Definition nullptr : ptr := 0.

(** A [GSTexture] as its callers see it: its address and what
    [GetType], [GetWidth], [GetHeight] and [GetFormat] return. *)
Record GSTexture : Type := mkTexture {
  address : ptr;
  GetType : D3D11.GSTexture_Type;
  GetWidth : Z;
  GetHeight : Z;
  GetFormat : Z
}.

Definition IsRenderTarget (t : GSTexture) : bool :=
  match GetType t with D3D11.RenderTarget => true | _ => false end.

Definition IsDepthStencil (t : GSTexture) : bool :=
  match GetType t with D3D11.DepthStencil => true | _ => false end.

(** [D3D11_BOX]: left, top, front, right, bottom, back. *)
Record D3D11_BOX : Type := mkBox {
  left : Z; top : Z; front : Z; right : Z; bottom : Z; back : Z
}.

(** [GSVector4]: four [float] lanes. *)
Record GSVector4 : Type := mkVector4 { fx : f32; fy : f32; fz : f32; fw : f32 }.

(** [GSDevice::MultiStretchRect]; [wmask] is [wmask.wrgba], a [u8]. *)
Record MultiStretchRect : Type := mkMultiStretchRect {
  src_rect : GSVector4;
  dst_rect : GSVector4;
  src : ptr;
  linear : bool;
  wmask : Z
}.

(** The members of [m_convert] that the modelled bodies read. *)
Record Convert : Type := mkConvert {
  il : ptr;
  vs : ptr;
  ps : Z -> ptr;
  dss : ptr;
  dss_write : ptr;
  ln : ptr;
  pt : ptr;
  bs : Z -> ptr
}.

(** The four vertices written for one rectangle, in the order of the
    body: the position is computed from [dst_rect] and the target size in
    [float] arithmetic, the texture coordinate is taken from [src_rect]. *)
Inductive corner : Type := LeftTop | RightTop | LeftBottom | RightBottom.

Inductive completion : Type := Returns | Throws_GSRecoverableError.

(** The calls of these bodies: on the context, on the performance
    monitor, on the base class, on the other methods of the device and
    the stores through the mapped pointers.  [Store_vertex verts slot r c
    ds] is [verts[slot] = ] the vertex of corner [c] of [r] for the
    target size [ds]; [Store_index idx slot v] is [idx[slot] = v]. *)
Inductive draw_call : Type :=
| PerfMon_Put_TextureCopies
| Ctx_CopySubresourceRegion (dst : ptr) (dstX dstY : Z) (src : ptr) (box : option D3D11_BOX)
| CreateDepthStencil (w h format : Z) (clear : bool)
| CreateRenderTarget (w h format : Z) (clear : bool)
| StretchRect_bs (sTex : ptr) (sRect : GSVector4) (dTex : ptr) (dRect : GSVector4)
    (ps ps_cb bs : ptr) (linear : bool)
| IASetInputLayout (layout : ptr)
| IASetPrimitiveTopology (topology : Z)
| VSSetShader (vs vs_cb : ptr)
| GSSetShader (gs gs_cb : ptr)
| PSSetShader (ps ps_cb : ptr)
| OMSetDepthStencilState (dss : ptr) (sref : Z)
| OMSetRenderTargets (rt ds : ptr)
| IAMapVertexBuffer (stride count : Z)
| IAMapIndexBuffer (count : Z)
| Store_vertex (verts : ptr) (slot : Z) (r : MultiStretchRect) (c : corner) (ds : GSVector2i.t)
| Store_index (idx : ptr) (slot : Z) (v : Z)
| IAUnmapVertexBuffer (stride count : Z)
| IAUnmapIndexBuffer (count : Z)
| PSSetShaderResource (i : Z) (sr : ptr)
| PSSetSamplerState (ss : ptr)
| OMSetBlendState (bs : ptr) (bf : f32)
| DrawIndexedPrimitive
| DoMultiStretchRects_at (first count : Z) (ds : GSVector2i.t).

Definition draw_answer (c : draw_call) : Type :=
  match c with
  | CreateDepthStencil _ _ _ _ | CreateRenderTarget _ _ _ _ => GSTexture
  | OMSetRenderTargets _ _ => completion
  | IAMapVertexBuffer _ _ | IAMapIndexBuffer _ => ptr
  | _ => unit
  end.

Definition DRAW : Prog.Sig := Prog.MkSig draw_call draw_answer.

Definition dev (c : draw_call) : Prog.t DRAW (draw_answer c) := @Prog.call DRAW c.

(** *** [CopyRect] and [CloneTexture] *)

(** [destX] and [destY] are [u32]; the casts to [UINT] wrap. *)
Definition CopyRect (sTex dTex : GSTexture) (r : GSVector4i.t) (destX destY : Z)
    : Prog.t DRAW unit :=
  dev PerfMon_Put_TextureCopies;;
  let box := mkBox (Int.u32 (GSVector4i.x r)) (Int.u32 (GSVector4i.y r)) 0
                   (Int.u32 (GSVector4i.z r)) (Int.u32 (GSVector4i.w r)) 1 in
  let depth := IsDepthStencil sTex in
  let pBox := if depth then None else Some box in
  dev (Ctx_CopySubresourceRegion (address dTex) destX destY (address sTex) pBox).

(** Returns what is stored through [dest]; the assertion on the type of
    [src] is a debug check. *)
Definition CloneTexture (src : GSTexture) (rect : GSVector4i.t) : Prog.t DRAW GSTexture :=
  let w := GetWidth src in
  let h := GetHeight src in
  if IsDepthStencil src then
    dest ← dev (CreateDepthStencil w h (GetFormat src) false);
    CopyRect src dest (GSVector4i.mk 0 0 w h) 0 0;;
    mret dest
  else
    dest ← dev (CreateRenderTarget w h (GetFormat src) false);
    CopyRect src dest rect (Int.u32 (GSVector4i.x rect)) (Int.u32 (GSVector4i.y rect));;
    mret dest.

(** *** The blend states of [m_convert] and the [StretchRect] with a
    colour mask *)

(** The loop of [Create] over [m_convert.bs]: the
    [RenderTargetWriteMask] of the state made for each index. *)
Definition convert_write_masks (size : nat) : list Z :=
  map (fun i => Z.of_nat i mod 2 ^ 8) (seq 0 size).

Definition D3D11_COLOR_WRITE_ENABLE_RED : Z := 1.
Definition D3D11_COLOR_WRITE_ENABLE_GREEN : Z := 2.
Definition D3D11_COLOR_WRITE_ENABLE_BLUE : Z := 4.
Definition D3D11_COLOR_WRITE_ENABLE_ALPHA : Z := 8.

(** [static_cast<u8> (red) | (static_cast<u8> (green) << 1) | ...],
    stored in a [u8]. *)
Definition color_mask_index (red green blue alpha : bool) : Z :=
  (Z.lor (Z.lor (Z.lor (Z.b2z red) (Z.shiftl (Z.b2z green) 1)) (Z.shiftl (Z.b2z blue) 2))
         (Z.shiftl (Z.b2z alpha) 3)) mod 2 ^ 8.

Section StretchRect.

Variable m_convert : Convert.

(** [static_cast<int> (ShaderConvert::COPY)]. *)
Variable ShaderConvert_COPY : Z.

Definition StretchRect_mask (sTex : ptr) (sRect : GSVector4) (dTex : ptr) (dRect : GSVector4)
    (red green blue alpha : bool) : Prog.t DRAW unit :=
  let index := color_mask_index red green blue alpha in
  dev (StretchRect_bs sTex sRect dTex dRect (ps m_convert ShaderConvert_COPY) nullptr
         (bs m_convert index) false).

(** *** [DrawMultiStretchRects] and [DoMultiStretchRects] *)

(** [sizeof (GSVertexPT1)]. *)
Variable sizeof_GSVertexPT1 : Z.

(** The body of the loop of [DoMultiStretchRects] for [rects[i]];
    returns the counts. *)
Definition DoMultiStretchRects_iter (verts idx : ptr) (ds : GSVector2i.t)
    (i : Z) (r : MultiStretchRect) (icount vcount : Z) : Prog.t DRAW (Z * Z) :=
  let vstart := vcount in
  dev (Store_vertex verts vcount r LeftTop ds);;
  let vcount := Int.u32 (vcount + 1) in
  dev (Store_vertex verts vcount r RightTop ds);;
  let vcount := Int.u32 (vcount + 1) in
  dev (Store_vertex verts vcount r LeftBottom ds);;
  let vcount := Int.u32 (vcount + 1) in
  dev (Store_vertex verts vcount r RightBottom ds);;
  let vcount := Int.u32 (vcount + 1) in
  icount ←
    (if 0 <? i then
       dev (Store_index idx icount vstart);;
       mret (Int.u32 (icount + 1))
     else mret icount);
  dev (Store_index idx icount vstart);;
  let icount := Int.u32 (icount + 1) in
  dev (Store_index idx icount (Int.u32 (vstart + 1)));;
  let icount := Int.u32 (icount + 1) in
  dev (Store_index idx icount (Int.u32 (vstart + 2)));;
  let icount := Int.u32 (icount + 1) in
  dev (Store_index idx icount (Int.u32 (vstart + 3)));;
  let icount := Int.u32 (icount + 1) in
  dev (Store_index idx icount (Int.u32 (vstart + 3)));;
  let icount := Int.u32 (icount + 1) in
  mret (icount, vcount).

Fixpoint DoMultiStretchRects_loop (verts idx : ptr) (ds : GSVector2i.t)
    (i : Z) (rects : list MultiStretchRect) (icount vcount : Z) : Prog.t DRAW (Z * Z) :=
  match rects with
  | [] => mret (icount, vcount)
  | r :: later =>
      '(icount, vcount) ← DoMultiStretchRects_iter verts idx ds i r icount vcount;
      DoMultiStretchRects_loop verts idx ds (Int.u32 (i + 1)) later icount vcount
  end.

(** [rects] holds [num_rects] elements.  The result [None] stands for
    undefined behaviour.  The body reads [rects[0]] after the loop, which
    is undefined for an empty array.  [IAMapVertexBuffer] and
    [IAMapIndexBuffer] return [nullptr] when the mapping fails, and the
    body stores through both pointers without a test: with at least one
    rectangle a null [verts] or [idx] is stored through, which is
    undefined, and nothing that follows the two mappings is promised. *)
Definition DoMultiStretchRects (rects : list MultiStretchRect) (ds : GSVector2i.t)
    : Prog.t DRAW (option unit) :=
  match rects with
  | [] => mret None
  | first :: _ =>
      let num_rects := Z.of_nat (length rects) in
      let vertex_reserve_size := Int.u32 (num_rects * 4) in
      let index_reserve_size := Int.u32 (num_rects * 6) in
      verts ← dev (IAMapVertexBuffer sizeof_GSVertexPT1 vertex_reserve_size);
      idx ← dev (IAMapIndexBuffer index_reserve_size);
      if (verts =? nullptr) || (idx =? nullptr) then mret None
      else
        '(icount, vcount) ← DoMultiStretchRects_loop verts idx ds 0 rects 0 0;
        dev (IAUnmapVertexBuffer sizeof_GSVertexPT1 vcount);;
        dev (IAUnmapIndexBuffer icount);;
        dev (PSSetShaderResource 0 (src first));;
        dev (PSSetSamplerState (if linear first then ln m_convert else pt m_convert));;
        dev (OMSetBlendState (bs m_convert (wmask first)) (F32 0));;
        dev DrawIndexedPrimitive;;
        mret (Some tt)
  end.

(** The test of the loop of [DrawMultiStretchRects]: [r] goes into the
    batch that was started with this source, filter and mask. *)
Definition same_batch (r : MultiStretchRect) (last_tex : ptr) (last_linear : bool)
    (last_wmask : Z) : bool :=
  (src r =? last_tex) && Bool.eqb (linear r) last_linear && (wmask r =? last_wmask).

(** The loop over [rects[i]], [rects[i + 1]], ..., and the call after
    it. *)
Fixpoint DrawMultiStretchRects_loop (ds : GSVector2i.t) (rects : list MultiStretchRect)
    (last_tex : ptr) (last_linear : bool) (last_wmask : Z) (first count : Z)
    : Prog.t DRAW unit :=
  match rects with
  | [] => dev (DoMultiStretchRects_at first count ds)
  | r :: later =>
      if same_batch r last_tex last_linear last_wmask then
        DrawMultiStretchRects_loop ds later last_tex last_linear last_wmask first
          (Int.u32 (count + 1))
      else
        dev (DoMultiStretchRects_at first count ds);;
        DrawMultiStretchRects_loop ds later (src r) (linear r) (wmask r)
          (Int.u32 (first + count)) 1
  end.

(** [rects] holds [num_rects] elements; the body reads [rects[0]]
    before the loop, which is undefined for an empty array: [None].  The
    target size [ds] is the width and height of [dTex] as [float]s.  An
    exception thrown by [OMSetRenderTargets] leaves the body. *)
Definition DrawMultiStretchRects (rects : list MultiStretchRect) (dTex : GSTexture)
    (shader : Z) : option (Prog.t DRAW completion) :=
  match rects with
  | [] => None
  | first :: later =>
      Some (
        dev (IASetInputLayout (il m_convert));;
        dev (IASetPrimitiveTopology Device11.D3D11_PRIMITIVE_TOPOLOGY_TRIANGLESTRIP);;
        dev (VSSetShader (vs m_convert) nullptr);;
        dev (GSSetShader nullptr nullptr);;
        dev (PSSetShader (ps m_convert shader) nullptr);;
        dev (OMSetDepthStencilState
               (if IsRenderTarget dTex then dss m_convert else dss_write m_convert) 0);;
        c ← dev (OMSetRenderTargets (if IsRenderTarget dTex then address dTex else nullptr)
                   (if IsDepthStencil dTex then address dTex else nullptr));
        match c with
        | Throws_GSRecoverableError => mret Throws_GSRecoverableError
        | Returns =>
            let ds := GSVector2i.mk (GetWidth dTex) (GetHeight dTex) in
            DrawMultiStretchRects_loop ds later (src first) (linear first) (wmask first) 0 1;;
            mret Returns
        end)
  end.

End StretchRect.

(** The batches handed to [DoMultiStretchRects] by some calls, each as
    the index of its first rectangle and its count. *)
Definition batch_of (c : draw_call) : option (Z * Z) :=
  match c with DoMultiStretchRects_at first count _ => Some (first, count) | _ => None end.

(** The batches follow one another from index [from] to index [to], and
    none is empty. *)
Fixpoint tiles (from : Z) (batches : list (Z * Z)) (to : Z) : Prop :=
  match batches with
  | [] => from = to
  | (first, count) :: later => first = from /\ 0 < count /\ tiles (from + count) later to
  end.

(** Two rectangles that can share a batch. *)
Definition same_state (a b : MultiStretchRect) : bool :=
  same_batch a (src b) (linear b) (wmask b).

(** The rectangles of a batch: [rects + first] for [count] elements. *)
Definition slice (rects : list MultiStretchRect) (batch : Z * Z) : list MultiStretchRect :=
  firstn (Z.to_nat batch.2) (skipn (Z.to_nat batch.1) rects).

(** A batch is not empty and all its rectangles can share it with its
    first one. *)
Definition uniform (batch : list MultiStretchRect) : Prop :=
  match batch with
  | [] => False
  | a :: later => Forall (fun r => same_state r a = true) later
  end.

(** No batch could have taken the first rectangle of the next one. *)
Fixpoint adjacent_differ (batches : list (list MultiStretchRect)) : Prop :=
  match batches with
  | g1 :: ((g2 :: _) as later) =>
      (forall a b, head g1 = Some a -> head g2 = Some b -> same_state b a = false)
      /\ adjacent_differ later
  | _ => True
  end.

(** The vertex and index stores among some calls. *)
Definition vertex_store (c : draw_call) : option Z :=
  match c with Store_vertex _ slot _ _ _ => Some slot | _ => None end.

Definition index_store (c : draw_call) : option (Z * Z) :=
  match c with Store_index _ slot v => Some (slot, v) | _ => None end.

(** The number of indices that [DoMultiStretchRects] writes for [n]
    rectangles: six for each, less the one that the first rectangle does
    not repeat. *)
Definition indices_written (n : Z) : Z := if 0 <? n then 6 * n - 1 else 0.

(** A device whose index buffer cannot be mapped: [IAMapIndexBuffer]
    returns [nullptr], every other call is answered as by
    [device_example] below. *)
Definition device_without_index_mapping : Prog.handler DRAW unit :=
  fun c w =>
    (match c return draw_answer c with
     | CreateDepthStencil w h format _ => mkTexture 64 D3D11.DepthStencil w h format
     | CreateRenderTarget w h format _ => mkTexture 64 D3D11.RenderTarget w h format
     | OMSetRenderTargets _ _ => Returns
     | IAMapVertexBuffer _ _ => 4096
     | IAMapIndexBuffer _ => nullptr
     | _ => tt
     end, w).

(** A device for the examples: mappings at 4096 and 8192, new textures
    at 64, every call returns. *)
Definition device_example : Prog.handler DRAW unit :=
  fun c w =>
    (match c return draw_answer c with
     | CreateDepthStencil w h format _ => mkTexture 64 D3D11.DepthStencil w h format
     | CreateRenderTarget w h format _ => mkTexture 64 D3D11.RenderTarget w h format
     | OMSetRenderTargets _ _ => Returns
     | IAMapVertexBuffer _ _ => 4096
     | IAMapIndexBuffer _ => 8192
     | _ => tt
     end, w).

End Device11Draw.

(** ** [GSRendererHW::ExpandIndices] *)

(** [GSHWDrawConfig::VSExpand], the template parameter. *)
Module VSExpand.
Inductive t : Type := None | Point | Line | Sprite.
End VSExpand.

(** The [GSVector4i] operations of the body, on four [u32] lanes. *)
Module Lanes.
Import GSVector4i.

Definition sll32 (n : Z) (v : t) : t :=
  mk (Int.u32 (Z.shiftl (x v) n)) (Int.u32 (Z.shiftl (y v) n))
     (Int.u32 (Z.shiftl (z v) n)) (Int.u32 (Z.shiftl (w v) n)).

(** [operator|]. *)
Definition or (a b : t) : t :=
  mk (Z.lor (x a) (x b)) (Z.lor (y a) (y b)) (Z.lor (z a) (z b)) (Z.lor (w a) (w b)).

Definition xxxx (v : t) : t := mk (x v) (x v) (x v) (x v).
Definition xxyy (v : t) : t := mk (x v) (x v) (y v) (y v).
Definition yyyy (v : t) : t := mk (y v) (y v) (y v) (y v).
Definition zzzz (v : t) : t := mk (z v) (z v) (z v) (z v).
Definition zzww (v : t) : t := mk (z v) (z v) (w v) (w v).
Definition wwww (v : t) : t := mk (w v) (w v) (w v) (w v).
Definition xxyx (v : t) : t := mk (x v) (x v) (y v) (x v).
Definition yyzz (v : t) : t := mk (y v) (y v) (z v) (z v).
Definition wzww (v : t) : t := mk (w v) (z v) (w v) (w v).

(** [*p] and [*p = v] for a [GSVector4i*] that is [g] vectors into a
    buffer of [u32]; a store beyond the buffer is undefined in the
    source and leaves the list as it is. *)
Definition load (buff : list Z) (g : Z) : t :=
  mk (IndexQueue.at_ buff (4 * g)) (IndexQueue.at_ buff (4 * g + 1))
     (IndexQueue.at_ buff (4 * g + 2)) (IndexQueue.at_ buff (4 * g + 3)).

Definition store (buff : list Z) (g : Z) (v : t) : list Z :=
  <[Z.to_nat (4 * g + 3) := w v]>
    (<[Z.to_nat (4 * g + 2) := z v]>
       (<[Z.to_nat (4 * g + 1) := y v]>
          (<[Z.to_nat (4 * g) := x v]> buff))).

(** The lane of a vector by its number. *)
Definition lane (v : t) (l : Z) : Z :=
  if l =? 0 then x v else if l =? 1 then y v else if l =? 2 then z v else w v.

End Lanes.

Definition expansion_factor (Expand : VSExpand.t) : Z :=
  match Expand with VSExpand.Point => 6 | _ => 3 end.

(** The vectors stored at [write[0]], [write[1]], ... for the vector
    read. *)
Definition ExpandIndices_vectors (Expand : VSExpand.t) (read : GSVector4i.t)
    : list GSVector4i.t :=
  let low0 := GSVector4i.mk 0 1 2 1 in
  let low1 := GSVector4i.mk 2 3 0 1 in
  let low2 := GSVector4i.mk 2 1 2 3 in
  match Expand with
  | VSExpand.None => []
  | VSExpand.Point =>
      let in_ := Lanes.sll32 2 read in
      [Lanes.or (Lanes.xxxx in_) low0; Lanes.or (Lanes.xxyy in_) low1;
       Lanes.or (Lanes.yyyy in_) low2; Lanes.or (Lanes.zzzz in_) low0;
       Lanes.or (Lanes.zzww in_) low1; Lanes.or (Lanes.wwww in_) low2]
  | VSExpand.Line =>
      let in_ := Lanes.sll32 2 read in
      [Lanes.or (Lanes.xxyx in_) low0; Lanes.or (Lanes.yyzz in_) low1;
       Lanes.or (Lanes.wzww in_) low2]
  | VSExpand.Sprite =>
      let low := GSVector4i.mk 0 1 0 1 in
      let in_ := Lanes.sll32 1 read in
      [Lanes.or (Lanes.xxyx in_) low; Lanes.or (Lanes.yyzz in_) low;
       Lanes.or (Lanes.wzww in_) low]
  end.

(** [write[0] = v0; write[1] = v1; ...]. *)
Fixpoint ExpandIndices_stores (buff : list Z) (write : Z) (vs : list GSVector4i.t) : list Z :=
  match vs with
  | [] => buff
  | v :: later => ExpandIndices_stores (Lanes.store buff write v) (write + 1) later
  end.

(** The [while (read > end)] loop; [read] and [write] are counted in
    vectors from the start of the buffer. *)
Fixpoint ExpandIndices_loop (Expand : VSExpand.t) (buff : list Z) (read write : Z)
    (fuel : nat) : list Z :=
  match fuel with
  | O => buff
  | S fuel =>
      if 0 <? read then
        let read := read - 1 in
        let write := write - expansion_factor Expand in
        let buff := ExpandIndices_stores buff write
                      (ExpandIndices_vectors Expand (Lanes.load buff read)) in
        ExpandIndices_loop Expand buff read write fuel
      else buff
  end.

(** The queue after the call.  For [Point] the body first grows the
    vertex buffer through [GSState::GrowVertexBuffer] while
    [process_count] exceeds [m_vertex.maxcount]; that is outside these
    files, and the result is [None] when it would be called. *)
Definition ExpandIndices (Expand : VSExpand.t) (m_index : IndexQueue.t) (m_vertex_maxcount : Z)
    : option IndexQueue.t :=
  let process_count := Int.u32 (IndexQueue.tail m_index + 3) / 4 * 4 in
  let grows :=
    match Expand with
    | VSExpand.Point => m_vertex_maxcount <? process_count
    | _ => false
    end in
  if grows then None
  else
    let factor := expansion_factor Expand in
    let tail := Int.u32 (IndexQueue.tail m_index * factor) in
    let read := process_count / 4 in
    let write := Int.u32 (process_count * factor) / 4 in
    Some (IndexQueue.mk
            (ExpandIndices_loop Expand (IndexQueue.buff m_index) read write (Z.to_nat read))
            tail).

(** What the vertex shader finds in an expanded index: the index of
    the vertex to fetch, shifted left, and in the low bits the corner to
    make of it.  Expanded index [k] (0 to 5) of a primitive takes its
    vertex from the first or the second index of the primitive. *)
Definition expanded_corner (Expand : VSExpand.t) (k : Z) : Z :=
  match Expand with
  | VSExpand.Sprite => nth (Z.to_nat k) [0; 1; 0; 1; 0; 1] 0
  | _ => nth (Z.to_nat k) [0; 1; 2; 1; 2; 3] 0
  end.

Definition expanded_shift (Expand : VSExpand.t) : Z :=
  match Expand with VSExpand.Sprite => 1 | _ => 2 end.

Definition expanded_source (Expand : VSExpand.t) (k : Z) : Z :=
  match Expand with
  | VSExpand.Point => 0
  | _ => nth (Z.to_nat k) [0; 0; 1; 0; 1; 1] 0
  end.

(** The number of indices of one primitive before the expansion. *)
Definition indices_per_primitive (Expand : VSExpand.t) : Z :=
  match Expand with VSExpand.Point => 1 | _ => 2 end.

(** ** [GSDevice11::ShaderMacro] *)

Module ShaderMacro.

Inductive D3D_FEATURE_LEVEL : Type :=
| D3D_FEATURE_LEVEL_10_0 | D3D_FEATURE_LEVEL_10_1 | D3D_FEATURE_LEVEL_11_0
| D3D_FEATURE_LEVEL_other.

(** [mlist] holds the names and definitions; [mout] holds the
    [D3D_SHADER_MACRO]s handed out last, each a pair of pointers to
    characters, [None] for a null pointer. *)
Record t : Type := mk {
  mlist : list (string * string);
  mout : list (option string * option string)
}.

(** The definition that the constructor gives to [SHADER_MODEL]. *)
Definition shader_model (fl : D3D_FEATURE_LEVEL) : string :=
  match fl with
  | D3D_FEATURE_LEVEL_10_0 => "0x400"
  | D3D_FEATURE_LEVEL_10_1 => "0x401"
  | _ => "0x500"
  end.

Definition ShaderMacro (fl : D3D_FEATURE_LEVEL) : t :=
  mk [("SHADER_MODEL"%string, shader_model fl)] [].

(** [std::to_string (int)]: the decimal digits, after a minus sign for a
    negative number. *)
Definition to_string (d : Z) : string := DecimalString.NilZero.string_of_int (Z.to_int d).

(** [AddMacro (const char*, std::string)] and [AddMacro (const char*, int)]. *)
Definition AddMacro (n d : string) (this : t) : t :=
  mk (mlist this ++ [(n, d)]) (mout this).

Definition AddMacro_int (n : string) (d : Z) (this : t) : t :=
  AddMacro n (to_string d) this.

(** Returns the array at [mout.data ()]. *)
Definition GetPtr (this : t) : list (option string * option string) * t :=
  let mout := map (fun i : string * string => (Some i.1, Some i.2)) (mlist this)
              ++ [(None, None)] in
  (mout, mk (mlist this) mout).

(** The uses of an object of the class. *)
Inductive use : Type :=
| Use_AddMacro (n d : string)
| Use_AddMacro_int (n : string) (d : Z)
| Use_GetPtr.

Definition apply (this : t) (u : use) : t :=
  match u with
  | Use_AddMacro n d => AddMacro n d this
  | Use_AddMacro_int n d => AddMacro_int n d this
  | Use_GetPtr => (GetPtr this).2
  end.

(** The macros added by some uses, in order. *)
Definition added (uses : list use) : list (string * string) :=
  omap (fun u => match u with
                 | Use_AddMacro n d => Some (n, d)
                 | Use_AddMacro_int n d => Some (n, to_string d)
                 | Use_GetPtr => None
                 end) uses.

End ShaderMacro.

(** * Properties *)

(** ** Facts about machine integers and programs *)

Module IntFacts.

Lemma u32_small z : 0 <= z < 2 ^ 32 -> Int.u32 z = z.
Proof. intros H. unfold Int.u32. now apply Z.mod_small. Qed.

Lemma s32_small z : - 2 ^ 31 <= z < 2 ^ 31 -> Int.s32 z = z.
Proof. intros H. unfold Int.s32. rewrite Z.mod_small; lia. Qed.

Lemma bits_range n z : 0 <= n -> 0 <= Int.bits n z < 2 ^ n.
Proof.
  intros Hn. unfold Int.bits. rewrite Z.land_ones by assumption.
  apply Z.mod_pos_bound. now apply Z.pow_pos_nonneg.
Qed.

End IntFacts.

Module ProgFacts.
Import Prog.

Lemma run_bind {E W A B} (h : handler E W) (p : t E A) (f : A -> t E B) (w : W) :
  run h (bind p f) w =
  let '(a, w1, tr1) := run h p w in
  let '(b, w2, tr2) := run h (f a) w1 in
  (b, w2, tr1 ++ tr2).
Proof.
  revert w. induction p as [a | c k IH]; intros w; simpl.
  - destruct (run h (f a) w) as [[b w2] tr2]. reflexivity.
  - destruct (h c w) as [r w1]. rewrite IH.
    destruct (run h (k r) w1) as [[a w2] tr1].
    destruct (run h (f a) w2) as [[b w3] tr2]. reflexivity.
Qed.

Lemma run_call {E W} (h : handler E W) (c : op E) (w : W) :
  run h (call c) w = ((h c w).1, (h c w).2, [ev c (h c w).1]).
Proof. unfold call. simpl. destruct (h c w) as [r w1]. reflexivity. Qed.

End ProgFacts.

(** Runs one more call of a program under an arbitrary handler. *)
Ltac answer_call h :=
  match goal with
  | |- context [h ?c ?w] =>
      let r := fresh "r" in let w' := fresh "w" in
      destruct (h c w) as [r w'] eqn:?; cbn in *
  end.

(** ** The CPU-write path of the renderer *)

Section InvalidateLocalMem.

Context {W : Type} (h : Prog.handler HW W).

Lemma scan_transfers_run s_n B r l w :
  Prog.run h (scan_transfers s_n B r l) w =
  if existsb (same_transfer s_n B r) l then
    let c := TC_InvalidateVideoMem (GetOffset (SBP B) (SBW B) (SPSM B)) r false true in
    (true, (h c w).2, [Prog.ev (E := HW) c (h c w).1])
  else (false, w, []).
Proof.
  induction l as [| iter older IH]; simpl; [reflexivity |].
  destruct (same_transfer s_n B r iter); simpl; [| exact IH].
  destruct (h _ w) as [u w1]. reflexivity.
Qed.

Lemma existsb_rev_eq {A} (p : A -> bool) (l : list A) : existsb p (rev l) = existsb p l.
Proof.
  destruct (existsb p l) eqn:E.
  - apply existsb_exists in E as (a & Ha & Hp). apply existsb_exists.
    exists a. split; [now apply in_rev in Ha | exact Hp].
  - destruct (existsb p (rev l)) eqn:E'; [| reflexivity].
    apply existsb_exists in E' as (a & Ha & Hp).
    assert (existsb p l = true) as F
      by (apply existsb_exists; exists a; split; [now apply in_rev | exact Hp]).
    congruence.
Qed.

(** What the whole body does when the [clut] flag is clear. *)
Lemma InvalidateLocalMem_run s_n this B r w :
  Prog.run h (InvalidateLocalMem s_n this B r false) w =
  let off := GetOffset (SBP B) (SBW B) (SPSM B) in
  let c :=
    if existsb (same_transfer s_n B r) (m_draw_transfers this)
    then TC_InvalidateVideoMem off r false true
    else TC_InvalidateLocalMem off r in
  (tt, (h c w).2, [Prog.ev (E := HW) c (h c w).1]).
Proof.
  unfold InvalidateLocalMem, mbind, prog_bind.
  rewrite ProgFacts.run_bind, scan_transfers_run, existsb_rev_eq.
  destruct (existsb _ (m_draw_transfers this)); cbn.
  - destruct (h _ w) as [[] w1]. reflexivity.
  - destruct (h _ w) as [[] w1]. reflexivity.
Qed.

End InvalidateLocalMem.

(** C9.  A call of [GSRendererHW::InvalidateLocalMem] with the [clut]
    flag set returns at once: whatever the collaborators are, no call
    reaches the texture cache (the trace is empty), so no Source is
    destroyed and no dirty queue is touched, and the collaborators' state
    is the one before the call. *)
Theorem InvalidateLocalMem_clut_returns_at_once :
  forall (W : Type) (h : Prog.handler HW W) (w : W) (s_n : Z) (this : GSRendererHW)
         (BITBLTBUF : GIFRegBITBLTBUF) (r : GSVector4i.t),
    Prog.run h (InvalidateLocalMem s_n this BITBLTBUF r true) w = (tt, w, []).
Proof. intros. reflexivity. Qed.

(** C1 (as stated, refuted).  The transfer below is recorded for the
    current draw (7) with the same base pointer, format and rectangle as
    the readback, yet the call is not a no-op: the texture cache receives
    [InvalidateVideoMem] for the read rectangle, and the state of the
    recording collaborator differs from the one before the call. *)
Lemma InvalidateLocalMem_recorded_transfer_reaches_cache :
  let r := GSVector4i.mk 0 0 64 32 in
  let BITBLTBUF := mkBITBLTBUF 0x100 10 0 0 0 0 in
  let this := mkHW 0 [mkUpload (mkBITBLTBUF 0 0 0 0x100 10 0) r 7] 0 0 0 0 in
  existsb (same_transfer 7 BITBLTBUF r) (m_draw_transfers this) = true
  /\ Prog.final (recorder 0) (InvalidateLocalMem 7 this BITBLTBUF r false) []
     = [TC_InvalidateVideoMem (GetOffset 0x100 10 0) r false true]
  /\ Prog.final (recorder 0) (InvalidateLocalMem 7 this BITBLTBUF r false) [] <> [].
Proof. cbv zeta. split; [reflexivity | split; [reflexivity | discriminate]]. Qed.

(** C1 (amended).  When a transfer with the same base pointer, the same
    format and an equal rectangle is recorded for the current draw index,
    [GSRendererHW::InvalidateLocalMem] skips the cache's
    [InvalidateLocalMem] (the readback) and instead issues exactly one
    call, the cache's [InvalidateVideoMem] for the source offset and the
    rectangle, with [eewrite = false] and [target = true]. *)
Theorem InvalidateLocalMem_recorded_transfer :
  forall (W : Type) (h : Prog.handler HW W) (w : W) (s_n : Z) (this : GSRendererHW)
         (BITBLTBUF : GIFRegBITBLTBUF) (r : GSVector4i.t),
    existsb (same_transfer s_n BITBLTBUF r) (m_draw_transfers this) = true ->
    let c := TC_InvalidateVideoMem
               (GetOffset (SBP BITBLTBUF) (SBW BITBLTBUF) (SPSM BITBLTBUF)) r false true in
    Prog.run h (InvalidateLocalMem s_n this BITBLTBUF r false) w
    = (tt, (h c w).2, [Prog.ev (E := HW) c (h c w).1]).
Proof.
  intros W h w s_n this B r Hrec. rewrite InvalidateLocalMem_run, Hrec. reflexivity.
Qed.

Lemma InvalidateLocalMem_recorded_transfer_witness :
  let r := GSVector4i.mk 0 0 64 32 in
  let BITBLTBUF := mkBITBLTBUF 0x100 10 0 0 0 0 in
  let this := mkHW 0 [mkUpload (mkBITBLTBUF 0 0 0 0x100 10 0) r 7] 0 0 0 0 in
  let c := TC_InvalidateVideoMem (GetOffset 0x100 10 0) r false true in
  existsb (same_transfer 7 BITBLTBUF r) (m_draw_transfers this) = true
  /\ Prog.run (recorder 0) (InvalidateLocalMem 7 this BITBLTBUF r false) []
     = (tt, (recorder 0 c []).2, [Prog.ev (E := HW) c (recorder 0 c []).1]).
Proof.
  cbv zeta. split; [reflexivity |].
  apply (InvalidateLocalMem_recorded_transfer (list hw_call) (recorder 0) [] 7
           (mkHW 0 [mkUpload (mkBITBLTBUF 0 0 0 0x100 10 0) (GSVector4i.mk 0 0 64 32) 7] 0 0 0 0)
           (mkBITBLTBUF 0x100 10 0 0 0 0) (GSVector4i.mk 0 0 64 32)).
  reflexivity.
Defined.

(** ** The GPU-write path of the renderer *)

(** [GSRendererHW::InvalidateVideoMem], every lane of every piece: when
    the bottom and the right of the rectangle are both at most 2048, the
    cache gets one invalidation, with the original rectangle; otherwise
    it gets two, for the same destination offset, the first with the
    rectangle clamped to 2048.  The second starts at 0 in each dimension
    that exceeded 2048; its bottom is the bottom less 2048 for a
    rectangle that is too tall, and its right edge is the bottom less
    2048 as well for a rectangle that is too wide. *)
Lemma InvalidateVideoMem_pieces :
  forall (W : Type) (h : Prog.handler HW W) (w : W)
         (BITBLTBUF : GIFRegBITBLTBUF) (r : GSVector4i.t) (eewrite : bool),
    let off := GetOffset (DBP BITBLTBUF) (DBW BITBLTBUF) (DPSM BITBLTBUF) in
    let tall := 2048 <? GSVector4i.w r in
    let wide := 2048 <? GSVector4i.z r in
    let second :=
      GSVector4i.mk (if wide then 0 else GSVector4i.x r)
                    (if tall then 0 else GSVector4i.y r)
                    (if wide then Int.s32 (GSVector4i.w r - 2048) else GSVector4i.z r)
                    (if tall then Int.s32 (GSVector4i.w r - 2048) else GSVector4i.w r) in
    Prog.calls h (InvalidateVideoMem BITBLTBUF r eewrite) w
    = if tall || wide
      then [TC_InvalidateVideoMem off (clamped_2048 r) eewrite true;
            TC_InvalidateVideoMem off second eewrite true]
      else [TC_InvalidateVideoMem off r eewrite true].
Proof.
  intros W h w B r eewrite off tall wide second.
  subst off tall wide second.
  unfold Prog.calls, Prog.trace, InvalidateVideoMem, clamped_2048, mbind, prog_bind.
  unfold GSVector4i.set_w, GSVector4i.set_z, GSVector4i.set_y, GSVector4i.set_x.
  destruct r as [rx ry rz rw]; cbn [GSVector4i.x GSVector4i.y GSVector4i.z GSVector4i.w].
  destruct (Z.ltb_spec 2048 rw) as [Hh | Hh], (Z.ltb_spec 2048 rz) as [Hw | Hw];
    cbn -[Z.sub Int.s32 Z.min];
    repeat answer_call h;
    try rewrite (Z.min_l rw 2048) by lia; try rewrite (Z.min_r rw 2048) by lia;
    try rewrite (Z.min_l rz 2048) by lia; try rewrite (Z.min_r rz 2048) by lia;
    reflexivity.
Qed.

(** C10.  The code at a rectangle that is too wide: for the write of
    (0, 0, 2560, 512) the cache gets two invalidations for the same
    destination offset, the first clamped to (0, 0, 2048, 512).  The second
    starts at column 0, but its right edge is -1536, the bottom less
    2048, where the columns that exceeded the boundary end at 512, the
    right edge less 2048: the body writes [rect.z = r.w - 2048].  The
    second rectangle holds no column, so the 512 columns that wrapped
    are not invalidated.  For the rectangle (0, 0, 512, 2560), as much
    too tall, the second invalidation is the 512 rows that wrapped. *)
Theorem InvalidateVideoMem_wide_rectangle_second_piece :
  let BITBLTBUF := mkBITBLTBUF 0 0 0 0x100 10 0 in
  let off := GetOffset 0x100 10 0 in
  let wide := GSVector4i.mk 0 0 2560 512 in
  let tall := GSVector4i.mk 0 0 512 2560 in
  Prog.calls (recorder 0) (InvalidateVideoMem BITBLTBUF wide true) []
  = [TC_InvalidateVideoMem off (GSVector4i.mk 0 0 2048 512) true true;
     TC_InvalidateVideoMem off (GSVector4i.mk 0 0 (-1536) 512) true true]
  /\ GSVector4i.w wide - 2048 = -1536
  /\ GSVector4i.z wide - 2048 = 512
  /\ Prog.calls (recorder 0) (InvalidateVideoMem BITBLTBUF tall true) []
     = [TC_InvalidateVideoMem off (GSVector4i.mk 0 0 512 2048) true true;
        TC_InvalidateVideoMem off (GSVector4i.mk 0 0 512 512) true true].
Proof. repeat split. Qed.

Example InvalidateVideoMem_tall_rectangle :
  Prog.calls (recorder 0)
    (InvalidateVideoMem (mkBITBLTBUF 0 0 0 0x100 10 0) (GSVector4i.mk 0 0 640 2560) false) []
  = [TC_InvalidateVideoMem (GetOffset 0x100 10 0) (GSVector4i.mk 0 0 640 2048) false true;
     TC_InvalidateVideoMem (GetOffset 0x100 10 0) (GSVector4i.mk 0 0 640 512) false true].
Proof. reflexivity. Qed.

(** Without a recorded transfer the readback goes to the cache. *)
Example InvalidateLocalMem_no_recorded_transfer :
  Prog.calls (recorder 0)
    (InvalidateLocalMem 7 (mkHW 0 [] 0 0 0 0) (mkBITBLTBUF 0x100 10 0 0 0 0)
       (GSVector4i.mk 0 0 64 32) false) []
  = [TC_InvalidateLocalMem (GetOffset 0x100 10 0) (GSVector4i.mk 0 0 64 32)].
Proof. reflexivity. Qed.

(** ** The frame tick *)

Section VSync.

Context {W : Type} (h : Prog.handler HW W).

(** The calls of one [VSync], in order, and the options it leaves. *)
Lemma VSync_shape s_n s_transfer_n GSConfig this field registers_written w :
  exists usage shown : Z,
    first_usage (Prog.trace h (VSync s_n s_transfer_n GSConfig this field registers_written) w)
    = Some usage
    /\ Prog.calls h (VSync s_n s_transfer_n GSConfig this field registers_written) w
       = (if LoadTextureReplacements GSConfig
          then [GSTextureReplacements_ProcessAsyncLoadedTextures] else [])
         ++ (if (m_last_draw_n this =? s_n) && (m_last_transfer_n this =? s_transfer_n)
             then [] else [TC_IncAge])
         ++ [GSRenderer_VSync field registers_written; TC_GetHashCacheMemoryUsage]
         ++ (if 1024 * 1024 * 1024 <? usage
             then [TC_GetHashCacheMemoryUsage;
                   Host_AddKeyedFormattedOSDMessage "HashCacheOverflow" shown;
                   TC_RemoveAll; Device_PurgePool]
             else [])
    /\ (Prog.result h (VSync s_n s_transfer_n GSConfig this field registers_written) w).2
       = (if 1024 * 1024 * 1024 <? usage
          then mkOptions (LoadTextureReplacements GSConfig) Partial (UpscaleMultiplier GSConfig)
          else GSConfig).
Proof.
  unfold Prog.calls, Prog.trace, Prog.result, first_usage, VSync, mbind, prog_bind.
  destruct (0 <? m_force_preload this);
    [destruct (m_force_preload this - 1 =? 0) |];
    destruct (LoadTextureReplacements GSConfig);
    destruct ((m_last_draw_n this =? s_n) && (m_last_transfer_n this =? s_transfer_n));
    cbn -[Z.ltb Z.mul Int.s32];
    repeat answer_call h;
    match goal with
    | |- context [1024 * 1024 * 1024 <? ?u] =>
        destruct (1024 * 1024 * 1024 <? u) eqn:Hover;
        cbn -[Z.ltb Z.mul Int.s32] in *; repeat answer_call h;
        [eexists u, _ | exists u, 0]; rewrite ?Hover; repeat split; reflexivity
    end.
Qed.

End VSync.

(** C3 (as stated, refuted).  A frame tick on which no draw and no
    transfer happened since the previous one ([m_last_draw_n = s_n = 5],
    [m_last_transfer_n = s_transfer_n = 3]) does not call [IncAge]. *)
Lemma VSync_idle_frame_not_aged :
  let this := mkHW 0 [] 5 3 0 0 in
  let GSConfig := mkOptions false Full (F32 0) in
  Prog.calls (recorder 0) (VSync 5 3 GSConfig this 0 false) []
  = [GSRenderer_VSync 0 false; TC_GetHashCacheMemoryUsage]
  /\ ~ In TC_IncAge (Prog.calls (recorder 0) (VSync 5 3 GSConfig this 0 false) []).
Proof.
  cbv zeta. split; [reflexivity |].
  intros [H | [H | []]]; discriminate H.
Qed.

(** C3 (amended).  On a frame tick [GSRendererHW::VSync] calls the
    cache's [IncAge] exactly once when a draw or a transfer happened since
    the previous tick ([m_last_draw_n <> s_n] or
    [m_last_transfer_n <> s_transfer_n]), and not at all otherwise. *)
Theorem VSync_ages_cache_after_activity :
  forall (W : Type) (h : Prog.handler HW W) (w : W) (s_n s_transfer_n : Z)
         (GSConfig : GSOptions) (this : GSRendererHW) (field : Z) (registers_written : bool),
    List.filter is_IncAge
      (Prog.calls h (VSync s_n s_transfer_n GSConfig this field registers_written) w)
    = (if (m_last_draw_n this =? s_n) && (m_last_transfer_n this =? s_transfer_n)
       then [] else [TC_IncAge]).
Proof.
  intros W h w s_n s_transfer_n GSConfig this field registers_written.
  destruct (VSync_shape h s_n s_transfer_n GSConfig this field registers_written w)
    as (usage & shown & _ & Hcalls & _).
  rewrite Hcalls, !List.filter_app.
  destruct (LoadTextureReplacements GSConfig),
    ((m_last_draw_n this =? s_n) && (m_last_transfer_n this =? s_transfer_n)),
    (1024 * 1024 * 1024 <? usage); reflexivity.
Qed.

(** C5 (as stated, refuted).  With the hash cache over the budget (one
    byte more than 1024 * 1024 * 1024) the frame tick does not pick hash
    cache entries to remove: the whole texture cache is torn down by
    [RemoveAll] and the device pool is purged. *)
Lemma VSync_over_budget_removes_all :
  let this := mkHW 0 [] 5 3 0 0 in
  let GSConfig := mkOptions false Full (F32 0) in
  Prog.calls (recorder (1024 * 1024 * 1024 + 1)) (VSync 6 3 GSConfig this 0 false) []
  = [TC_IncAge; GSRenderer_VSync 0 false; TC_GetHashCacheMemoryUsage;
     TC_GetHashCacheMemoryUsage;
     Host_AddKeyedFormattedOSDMessage "HashCacheOverflow" (1024 * 1024 * 1024 + 1);
     TC_RemoveAll; Device_PurgePool]
  /\ In TC_RemoveAll
       (Prog.calls (recorder (1024 * 1024 * 1024 + 1)) (VSync 6 3 GSConfig this 0 false) []).
Proof.
  cbv zeta. split; [reflexivity |].
  do 5 right. left. reflexivity.
Qed.

(** C5 (amended).  At a frame tick the hash cache's memory usage is read
    after the base-class [VSync] and compared with the fixed budget of
    1024 * 1024 * 1024 bytes.  When the usage exceeds it, the tick reads
    the usage once more, shows the [HashCacheOverflow] message, tears the
    whole texture cache down with [RemoveAll], purges the device pool
    with [PurgePool] and sets texture preloading to [Partial], in this
    order and as its last calls; when it does not, none of these calls
    is made and the options stay as they were.  The calls before the
    usage is read, [ProcessAsyncLoadedTextures] (with texture
    replacements on), [IncAge] (after a draw or a transfer) and the
    base-class [VSync], do not depend on the usage. *)
Theorem VSync_hash_cache_budget :
  forall (W : Type) (h : Prog.handler HW W) (w : W) (s_n s_transfer_n : Z)
         (GSConfig : GSOptions) (this : GSRendererHW) (field : Z) (registers_written : bool),
    exists usage shown : Z,
      first_usage (Prog.trace h (VSync s_n s_transfer_n GSConfig this field registers_written) w)
      = Some usage
      /\ Prog.calls h (VSync s_n s_transfer_n GSConfig this field registers_written) w
         = (if LoadTextureReplacements GSConfig
            then [GSTextureReplacements_ProcessAsyncLoadedTextures] else [])
           ++ (if (m_last_draw_n this =? s_n) && (m_last_transfer_n this =? s_transfer_n)
               then [] else [TC_IncAge])
           ++ [GSRenderer_VSync field registers_written; TC_GetHashCacheMemoryUsage]
           ++ (if 1024 * 1024 * 1024 <? usage
               then [TC_GetHashCacheMemoryUsage;
                     Host_AddKeyedFormattedOSDMessage "HashCacheOverflow" shown;
                     TC_RemoveAll; Device_PurgePool]
               else [])
      /\ (Prog.result h (VSync s_n s_transfer_n GSConfig this field registers_written) w).2
         = (if 1024 * 1024 * 1024 <? usage
            then mkOptions (LoadTextureReplacements GSConfig) Partial
                           (UpscaleMultiplier GSConfig)
            else GSConfig).
Proof.
  intros W h w s_n s_transfer_n GSConfig this field registers_written.
  exact (VSync_shape h s_n s_transfer_n GSConfig this field registers_written w).
Qed.

(** ** Display output *)

Section Output.

Context {W : Type} (h : Prog.handler HW W).

Lemma GetOutput_trace GSConfig i scale y_offset w :
  updates_found_target_only
    (Prog.trace h (GetOutput GSConfig i scale y_offset) w)
    (Prog.result h (GetOutput GSConfig i scale y_offset) w).1.1.
Proof.
  unfold updates_found_target_only, Prog.trace, Prog.result, GetOutput, mbind, prog_bind.
  cbn -[Z.leb].
  do 6 answer_call h.
  destruct r4 as [rt |]; cbn.
  - do 4 answer_call h. destruct r4.
    destruct (0 <? _); cbn; [answer_call h; destruct (negb _); cbn; [do 3 answer_call h |] |];
      (eexists [_; _; _; _; _], _, _, _, (Some rt), _;
       split; [reflexivity |]; split; [reflexivity |];
       eexists _, _; (split; [reflexivity | split; reflexivity])).
  - eexists [_; _; _; _; _], _, _, _, None, _.
    split; [reflexivity |]. split; [reflexivity |]. split; reflexivity.
Qed.

Lemma GetFeedbackOutput_trace GSConfig EXTBUF scale w :
  updates_found_target_only
    (Prog.trace h (GetFeedbackOutput GSConfig EXTBUF scale) w)
    (Prog.result h (GetFeedbackOutput GSConfig EXTBUF scale) w).1.
Proof.
  unfold updates_found_target_only, Prog.trace, Prog.result, GetFeedbackOutput, mbind, prog_bind.
  cbn -[Z.land].
  do 3 answer_call h.
  destruct r1 as [rt |]; cbn.
  - do 3 answer_call h. destruct r1.
    eexists [_; _], _, _, _, (Some rt), _.
    split; [reflexivity |]. split; [reflexivity |].
    eexists _, _. split; [reflexivity | split; reflexivity].
  - eexists [_; _], _, _, _, None, _.
    split; [reflexivity |]. split; [reflexivity |]. split; reflexivity.
Qed.

End Output.

Example GetOutput_found_target :
  Prog.run display_with_target (GetOutput (mkOptions false Full (F32 0)) 0 (F32 0) 0) []
  = ((Some 9%positive, F32 0, 96),
     [PCRTC_GetFramebufferSize 0; PCRTC_RemoveFramebufferOffset 0;
      PCRTC_Block 0; PCRTC_FBW 0; PCRTC_PSM 0;
      TC_LookupDisplayTarget (mkTEX0 0x500 10 0) (GSVector2i.mk 0 0) (F32 0);
      Target_Update 1%positive false; Target_m_texture 1%positive;
      Target_m_scale 1%positive; Target_m_TEX0 1%positive;
      PCRTC_FBW 0; PCRTC_FBW 0; PCRTC_PSM 0; GSLocalMemory_psm_pgs_y 0],
     map (fun c => Prog.ev (E := HW) c (display_with_target c []).1)
       [PCRTC_GetFramebufferSize 0; PCRTC_RemoveFramebufferOffset 0;
        PCRTC_Block 0; PCRTC_FBW 0; PCRTC_PSM 0;
        TC_LookupDisplayTarget (mkTEX0 0x500 10 0) (GSVector2i.mk 0 0) (F32 0);
        Target_Update 1%positive false; Target_m_texture 1%positive;
        Target_m_scale 1%positive; Target_m_TEX0 1%positive;
        PCRTC_FBW 0; PCRTC_FBW 0; PCRTC_PSM 0; GSLocalMemory_psm_pgs_y 0]).
Proof. reflexivity. Qed.

Example GetFeedbackOutput_no_target :
  Prog.run (recorder 0)
    (GetFeedbackOutput (mkOptions false Full (F32 0)) (mkEXTBUF 0x28 10 1) (F32 7)) []
  = ((None, F32 7),
     [PCRTC_GetFramebufferSize 1; PCRTC_PSM 1;
      TC_LookupDisplayTarget (mkTEX0 0x28 10 0) (GSVector2i.mk 0 0) (F32 0)],
     map (fun c => Prog.ev (E := HW) c (recorder 0 c []).1)
       [PCRTC_GetFramebufferSize 1; PCRTC_PSM 1;
        TC_LookupDisplayTarget (mkTEX0 0x28 10 0) (GSVector2i.mk 0 0) (F32 0)]).
Proof. reflexivity. Qed.

(** C7.  In [GetOutput] and in [GetFeedbackOutput], whatever the
    collaborators answer: when the display lookup finds a Target, its
    [Update] is called (with [reset_age = false]) right after the lookup
    and before its texture is read, and the texture read after the update
    is the one returned; [Update] is called on no other Target, and not
    at all when the lookup finds none (a null texture is returned). *)
Theorem display_output_updates_found_target :
  forall (W : Type) (h : Prog.handler HW W) (w : W) (GSConfig : GSOptions)
         (i : Z) (scale : f32) (y_offset : Z) (EXTBUF : GSRegEXTBUF),
    updates_found_target_only
      (Prog.trace h (GetOutput GSConfig i scale y_offset) w)
      (Prog.result h (GetOutput GSConfig i scale y_offset) w).1.1
    /\ updates_found_target_only
         (Prog.trace h (GetFeedbackOutput GSConfig EXTBUF scale) w)
         (Prog.result h (GetFeedbackOutput GSConfig EXTBUF scale) w).1.
Proof.
  intros. split; [apply GetOutput_trace | apply GetFeedbackOutput_trace].
Qed.

(** ** Surface creation on the Direct3D 11 device *)

(** C4 (as stated, refuted).  When the device cannot allocate the
    texture, [GSDevice11::CreateSurface] does not hand back a null
    resource: it ends by throwing [std::bad_alloc]. *)
Lemma CreateSurface_failure_throws :
  Prog.result device_out_of_memory
    (D3D11.CreateSurface (fun _ => 28) (fun _ => false) 16384 D3D11.RenderTarget 640 448 1 0) tt
  = D3D11.Thrown D3D11.std_bad_alloc
  /\ Prog.result device_out_of_memory
       (D3D11.CreateSurface (fun _ => 28) (fun _ => false) 16384 D3D11.RenderTarget 640 448 1 0) tt
     <> D3D11.Returned None.
Proof. split; [reflexivity | discriminate]. Qed.

(** C4 (amended).  [GSDevice11::CreateSurface] asks the device once, for
    the descriptor it has filled in.  When the device fails (a negative
    [HRESULT]) the call ends by throwing [std::bad_alloc]; when it
    succeeds the call returns a non-null texture object of the requested
    type and format that wraps what the device stored.  A null resource is
    never returned. *)
Theorem CreateSurface_returns_texture_or_throws :
  forall (GetDXGIFormat : D3D11.GSTexture_Format -> Z)
         (IsCompressedFormat : D3D11.GSTexture_Format -> bool)
         (W : Type) (h : Prog.handler D3D11.D3D W) (w : W)
         (m_d3d_texsize : Z) (type : D3D11.GSTexture_Type) (width height levels : Z)
         (format : D3D11.GSTexture_Format),
    let desc := D3D11.surface_desc GetDXGIFormat IsCompressedFormat
                  m_d3d_texsize type width height levels format in
    let answer := (h (D3D11.ID3D11Device_CreateTexture2D desc) w).1 in
    Prog.calls h (D3D11.CreateSurface GetDXGIFormat IsCompressedFormat
                    m_d3d_texsize type width height levels format) w
    = [D3D11.ID3D11Device_CreateTexture2D desc]
    /\ Prog.result h (D3D11.CreateSurface GetDXGIFormat IsCompressedFormat
                        m_d3d_texsize type width height levels format) w
       = (if D3D11.SUCCEEDED answer.1
          then D3D11.Returned (Some (D3D11.mkGSTexture11 answer.2 desc type format))
          else D3D11.Thrown D3D11.std_bad_alloc)
    /\ Prog.result h (D3D11.CreateSurface GetDXGIFormat IsCompressedFormat
                        m_d3d_texsize type width height levels format) w
       <> D3D11.Returned None.
Proof.
  intros GetDXGIFormat IsCompressedFormat W h w texsize type width height levels format
         desc answer.
  assert (Hres :
    Prog.result h (D3D11.CreateSurface GetDXGIFormat IsCompressedFormat
                     texsize type width height levels format) w
    = (if D3D11.SUCCEEDED answer.1
       then D3D11.Returned (Some (D3D11.mkGSTexture11 answer.2 desc type format))
       else D3D11.Thrown D3D11.std_bad_alloc)).
  { subst answer. unfold Prog.result, D3D11.CreateSurface, mbind, prog_bind. cbn.
    fold desc. destruct (h _ w) as [[hr texture] w1]. cbn.
    destruct (D3D11.SUCCEEDED hr); reflexivity. }
  split; [| split; [exact Hres |]].
  - unfold Prog.calls, Prog.trace, D3D11.CreateSurface, mbind, prog_bind. cbn.
    fold desc. destruct (h _ w) as [[hr texture] w1]. cbn.
    destruct (D3D11.SUCCEEDED hr); reflexivity.
  - rewrite Hres. destruct (D3D11.SUCCEEDED answer.1); discriminate.
Qed.

(** The [assert] after the construction: the object has the requested
    type. *)
Lemma CreateSurface_type :
  forall (GetDXGIFormat : D3D11.GSTexture_Format -> Z)
         (IsCompressedFormat : D3D11.GSTexture_Format -> bool)
         (W : Type) (h : Prog.handler D3D11.D3D W) (w : W)
         (m_d3d_texsize : Z) (type : D3D11.GSTexture_Type) (width height levels : Z)
         (format : D3D11.GSTexture_Format) (t : D3D11.GSTexture11),
    Prog.result h (D3D11.CreateSurface GetDXGIFormat IsCompressedFormat
                     m_d3d_texsize type width height levels format) w
    = D3D11.Returned (Some t) ->
    D3D11.GetType t = type.
Proof.
  intros GetDXGIFormat IsCompressedFormat W h w texsize type width height levels format t.
  unfold Prog.result, D3D11.CreateSurface, mbind, prog_bind. cbn.
  destruct (h _ w) as [[hr texture] w1]. cbn.
  destruct (D3D11.SUCCEEDED hr); cbn; [| discriminate].
  intros [= <-]. reflexivity.
Qed.

Example CreateSurface_success :
  Prog.result (fun (c : Prog.op D3D11.D3D) (w : unit) => ((0, Some 5%positive), w))
    (D3D11.CreateSurface (fun _ => 28) (fun _ => false) 16384 D3D11.Texture 640 99999 3 0) tt
  = D3D11.Returned (Some (D3D11.mkGSTexture11 (Some 5%positive)
      (D3D11.mkDesc 640 16384 3 1 28 1 0 0 0x28 0 1) D3D11.Texture 0)).
Proof. reflexivity. Qed.

(** ** The address range of a surface *)

(** C6.  For a surface whose base pointer is a 14-bit block pointer and
    whose end block is a [u32]: [Wraps] holds exactly when [m_end_block]
    is below [TBP0]; the unwrapped end block is [m_end_block] plus the
    size of the address space when the surface wraps and [m_end_block]
    otherwise; and so the unwrapped end block is never below [TBP0].
    [MAX_BLOCKS] is any size that exceeds every block pointer and keeps
    the sum within a [u32]. *)
Theorem UnwrappedEndBlock_not_below_base :
  forall (MAX_BLOCKS : Z) (s : GSTextureCache.Surface),
    GSTextureCache.MAX_BP < MAX_BLOCKS ->
    MAX_BLOCKS + GSTextureCache.MAX_BP < 2 ^ 32 ->
    0 <= TBP0 (GSTextureCache.m_TEX0 s) <= GSTextureCache.MAX_BP ->
    0 <= GSTextureCache.m_end_block s < 2 ^ 32 ->
    (GSTextureCache.Wraps s = true
     <-> GSTextureCache.m_end_block s < TBP0 (GSTextureCache.m_TEX0 s))
    /\ GSTextureCache.UnwrappedEndBlock MAX_BLOCKS s
       = (if GSTextureCache.Wraps s
          then GSTextureCache.m_end_block s + MAX_BLOCKS
          else GSTextureCache.m_end_block s)
    /\ TBP0 (GSTextureCache.m_TEX0 s) <= GSTextureCache.UnwrappedEndBlock MAX_BLOCKS s.
Proof.
  intros MAX_BLOCKS s Hgt Hfit Hbp Hend.
  unfold GSTextureCache.UnwrappedEndBlock, GSTextureCache.Wraps, GSTextureCache.MAX_BP in *.
  destruct (Z.ltb_spec (GSTextureCache.m_end_block s) (TBP0 (GSTextureCache.m_TEX0 s)))
    as [Hw | Hw].
  - rewrite IntFacts.u32_small by lia. repeat split; intros; first [lia | congruence].
  - rewrite Z.add_0_r, IntFacts.u32_small by lia.
    repeat split; intros; first [lia | congruence].
Qed.

Lemma UnwrappedEndBlock_not_below_base_witness :
  let s := GSTextureCache.mkSurface (mkTEX0 0x3f00 10 0) 0 0x00ff in
  (GSTextureCache.MAX_BP < 16384
   /\ 16384 + GSTextureCache.MAX_BP < 2 ^ 32
   /\ 0 <= TBP0 (GSTextureCache.m_TEX0 s) <= GSTextureCache.MAX_BP
   /\ 0 <= GSTextureCache.m_end_block s < 2 ^ 32)
  /\ ((GSTextureCache.Wraps s = true
       <-> GSTextureCache.m_end_block s < TBP0 (GSTextureCache.m_TEX0 s))
      /\ GSTextureCache.UnwrappedEndBlock 16384 s
         = (if GSTextureCache.Wraps s
            then GSTextureCache.m_end_block s + 16384
            else GSTextureCache.m_end_block s)
      /\ TBP0 (GSTextureCache.m_TEX0 s) <= GSTextureCache.UnwrappedEndBlock 16384 s).
Proof.
  cbv zeta. split.
  - unfold GSTextureCache.MAX_BP. cbn. lia.
  - apply (UnwrappedEndBlock_not_below_base 16384
             (GSTextureCache.mkSurface (mkTEX0 0x3f00 10 0) 0 0x00ff));
      unfold GSTextureCache.MAX_BP; cbn; lia.
Defined.

Example UnwrappedEndBlock_wrapping :
  GSTextureCache.UnwrappedEndBlock 16384
    (GSTextureCache.mkSurface (mkTEX0 0x3f00 10 0) 0 0x00ff) = 0x40ff.
Proof. reflexivity. Qed.

(** ** The memo table of the surface offset resolver *)

Section MemoFacts.
Import GSTextureCache SurfaceOffsetCache.

Variable resolve : SurfaceOffsetKey -> SurfaceOffset.
Variable make_room : cache -> cache.
Hypothesis room : makes_room make_room.










End MemoFacts.


Lemma drop_all_makes_room : SurfaceOffsetCache.makes_room SurfaceOffsetCache.drop_all.
Proof.
  intros table _. unfold SurfaceOffsetCache.drop_all. split.
  - rewrite map_size_empty. reflexivity.
  - apply map_empty_subseteq.
Qed.




(** Two keys that [HasEEUpload] builds for one recorded transfer and one
    texture, for two sampled rectangles, have the same tuple: the second
    query is answered with the entry of the first. *)
Example ComputeSurfaceOffset_same_tuple :
  let iter := mkUpload (mkBITBLTBUF 0 0 0 0x100 10 0) (GSVector4i.mk 0 0 64 32) 7 in
  let TEX0 := mkTEX0 0x100 10 0x13 in
  let first := HasEEUpload_sok iter TEX0 (GSVector4i.mk 0 0 16 16) in
  let again := HasEEUpload_sok iter TEX0 (GSVector4i.mk 0 0 32 32) in
  let resolve := fun k : GSTextureCache.SurfaceOffsetKey =>
                   GSTextureCache.mkSurfaceOffset true
                     (GSTextureCache.rect (GSTextureCache.elem_b k)) in
  let table := SurfaceOffsetCache.after resolve SurfaceOffsetCache.drop_all [first] ∅ in
  SurfaceOffsetCache.SurfaceOffsetKeyEqual first again = true
  /\ (SurfaceOffsetCache.ComputeSurfaceOffset resolve SurfaceOffsetCache.drop_all again table).1
     = resolve first
  /\ size table = 1%nat.
Proof. cbv zeta. repeat split; vm_compute; reflexivity. Qed.

(** ** Mutual exclusion of live Targets *)

Section RegistryFacts.
Import GSTextureCache TargetRegistry.

Variable MAX_BLOCKS : Z.


Hypothesis memory : 0 < MAX_BLOCKS <= 2 ^ 31.













Lemma set_m_dst_exclusive (type : TargetType) (l : list Target) (c : TargetRegistry.t) :
  mutually_exclusive MAX_BLOCKS c = true ->
  exclusive MAX_BLOCKS l = true ->
  mutually_exclusive MAX_BLOCKS (set_m_dst type l c) = true.
Proof.
  unfold mutually_exclusive. intros [Hrt Hds]%andb_prop Hl.
  destruct type; cbn; rewrite Hl, ?Hrt, ?Hds; reflexivity.
Qed.
















End RegistryFacts.



(** The scenario of the spec: a framebuffer that flips from base 0x000
    to base 0x500 while the ranges overlap; the old Target is evicted. *)
Example LookupTarget_flip_evicts_old :
  TargetRegistry.dst_rt
    (TargetRegistry.steps 16384 TargetRegistry.empty
       [TargetRegistry.OpLookupTarget (mkTEX0 0x000 10 0) 0x8bf GSTextureCache.RenderTarget;
        TargetRegistry.OpLookupTarget (mkTEX0 0x500 10 0) 0xdbf GSTextureCache.RenderTarget])
  = [GSTextureCache.mkTarget (GSTextureCache.mkSurface (mkTEX0 0x500 10 0) 0 0xdbf)
       GSTextureCache.RenderTarget].
Proof. vm_compute. reflexivity. Qed.

(** A new range across two live Targets: both are evicted. *)
Example LookupTarget_across_two_evicts_both :
  TargetRegistry.dst_rt
    (TargetRegistry.steps 16384 TargetRegistry.empty
       [TargetRegistry.OpLookupTarget (mkTEX0 0x000 10 0) 0x0ff GSTextureCache.RenderTarget;
        TargetRegistry.OpLookupTarget (mkTEX0 0x100 10 0) 0x1ff GSTextureCache.RenderTarget;
        TargetRegistry.OpLookupTarget (mkTEX0 0x080 10 0) 0x17f GSTextureCache.RenderTarget])
  = [GSTextureCache.mkTarget (GSTextureCache.mkSurface (mkTEX0 0x080 10 0) 0 0x17f)
       GSTextureCache.RenderTarget].
Proof. vm_compute. reflexivity. Qed.

(** A Target found at its base and resized into the range of its
    neighbour: the neighbour is evicted. *)
Example LookupTarget_resize_evicts_neighbour :
  TargetRegistry.dst_rt
    (TargetRegistry.steps 16384 TargetRegistry.empty
       [TargetRegistry.OpLookupTarget (mkTEX0 0x000 10 0) 0x0ff GSTextureCache.RenderTarget;
        TargetRegistry.OpLookupTarget (mkTEX0 0x100 10 0) 0x1ff GSTextureCache.RenderTarget;
        TargetRegistry.OpLookupTarget (mkTEX0 0x000 10 0) 0x17f GSTextureCache.RenderTarget])
  = [GSTextureCache.mkTarget (GSTextureCache.mkSurface (mkTEX0 0x000 10 0) 0 0x17f)
       GSTextureCache.RenderTarget].
Proof. vm_compute. reflexivity. Qed.

(** A Target that wraps the end of the memory lies on the blocks from 0
    too: a new Target at block 0 evicts it. *)
Example LookupTarget_wrapped_range_evicted :
  TargetRegistry.dst_rt
    (TargetRegistry.steps 16384 TargetRegistry.empty
       [TargetRegistry.OpLookupTarget (mkTEX0 0x3f00 10 0) 0x0ff GSTextureCache.RenderTarget;
        TargetRegistry.OpLookupTarget (mkTEX0 0x000 10 0) 0x07f GSTextureCache.RenderTarget])
  = [GSTextureCache.mkTarget (GSTextureCache.mkSurface (mkTEX0 0x000 10 0) 0 0x07f)
       GSTextureCache.RenderTarget].
Proof. vm_compute. reflexivity. Qed.

(** * Further properties of the code *)

(** ** Bit-level facts *)

Module BitFacts.

Lemma u32_land z : Int.u32 z = Z.land z (Z.ones 32).
Proof. unfold Int.u32. rewrite Z.land_ones by lia. reflexivity. Qed.

Lemma u64_land z : SourceRegion.u64 z = Z.land z (Z.ones 64).
Proof. unfold SourceRegion.u64. rewrite Z.land_ones by lia. reflexivity. Qed.

Lemma testbit_above k a n : 0 <= a < 2 ^ k -> 0 <= k <= n -> Z.testbit a n = false.
Proof.
  intros Ha Hk. rewrite <- (Z.mod_small a (2 ^ k)) by lia.
  apply Z.mod_pow2_bits_high. lia.
Qed.

Lemma ones_bit n m : 0 <= n -> 0 <= m -> Z.testbit (Z.ones n) m = (m <? n).
Proof. intros. apply Z.testbit_ones_nonneg; assumption. Qed.

End BitFacts.

(** Reduces an equation between bit-field expressions to the bits. *)
Ltac bitwise n Hn :=
  apply Z.bits_inj'; intros n Hn;
  repeat first
    [ rewrite Z.land_spec | rewrite Z.lor_spec
    | rewrite Z.shiftr_spec by lia | rewrite Z.shiftl_spec by lia
    | rewrite BitFacts.ones_bit by lia ].

(** Splits on the bit positions and discharges the bits known to be clear. *)
Ltac bit_cases :=
  repeat match goal with |- context [?a <? ?b] => destruct (Z.ltb_spec a b) end;
  try lia;
  rewrite ?andb_false_r, ?andb_true_r, ?orb_false_r;
  repeat match goal with
         | H : forall n : Z, @?P n -> Z.testbit ?a n = false |- context [Z.testbit ?a ?k] =>
             rewrite (H k) by lia
         | |- context [Z.testbit ?a ?k] => rewrite (Z.testbit_neg_r a k) by lia
         end;
  rewrite ?orb_false_r, ?orb_false_l, ?andb_false_r, ?andb_true_r;
  try reflexivity; try (f_equal; lia).

(** ** The packed source region *)

Section SourceRegionFacts.
Import SourceRegion.

(** X fields are in the low half: [HasX] is false exactly when the low 32
    bits are clear. *)
Lemma no_x_bits s n : HasX s = false -> 0 <= n < 32 -> Z.testbit (bits s) n = false.
Proof.
  unfold HasX. intros H Hn. apply negb_false_iff, Z.eqb_eq in H.
  rewrite BitFacts.u32_land in H.
  assert (Hb : Z.testbit (Z.land (bits s) (Z.ones 32)) n = false)
    by (rewrite H; apply Z.bits_0).
  rewrite Z.land_spec, BitFacts.ones_bit in Hb by lia.
  destruct (Z.ltb_spec n 32); [| lia]. rewrite andb_true_r in Hb. exact Hb.
Qed.

Lemma no_y_bits s n :
  0 <= bits s < 2 ^ 64 -> HasY s = false -> 32 <= n -> Z.testbit (bits s) n = false.
Proof.
  unfold HasY. intros Hr H Hn. apply negb_false_iff, Z.eqb_eq in H.
  destruct (Z.ltb_spec n 64) as [Hlt | Hge];
    [| apply (BitFacts.testbit_above 64); lia].
  rewrite BitFacts.u32_land in H.
  assert (Hb : Z.testbit (Z.land (Z.shiftr (bits s) 32) (Z.ones 32)) (n - 32) = false)
    by (rewrite H; apply Z.bits_0).
  rewrite Z.land_spec, Z.shiftr_spec, BitFacts.ones_bit in Hb by lia.
  replace (n - 32 + 32) with n in Hb by lia.
  destruct (Z.ltb_spec (n - 32) 32); [| lia]. rewrite andb_true_r in Hb. exact Hb.
Qed.

End SourceRegionFacts.

(** X3.  On a region without an X range, [SetX (min, max)] with two
    16-bit bounds is read back exactly by [GetMinX] and [GetMaxX], and it
    leaves the Y range as it was. *)
Theorem SourceRegion_SetX_round_trip :
  forall (s : SourceRegion.t) (min max : Z),
    SourceRegion.HasX s = false ->
    0 <= min < 2 ^ 16 ->
    0 <= max < 2 ^ 16 ->
    SourceRegion.GetMinX (SourceRegion.SetX min max s) = min
    /\ SourceRegion.GetMaxX (SourceRegion.SetX min max s) = max
    /\ SourceRegion.GetMinY (SourceRegion.SetX min max s) = SourceRegion.GetMinY s
    /\ SourceRegion.GetMaxY (SourceRegion.SetX min max s) = SourceRegion.GetMaxY s.
Proof.
  intros s min max Hx Hmin Hmax.
  unfold SourceRegion.GetMinX, SourceRegion.GetMaxX, SourceRegion.GetMinY,
    SourceRegion.GetMaxY, SourceRegion.SetX. cbn [SourceRegion.bits].
  rewrite !BitFacts.u32_land.
  assert (Hlo : forall n, 0 <= n < 32 -> Z.testbit (SourceRegion.bits s) n = false)
    by (intros; apply no_x_bits; assumption).
  assert (Hmin' : forall n, 16 <= n -> Z.testbit min n = false)
    by (intros; apply (BitFacts.testbit_above 16); lia).
  assert (Hmax' : forall n, 16 <= n -> Z.testbit max n = false)
    by (intros; apply (BitFacts.testbit_above 16); lia).
  change 0xFFFF with (Z.ones 16).
  repeat split; bitwise n Hn; bit_cases.
Qed.

Lemma SourceRegion_SetX_round_trip_witness :
  let s := SourceRegion.SetY 16 240 (SourceRegion.mk 0) in
  (SourceRegion.HasX s = false /\ 0 <= 32 < 2 ^ 16 /\ 0 <= 96 < 2 ^ 16)
  /\ (SourceRegion.GetMinX (SourceRegion.SetX 32 96 s) = 32
      /\ SourceRegion.GetMaxX (SourceRegion.SetX 32 96 s) = 96
      /\ SourceRegion.GetMinY (SourceRegion.SetX 32 96 s) = SourceRegion.GetMinY s
      /\ SourceRegion.GetMaxY (SourceRegion.SetX 32 96 s) = SourceRegion.GetMaxY s).
Proof.
  cbv zeta. split; [split; [reflexivity | lia] |].
  apply (SourceRegion_SetX_round_trip (SourceRegion.SetY 16 240 (SourceRegion.mk 0)) 32 96);
    [reflexivity | lia | lia].
Defined.

(** X4.  On a 64-bit region without a Y range, [SetY (min, max)] with two
    16-bit bounds is read back exactly by [GetMinY] and [GetMaxY], and it
    leaves the X range as it was. *)
Theorem SourceRegion_SetY_round_trip :
  forall (s : SourceRegion.t) (min max : Z),
    0 <= SourceRegion.bits s < 2 ^ 64 ->
    SourceRegion.HasY s = false ->
    0 <= min < 2 ^ 16 ->
    0 <= max < 2 ^ 16 ->
    SourceRegion.GetMinY (SourceRegion.SetY min max s) = min
    /\ SourceRegion.GetMaxY (SourceRegion.SetY min max s) = max
    /\ SourceRegion.GetMinX (SourceRegion.SetY min max s) = SourceRegion.GetMinX s
    /\ SourceRegion.GetMaxX (SourceRegion.SetY min max s) = SourceRegion.GetMaxX s.
Proof.
  intros s min max Hr Hy Hmin Hmax.
  unfold SourceRegion.GetMinX, SourceRegion.GetMaxX, SourceRegion.GetMinY,
    SourceRegion.GetMaxY, SourceRegion.SetY. cbn [SourceRegion.bits].
  rewrite !BitFacts.u32_land, !BitFacts.u64_land.
  assert (Hhi : forall n, 32 <= n -> Z.testbit (SourceRegion.bits s) n = false)
    by (intros; apply no_y_bits; assumption).
  assert (Hmin' : forall n, 16 <= n -> Z.testbit min n = false)
    by (intros; apply (BitFacts.testbit_above 16); lia).
  assert (Hmax' : forall n, 16 <= n -> Z.testbit max n = false)
    by (intros; apply (BitFacts.testbit_above 16); lia).
  change 0xFFFF with (Z.ones 16).
  repeat split; bitwise n Hn; bit_cases.
Qed.

Lemma SourceRegion_SetY_round_trip_witness :
  let s := SourceRegion.SetX 32 96 (SourceRegion.mk 0) in
  (0 <= SourceRegion.bits s < 2 ^ 64 /\ SourceRegion.HasY s = false
   /\ 0 <= 16 < 2 ^ 16 /\ 0 <= 240 < 2 ^ 16)
  /\ (SourceRegion.GetMinY (SourceRegion.SetY 16 240 s) = 16
      /\ SourceRegion.GetMaxY (SourceRegion.SetY 16 240 s) = 240
      /\ SourceRegion.GetMinX (SourceRegion.SetY 16 240 s) = SourceRegion.GetMinX s
      /\ SourceRegion.GetMaxX (SourceRegion.SetY 16 240 s) = SourceRegion.GetMaxX s).
Proof.
  cbv zeta. split; [split; [vm_compute; split; [discriminate | reflexivity] |
                            split; [reflexivity | lia]] |].
  apply (SourceRegion_SetY_round_trip (SourceRegion.SetX 32 96 (SourceRegion.mk 0)) 16 240);
    [vm_compute; split; [discriminate | reflexivity] | reflexivity | lia | lia].
Defined.

(** X5.  [SetX] does not overwrite: it ORs into the stored range, and the
    bits of [min] above the sixteenth spill into the maximum. *)
Theorem SourceRegion_SetX_accumulates :
  forall (s : SourceRegion.t) (min max : Z),
    SourceRegion.GetMinX (SourceRegion.SetX min max s)
    = Z.lor (SourceRegion.GetMinX s) (Z.land min 0xFFFF)
    /\ SourceRegion.GetMaxX (SourceRegion.SetX min max s)
       = Z.lor (SourceRegion.GetMaxX s) (Z.land (Z.lor (Z.shiftr min 16) max) 0xFFFF).
Proof.
  intros s min max.
  unfold SourceRegion.GetMinX, SourceRegion.GetMaxX, SourceRegion.SetX.
  cbn [SourceRegion.bits]. rewrite !BitFacts.u32_land.
  change 0xFFFF with (Z.ones 16).
  split; bitwise n Hn; bit_cases.
  replace (n + 16 - 16) with n by lia. reflexivity.
Qed.

(** X6.  A 64-bit region has either range exactly when it has an X range
    or a Y range. *)
Theorem SourceRegion_HasEither_iff :
  forall s : SourceRegion.t,
    0 <= SourceRegion.bits s < 2 ^ 64 ->
    SourceRegion.HasEither s = SourceRegion.HasX s || SourceRegion.HasY s.
Proof.
  intros s Hr. unfold SourceRegion.HasEither, SourceRegion.HasX, SourceRegion.HasY, Int.u32.
  rewrite Z.shiftr_div_pow2 by lia.
  pose proof (Z.div_mod (SourceRegion.bits s) (2 ^ 32) ltac:(lia)) as Hdm.
  pose proof (Z.mod_pos_bound (SourceRegion.bits s) (2 ^ 32) ltac:(lia)) as Hlo.
  assert (Hq : 0 <= SourceRegion.bits s / 2 ^ 32 < 2 ^ 32).
  { split; [apply Z.div_pos; lia | apply Z.div_lt_upper_bound; lia]. }
  rewrite (Z.mod_small (SourceRegion.bits s / 2 ^ 32)) by exact Hq.
  set (q := SourceRegion.bits s / 2 ^ 32) in *.
  set (r := SourceRegion.bits s mod 2 ^ 32) in *.
  destruct (Z.eqb_spec (SourceRegion.bits s) 0), (Z.eqb_spec r 0), (Z.eqb_spec q 0);
    cbn; try reflexivity; exfalso; lia.
Qed.

Lemma SourceRegion_HasEither_iff_witness :
  let s := SourceRegion.SetY 16 240 (SourceRegion.mk 0) in
  0 <= SourceRegion.bits s < 2 ^ 64
  /\ SourceRegion.HasEither s = SourceRegion.HasX s || SourceRegion.HasY s.
Proof.
  cbv zeta. split; [vm_compute; split; [discriminate | reflexivity] |].
  apply (SourceRegion_HasEither_iff (SourceRegion.SetY 16 240 (SourceRegion.mk 0))).
  vm_compute. split; [discriminate | reflexivity].
Defined.

(** ** The overlap test of block ranges *)

(** X1.  [CheckOverlap] answers true exactly when the two inclusive block
    ranges have a block in common; in particular it is symmetric, and it
    answers false as soon as one of the ranges ends before it starts. *)
Theorem CheckOverlap_iff_common_block :
  forall a_bp a_bp_end b_bp b_bp_end : Z,
    (GSTextureCache.CheckOverlap a_bp a_bp_end b_bp b_bp_end = true
     <-> exists block : Z, a_bp <= block <= a_bp_end /\ b_bp <= block <= b_bp_end)
    /\ GSTextureCache.CheckOverlap a_bp a_bp_end b_bp b_bp_end
       = GSTextureCache.CheckOverlap b_bp b_bp_end a_bp a_bp_end.
Proof.
  intros a ae b be. unfold GSTextureCache.CheckOverlap. split.
  - split.
    + intros H. exists (Z.max a b). lia.
    + intros [k Hk]. lia.
  - destruct (Z.leb_spec a ae), (Z.leb_spec b be), (Z.leb_spec a be), (Z.leb_spec b ae),
      (Z.geb_spec ae b), (Z.geb_spec be a); cbn; try reflexivity; lia.
Qed.

(** X2.  Why overlap tests need the unwrapped end: against the raw
    [m_end_block] of a surface that wraps, [CheckOverlap] rejects every
    range, even the surface's own; with [UnwrappedEndBlock] a surface
    always overlaps itself. *)
Theorem CheckOverlap_needs_unwrapped_end :
  forall (MAX_BLOCKS : Z) (s : GSTextureCache.Surface) (b_bp b_bp_end : Z),
    GSTextureCache.MAX_BP < MAX_BLOCKS ->
    MAX_BLOCKS + GSTextureCache.MAX_BP < 2 ^ 32 ->
    0 <= TBP0 (GSTextureCache.m_TEX0 s) <= GSTextureCache.MAX_BP ->
    0 <= GSTextureCache.m_end_block s < 2 ^ 32 ->
    (GSTextureCache.Wraps s = true ->
     GSTextureCache.CheckOverlap (TBP0 (GSTextureCache.m_TEX0 s))
       (GSTextureCache.m_end_block s) b_bp b_bp_end = false)
    /\ GSTextureCache.CheckOverlap
         (TBP0 (GSTextureCache.m_TEX0 s)) (GSTextureCache.UnwrappedEndBlock MAX_BLOCKS s)
         (TBP0 (GSTextureCache.m_TEX0 s)) (GSTextureCache.UnwrappedEndBlock MAX_BLOCKS s)
       = true.
Proof.
  intros MAX_BLOCKS s b be Hgt Hfit Hbp Hend.
  unfold GSTextureCache.CheckOverlap, GSTextureCache.UnwrappedEndBlock,
    GSTextureCache.Wraps, GSTextureCache.MAX_BP in *.
  split.
  - intros Hw. apply Z.ltb_lt in Hw.
    destruct (Z.leb_spec (TBP0 (GSTextureCache.m_TEX0 s)) (GSTextureCache.m_end_block s));
      [lia | reflexivity].
  - destruct (Z.ltb_spec (GSTextureCache.m_end_block s) (TBP0 (GSTextureCache.m_TEX0 s))).
    + rewrite IntFacts.u32_small by lia.
      destruct (Z.leb_spec (TBP0 (GSTextureCache.m_TEX0 s))
                  (GSTextureCache.m_end_block s + MAX_BLOCKS)); [| lia].
      destruct (Z.geb_spec (GSTextureCache.m_end_block s + MAX_BLOCKS)
                  (TBP0 (GSTextureCache.m_TEX0 s))); [reflexivity | lia].
    + rewrite Z.add_0_r, IntFacts.u32_small by lia.
      destruct (Z.leb_spec (TBP0 (GSTextureCache.m_TEX0 s)) (GSTextureCache.m_end_block s));
        [| lia].
      destruct (Z.geb_spec (GSTextureCache.m_end_block s) (TBP0 (GSTextureCache.m_TEX0 s)));
        [reflexivity | lia].
Qed.

Lemma CheckOverlap_needs_unwrapped_end_witness :
  let s := GSTextureCache.mkSurface (mkTEX0 0x3f00 10 0) 0 0x00ff in
  (GSTextureCache.MAX_BP < 16384
   /\ 16384 + GSTextureCache.MAX_BP < 2 ^ 32
   /\ 0 <= TBP0 (GSTextureCache.m_TEX0 s) <= GSTextureCache.MAX_BP
   /\ 0 <= GSTextureCache.m_end_block s < 2 ^ 32
   /\ GSTextureCache.Wraps s = true)
  /\ GSTextureCache.CheckOverlap (TBP0 (GSTextureCache.m_TEX0 s))
       (GSTextureCache.m_end_block s) 0x3f00 0x3fff = false
  /\ GSTextureCache.CheckOverlap
       (TBP0 (GSTextureCache.m_TEX0 s)) (GSTextureCache.UnwrappedEndBlock 16384 s)
       (TBP0 (GSTextureCache.m_TEX0 s)) (GSTextureCache.UnwrappedEndBlock 16384 s) = true.
Proof.
  cbv zeta.
  pose proof (CheckOverlap_needs_unwrapped_end 16384
                (GSTextureCache.mkSurface (mkTEX0 0x3f00 10 0) 0 0x00ff) 0x3f00 0x3fff) as H.
  unfold GSTextureCache.MAX_BP in *. cbn in H.
  destruct H as [Hraw Hself]; try lia.
  split; [cbn; repeat split; lia |].
  split; [apply Hraw; reflexivity | exact Hself].
Defined.

(** ** The CPU-write path without a recorded transfer *)

(** X7.  When the [clut] flag is clear and no transfer with the same base
    pointer, format and rectangle is recorded for the current draw,
    [GSRendererHW::InvalidateLocalMem] issues exactly one call, the
    cache's [InvalidateLocalMem] for the source offset and the rectangle;
    [InvalidateVideoMem] is not called.  Transfers of other draws, bases,
    formats or rectangles do not count. *)
Theorem InvalidateLocalMem_without_recorded_transfer :
  forall (W : Type) (h : Prog.handler HW W) (w : W) (s_n : Z) (this : GSRendererHW)
         (BITBLTBUF : GIFRegBITBLTBUF) (r : GSVector4i.t),
    (forall iter, In iter (m_draw_transfers this) ->
       draw iter <> s_n \/ DBP (blit iter) <> SBP BITBLTBUF
       \/ DPSM (blit iter) <> SPSM BITBLTBUF \/ rect iter <> r) ->
    Prog.calls h (InvalidateLocalMem s_n this BITBLTBUF r false) w
    = [TC_InvalidateLocalMem
         (GetOffset (SBP BITBLTBUF) (SBW BITBLTBUF) (SPSM BITBLTBUF)) r].
Proof.
  intros W h w s_n this B r Hnone.
  unfold Prog.calls, Prog.trace. rewrite InvalidateLocalMem_run.
  replace (existsb (same_transfer s_n B r) (m_draw_transfers this)) with false;
    [reflexivity |].
  symmetry. apply not_true_is_false. intros Hex.
  apply existsb_exists in Hex as (iter & Hin & Hsame).
  unfold same_transfer in Hsame.
  apply andb_prop in Hsame as [Hsame Hrect].
  apply andb_prop in Hsame as [Hsame Hpsm].
  apply andb_prop in Hsame as [Hdraw Hbp].
  apply Z.eqb_eq in Hdraw, Hbp, Hpsm.
  destruct (Hnone iter Hin) as [Hd | [Hb | [Hp | Hr]]]; try congruence.
  apply Hr. unfold GSVector4i.eq in Hrect.
  apply andb_prop in Hrect as [Hrect Hw].
  apply andb_prop in Hrect as [Hrect Hz].
  apply andb_prop in Hrect as [Hx Hy].
  apply Z.eqb_eq in Hx, Hy, Hz, Hw.
  destruct r, (rect iter). cbn in *. congruence.
Qed.

Lemma InvalidateLocalMem_without_recorded_transfer_witness :
  let r := GSVector4i.mk 0 0 64 32 in
  let BITBLTBUF := mkBITBLTBUF 0x100 10 0 0 0 0 in
  let this := mkHW 0 [mkUpload (mkBITBLTBUF 0 0 0 0x100 10 0) r 6;
                      mkUpload (mkBITBLTBUF 0 0 0 0x100 10 0) (GSVector4i.mk 0 0 64 64) 7] 0 0 0 0 in
  Prog.calls (recorder 0) (InvalidateLocalMem 7 this BITBLTBUF r false) []
  = [TC_InvalidateLocalMem (GetOffset 0x100 10 0) r].
Proof.
  cbv zeta.
  apply (InvalidateLocalMem_without_recorded_transfer (list hw_call) (recorder 0) [] 7
           (mkHW 0 [mkUpload (mkBITBLTBUF 0 0 0 0x100 10 0) (GSVector4i.mk 0 0 64 32) 6;
                    mkUpload (mkBITBLTBUF 0 0 0 0x100 10 0) (GSVector4i.mk 0 0 64 64) 7] 0 0 0 0)
           (mkBITBLTBUF 0x100 10 0 0 0 0) (GSVector4i.mk 0 0 64 32)).
  cbn. intros iter [<- | [<- | []]]; cbn.
  - left. lia.
  - right. right. right. discriminate.
Defined.

(** ** Frame ticks in sequence *)

Section VSyncState.

Context {W : Type} (h : Prog.handler HW W).

(** The members that one [VSync] leaves. *)
Lemma VSync_members s_n s_transfer_n GSConfig this field registers_written w :
  (Prog.result h (VSync s_n s_transfer_n GSConfig this field registers_written) w).1
  = mkHW
      (if 0 <? m_force_preload this then m_force_preload this - 1 else m_force_preload this)
      (if 0 <? m_force_preload this then
         if m_force_preload this - 1 =? 0 then
           List.filter (fun iter => negb (5 <? Int.s32 (s_n - draw iter)))
                       (m_draw_transfers this)
         else m_draw_transfers this
       else [])
      (Int.s32 (s_n + 1)) s_transfer_n 0 0.
Proof.
  unfold Prog.result, VSync, mbind, prog_bind.
  destruct (0 <? m_force_preload this);
    [destruct (m_force_preload this - 1 =? 0) |];
    destruct (LoadTextureReplacements GSConfig);
    destruct ((m_last_draw_n this =? s_n) && (m_last_transfer_n this =? s_transfer_n));
    cbn -[Z.ltb Z.mul Int.s32];
    repeat answer_call h;
    match goal with
    | |- context [1024 * 1024 * 1024 <? ?u] =>
        destruct (1024 * 1024 * 1024 <? u);
        cbn -[Z.ltb Z.mul Int.s32] in *; repeat answer_call h; reflexivity
    end.
Qed.

End VSyncState.

(** X8.  A frame tick that follows another one with no draw and no
    transfer in between does not age the texture cache: the first tick
    stores [s_n + 1], counting itself, so a second tick that finds the
    draw counter advanced by just that one and the transfer counter
    unchanged leaves [IncAge] out, whatever the collaborators do. *)
Theorem VSync_after_idle_frame_does_not_age :
  forall (W W' : Type) (h : Prog.handler HW W) (w : W) (h' : Prog.handler HW W') (w' : W')
         (s_n s_transfer_n : Z) (GSConfig : GSOptions) (this : GSRendererHW)
         (field field' : Z) (registers_written registers_written' : bool),
    - 2 ^ 31 <= s_n < 2 ^ 31 - 1 ->
    let after := Prog.result h (VSync s_n s_transfer_n GSConfig this field registers_written) w in
    List.filter is_IncAge
      (Prog.calls h' (VSync (s_n + 1) s_transfer_n after.2 after.1 field' registers_written') w')
    = [].
Proof.
  intros W W' h w h' w' s_n s_transfer_n GSConfig this field field' rw rw' Hrange after.
  destruct (VSync_shape h' (s_n + 1) s_transfer_n after.2 after.1 field' rw' w')
    as (usage & shown & _ & Hcalls & _).
  rewrite Hcalls, !List.filter_app.
  subst after. rewrite VSync_members. cbn [m_last_draw_n m_last_transfer_n].
  rewrite IntFacts.s32_small by lia. rewrite !Z.eqb_refl. cbn [andb].
  destruct (LoadTextureReplacements _), (1024 * 1024 * 1024 <? usage); reflexivity.
Qed.

Lemma VSync_after_idle_frame_does_not_age_witness :
  let after := Prog.result (recorder 0)
                 (VSync 7 3 (mkOptions false Full (F32 0)) (mkHW 0 [] 5 3 0 0) 0 false) [] in
  - 2 ^ 31 <= 7 < 2 ^ 31 - 1
  /\ List.filter is_IncAge
       (Prog.calls (recorder 0) (VSync (7 + 1) 3 after.2 after.1 1 false) []) = [].
Proof.
  cbv zeta. split; [lia |].
  apply (VSync_after_idle_frame_does_not_age (list hw_call) (list hw_call)
           (recorder 0) [] (recorder 0) [] 7 3 (mkOptions false Full (F32 0))
           (mkHW 0 [] 5 3 0 0) 0 1 false false).
  lia.
Defined.

(** X9.  After [Reset] the recorded transfers survive the next frame
    tick untouched, the second tick keeps only those at most 5 draws old,
    and the third tick drops them all.  (No transfer is recorded in
    between; the counters and the collaborators at each tick are
    arbitrary.) *)
Theorem Reset_keeps_transfers_for_two_frames :
  forall (W0 W1 W2 W3 : Type)
         (h0 : Prog.handler HW2 W0) (w0 : W0) (h1 : Prog.handler HW W1) (w1 : W1)
         (h2 : Prog.handler HW W2) (w2 : W2) (h3 : Prog.handler HW W3) (w3 : W3)
         (this : GSRendererHW) (hardware_reset : bool) (GSConfig : GSOptions)
         (n1 t1 n2 t2 n3 t3 f1 f2 f3 : Z) (r1 r2 r3 : bool),
    let reset := Prog.result h0 (Reset this hardware_reset) w0 in
    let tick1 := Prog.result h1 (VSync n1 t1 GSConfig reset f1 r1) w1 in
    let tick2 := Prog.result h2 (VSync n2 t2 tick1.2 tick1.1 f2 r2) w2 in
    let tick3 := Prog.result h3 (VSync n3 t3 tick2.2 tick2.1 f3 r3) w3 in
    Prog.calls h0 (Reset this hardware_reset) w0 = [TC2_RemoveAll; GSRenderer_Reset hardware_reset]
    /\ m_draw_transfers tick1.1 = m_draw_transfers this
    /\ m_draw_transfers tick2.1
       = List.filter (fun iter => negb (5 <? Int.s32 (n2 - draw iter))) (m_draw_transfers this)
    /\ m_draw_transfers tick3.1 = []
    /\ m_force_preload tick3.1 = 0.
Proof.
  intros W0 W1 W2 W3 h0 w0 h1 w1 h2 w2 h3 w3 this hardware_reset GSConfig
         n1 t1 n2 t2 n3 t3 f1 f2 f3 r1 r2 r3 reset tick1 tick2 tick3.
  assert (Hreset : reset = mkHW 2 (m_draw_transfers this) (m_last_draw_n this)
                             (m_last_transfer_n this) (m_skip this) (m_skip_offset this)).
  { subst reset. unfold Prog.result, Reset, mbind, prog_bind. cbn.
    destruct (h0 TC2_RemoveAll w0) as [[] w]. cbn.
    destruct (h0 (GSRenderer_Reset hardware_reset) w) as [[] w']. reflexivity. }
  assert (H1 : tick1.1 = mkHW 1 (m_draw_transfers this) (Int.s32 (n1 + 1)) t1 0 0).
  { subst tick1. rewrite VSync_members, Hreset. reflexivity. }
  assert (H2 : tick2.1 = mkHW 0 (List.filter (fun iter => negb (5 <? Int.s32 (n2 - draw iter)))
                                   (m_draw_transfers this)) (Int.s32 (n2 + 1)) t2 0 0).
  { subst tick2. rewrite VSync_members, H1. reflexivity. }
  assert (H3 : tick3.1 = mkHW 0 [] (Int.s32 (n3 + 1)) t3 0 0).
  { subst tick3. rewrite VSync_members, H2. reflexivity. }
  split.
  - unfold Prog.calls, Prog.trace, Reset, mbind, prog_bind. cbn.
    destruct (h0 TC2_RemoveAll w0) as [[] w]. cbn.
    destruct (h0 (GSRenderer_Reset hardware_reset) w) as [[] w']. reflexivity.
  - rewrite H1, H2, H3. repeat split; reflexivity.
Qed.

(** ** Uploads by the EE since the last draw *)

Section HasEEUploadFacts.

Variable HasSharedBits : Z -> Z -> bool.
Variable HasCompatibleBits : Z -> Z -> bool.
Variable rintersect : GSVector4i.t -> GSVector4i.t -> GSVector4i.t.

Context {W : Type} (h : Prog.handler HW2 W).

Lemma HasEEUpload_from_sound s_n TEX0 r transfers w :
  (Prog.result h (HasEEUpload_from HasSharedBits HasCompatibleBits rintersect
                    s_n TEX0 r transfers) w = true ->
   exists iter, In iter transfers /\ candidate HasSharedBits s_n TEX0 iter)
  /\ (forall sok,
        In sok (omap offset_query
                  (Prog.calls h (HasEEUpload_from HasSharedBits HasCompatibleBits rintersect
                                   s_n TEX0 r transfers) w)) ->
        exists iter, In iter transfers /\ candidate HasSharedBits s_n TEX0 iter
                     /\ HasCompatibleBits (DPSM (blit iter)) (PSM TEX0) = false
                     /\ sok = HasEEUpload_sok iter TEX0 r).
Proof.
  revert w. induction transfers as [| iter later IH]; intros w.
  - split; [discriminate | intros sok []].
  - unfold Prog.result, Prog.calls, Prog.trace in *.
    cbn [HasEEUpload_from]. unfold mbind, prog_bind. rewrite ProgFacts.run_bind.
    unfold HasEEUpload_iter.
    destruct ((draw iter =? Int.s32 (s_n - 1)) && (DBP (blit iter) =? TBP0 TEX0)
              && HasSharedBits (DPSM (blit iter)) (PSM TEX0)) eqn:Hcond.
    + assert (Hcand : candidate HasSharedBits s_n TEX0 iter).
      { apply andb_prop in Hcond as [Hcond Hs]. apply andb_prop in Hcond as [Hd Hb].
        apply Z.eqb_eq in Hd, Hb. repeat split; assumption. }
      destruct (HasCompatibleBits (DPSM (blit iter)) (PSM TEX0)) eqn:Hcompat;
        unfold mbind, prog_bind; cbn.
      * destruct (GSVector4i.eq (rintersect r r) r); cbn.
        -- split; [intros _; exists iter; split; [left; reflexivity | exact Hcand]
                  | intros sok []].
        -- destruct (IH w) as [IHres IHq].
           destruct (Prog.run h _ w) as [[b w2] tr2]. cbn in *.
           split.
           ++ intros Hb. destruct (IHres Hb) as (it & Hin & Hc). exists it. auto.
           ++ intros sok Hin. destruct (IHq sok Hin) as (it & Hi & Hc). exists it.
              destruct Hc as (? & ? & ?). auto.
      * destruct (h (TC2_ComputeSurfaceOffset (HasEEUpload_sok iter TEX0 r)) w)
          as [so w1] eqn:Hso. cbn.
        destruct (GSVector4i.eq (rintersect (GSTextureCache.b2a_offset so) r) r); cbn.
        -- split; [intros _; exists iter; split; [left; reflexivity | exact Hcand] |].
           intros sok [<- | []]. exists iter. repeat split; try apply Hcand; auto.
        -- destruct (IH w1) as [IHres IHq].
           destruct (Prog.run h _ w1) as [[b w2] tr2]. cbn in *.
           split.
           ++ intros Hb. destruct (IHres Hb) as (it & Hin & Hc). exists it. auto.
           ++ intros sok [<- | Hin].
              ** exists iter. repeat split; try apply Hcand; auto.
              ** destruct (IHq sok Hin) as (it & Hi & Hc). exists it.
                 destruct Hc as (? & ? & ?). auto.
    + cbn. destruct (IH w) as [IHres IHq].
      destruct (Prog.run h _ w) as [[b w2] tr2]. cbn in *.
      split.
      * intros Hb. destruct (IHres Hb) as (it & Hin & Hc). exists it. auto.
      * intros sok Hin. destruct (IHq sok Hin) as (it & Hi & Hc). exists it.
        destruct Hc as (? & ? & ?). auto.
Qed.

End HasEEUploadFacts.

(** X10.  [HasEEUpload] answers true only when some transfer was
    recorded for the previous draw ([s_n - 1]) to the base pointer of the
    texture in a format that shares bits with the texture's; and it
    consults the surface offset resolver only for such transfers whose
    format is not compatible with the texture's, each time with the key
    built from that transfer, the texture and the rectangle asked
    about. *)
Theorem HasEEUpload_looks_at_previous_draw_only :
  forall (HasSharedBits HasCompatibleBits : Z -> Z -> bool)
         (rintersect : GSVector4i.t -> GSVector4i.t -> GSVector4i.t)
         (W : Type) (h : Prog.handler HW2 W) (w : W)
         (s_n : Z) (this : GSRendererHW) (TEX0 : GIFRegTEX0) (r : GSVector4i.t),
    (Prog.result h (HasEEUpload HasSharedBits HasCompatibleBits rintersect s_n this TEX0 r) w
     = true ->
     exists iter, In iter (m_draw_transfers this) /\ candidate HasSharedBits s_n TEX0 iter)
    /\ (forall sok,
          In sok (omap offset_query
                    (Prog.calls h (HasEEUpload HasSharedBits HasCompatibleBits rintersect
                                     s_n this TEX0 r) w)) ->
          exists iter, In iter (m_draw_transfers this)
                       /\ candidate HasSharedBits s_n TEX0 iter
                       /\ HasCompatibleBits (DPSM (blit iter)) (PSM TEX0) = false
                       /\ sok = HasEEUpload_sok iter TEX0 r).
Proof.
  intros. unfold HasEEUpload. apply HasEEUpload_from_sound.
Qed.

Example HasEEUpload_translated_upload :
  let this := mkHW 0 [mkUpload (mkBITBLTBUF 0 0 0 0x100 10 0x14) (GSVector4i.mk 0 0 64 32) 4;
                      mkUpload (mkBITBLTBUF 0 0 0 0x100 10 0x14) (GSVector4i.mk 0 0 64 32) 6]
                   0 0 0 0 in
  let h : Prog.handler HW2 (list hw_call2) :=
    fun c seen =>
      (match c return hw_answer2 c with
       | TC2_ComputeSurfaceOffset _ =>
           GSTextureCache.mkSurfaceOffset true (GSVector4i.mk 0 0 128 64)
       | _ => tt
       end, seen ++ [c]) in
  Prog.run h (HasEEUpload (fun _ _ => true) (fun a b => a =? b) rintersect_example
                7 this (mkTEX0 0x100 10 0x13) (GSVector4i.mk 0 0 16 16)) []
  = (true,
     [TC2_ComputeSurfaceOffset
        (HasEEUpload_sok (mkUpload (mkBITBLTBUF 0 0 0 0x100 10 0x14) (GSVector4i.mk 0 0 64 32) 6)
           (mkTEX0 0x100 10 0x13) (GSVector4i.mk 0 0 16 16))],
     [Prog.ev (E := HW2)
        (TC2_ComputeSurfaceOffset
           (HasEEUpload_sok (mkUpload (mkBITBLTBUF 0 0 0 0x100 10 0x14) (GSVector4i.mk 0 0 64 32) 6)
              (mkTEX0 0x100 10 0x13) (GSVector4i.mk 0 0 16 16)))
        (GSTextureCache.mkSurfaceOffset true (GSVector4i.mk 0 0 128 64))]).
Proof. reflexivity. Qed.

(** ** The stream buffers of [GSDevice11] *)

(** X11.  With the write position inside the index buffer, a call of
    [IAMapIndexBuffer] leaves it inside; and when the call returns a
    pointer, the context was asked once for the mapping, the [count]
    elements handed out end at the new write position, inside the buffer,
    and they start either at the old write position (nothing written
    before is overwritten) or, with the buffer discarded, at 0. *)
Theorem IAMapIndexBuffer_stays_in_buffer :
  forall (INDEX_BUFFER_SIZE : Z) (W : Type) (h : Prog.handler Device11.CTX W) (w : W)
         (this : Device11.t) (count : Z),
    2 * (INDEX_BUFFER_SIZE / 4) < 2 ^ 32 ->
    0 <= count ->
    0 <= Device11.m_ib_pos this <= INDEX_BUFFER_SIZE / 4 ->
    let map := (Prog.result h (Device11.IAMapIndexBuffer INDEX_BUFFER_SIZE this count) w).1 in
    let after := (Prog.result h (Device11.IAMapIndexBuffer INDEX_BUFFER_SIZE this count) w).2 in
    let first := Device11.Range.start (Device11.m_index after) in
    0 <= Device11.m_ib_pos after <= INDEX_BUFFER_SIZE / 4
    /\ (map <> Device11.nullptr ->
        exists (type : Device11.D3D11_MAP) (hr pData : Z),
          Prog.trace h (Device11.IAMapIndexBuffer INDEX_BUFFER_SIZE this count) w
          = [Prog.ev (E := Device11.CTX) (Device11.Ctx_Map Device11.m_ib type) (hr, pData)]
          /\ map = pData + 4 * first
          /\ first + count = Device11.m_ib_pos after
          /\ (type = Device11.D3D11_MAP_WRITE_NO_OVERWRITE /\ first = Device11.m_ib_pos this
              \/ type = Device11.D3D11_MAP_WRITE_DISCARD /\ first = 0
                 /\ INDEX_BUFFER_SIZE / 4 < Device11.m_ib_pos this + count)).
Proof.
  intros cap4 W h w this count Hcap Hcount Hpos.
  unfold Prog.result, Prog.trace, Device11.IAMapIndexBuffer.
  destruct (Z.ltb_spec (cap4 / 4) count) as [Hbig | Hfit].
  - cbn. split; [exact Hpos | intros Hmap; congruence].
  - cbn [Device11.m_ib_pos Device11.set_m_ib_pos Device11.set_m_index].
    rewrite (IntFacts.u32_small (Device11.m_ib_pos this + count)) by lia.
    destruct (Z.ltb_spec (cap4 / 4) (Device11.m_ib_pos this + count)) as [Hwrap | Hroom];
      unfold mbind, prog_bind, Device11.ctx, Prog.call; cbn;
      answer_call h; destruct r as [hr pData];
      destruct (Device11.FAILED hr); cbn; (split; [lia |]); intros Hmap;
      try congruence.
    + exists Device11.D3D11_MAP_WRITE_DISCARD, hr, pData.
      repeat split; try reflexivity; try lia. right. repeat split; lia.
    + exists Device11.D3D11_MAP_WRITE_NO_OVERWRITE, hr, pData.
      repeat split; try reflexivity; try lia. left. split; reflexivity.
Qed.

Lemma IAMapIndexBuffer_stays_in_buffer_witness :
  let this := Device11.unbound 0 4194300 in
  let h := Device11.context_example in
  let map := (Prog.result h (Device11.IAMapIndexBuffer 16777216 this 6) tt).1 in
  let after := (Prog.result h (Device11.IAMapIndexBuffer 16777216 this 6) tt).2 in
  let first := Device11.Range.start (Device11.m_index after) in
  0 <= Device11.m_ib_pos after <= 16777216 / 4
  /\ (map <> Device11.nullptr ->
      exists (type : Device11.D3D11_MAP) (hr pData : Z),
        Prog.trace h (Device11.IAMapIndexBuffer 16777216 this 6) tt
        = [Prog.ev (E := Device11.CTX) (Device11.Ctx_Map Device11.m_ib type) (hr, pData)]
        /\ map = pData + 4 * first
        /\ first + 6 = Device11.m_ib_pos after
        /\ (type = Device11.D3D11_MAP_WRITE_NO_OVERWRITE /\ first = Device11.m_ib_pos this
            \/ type = Device11.D3D11_MAP_WRITE_DISCARD /\ first = 0
               /\ 16777216 / 4 < Device11.m_ib_pos this + 6)).
Proof.
  intros this h.
  apply (IAMapIndexBuffer_stays_in_buffer 16777216 unit h tt this 6);
    [reflexivity | lia | vm_compute; split; congruence].
Defined.

(** X12.  With the write position inside the vertex buffer and a stride
    that is not 0, a call of [IAMapVertexBuffer] leaves the position
    inside; and when the call returns a pointer, the context was asked
    once for the mapping, the bytes handed out start at a multiple of the
    stride and end at the new write position, inside the buffer, and they
    start either at the first multiple of the stride that is not below
    the old write position or, with the buffer discarded, at 0. *)
Theorem IAMapVertexBuffer_stays_in_buffer :
  forall (VERTEX_BUFFER_SIZE : Z) (W : Type) (h : Prog.handler Device11.CTX W) (w : W)
         (this : Device11.t) (stride count : Z),
    2 * VERTEX_BUFFER_SIZE + stride <= 2 ^ 32 ->
    0 < stride ->
    0 <= count ->
    0 <= Device11.m_vb_pos this <= VERTEX_BUFFER_SIZE ->
    let map :=
      (Prog.result h (Device11.IAMapVertexBuffer VERTEX_BUFFER_SIZE this stride count) w).1 in
    let after :=
      (Prog.result h (Device11.IAMapVertexBuffer VERTEX_BUFFER_SIZE this stride count) w).2 in
    let first := Device11.Range.start (Device11.m_vertex after) in
    0 <= Device11.m_vb_pos after <= VERTEX_BUFFER_SIZE
    /\ (map <> Device11.nullptr ->
        exists (type : Device11.D3D11_MAP) (hr pData : Z),
          Prog.trace h (Device11.IAMapVertexBuffer VERTEX_BUFFER_SIZE this stride count) w
          = [Prog.ev (E := Device11.CTX) (Device11.Ctx_Map Device11.m_vb type) (hr, pData)]
          /\ map = pData + first * stride
          /\ first * stride + Int.u32 (stride * count) = Device11.m_vb_pos after
          /\ (type = Device11.D3D11_MAP_WRITE_NO_OVERWRITE
              /\ Device11.m_vb_pos this <= first * stride < Device11.m_vb_pos this + stride
              \/ type = Device11.D3D11_MAP_WRITE_DISCARD /\ first = 0)).
Proof.
  intros V W h w this stride count Hcap Hstride Hcount Hpos.
  unfold Prog.result, Prog.trace, Device11.IAMapVertexBuffer.
  assert (Hsize : 0 <= Int.u32 (stride * count) < 2 ^ 32)
    by (unfold Int.u32; apply Z.mod_pos_bound; lia).
  set (size := Int.u32 (stride * count)) in *.
  destruct (Z.ltb_spec V size) as [Hbig | Hfit].
  - cbn. split; [exact Hpos | intros Hmap; congruence].
  - cbn [Device11.m_vb_pos Device11.set_m_vb_pos Device11.set_m_vertex Device11.m_vertex
         Device11.Range.start].
    rewrite (IntFacts.u32_small (Device11.m_vb_pos this + (stride - 1))) by lia.
    set (first := (Device11.m_vb_pos this + (stride - 1)) / stride).
    assert (Hlo : Device11.m_vb_pos this <= first * stride).
    { pose proof (Z.mul_succ_div_gt (Device11.m_vb_pos this + (stride - 1)) stride Hstride).
      fold first in H. nia. }
    assert (Hhi : first * stride <= Device11.m_vb_pos this + (stride - 1)).
    { pose proof (Z.mul_div_le (Device11.m_vb_pos this + (stride - 1)) stride Hstride).
      fold first in H. nia. }
    rewrite (IntFacts.u32_small (first * stride + size)) by lia.
    destruct (Z.ltb_spec V (first * stride + size)) as [Hwrap | Hroom];
      unfold mbind, prog_bind, Device11.ctx, Prog.call; cbn;
      answer_call h; destruct r as [hr pData];
      destruct (Device11.FAILED hr); cbn; (split; [lia |]); intros Hmap;
      try congruence.
    + exists Device11.D3D11_MAP_WRITE_DISCARD, hr, pData.
      rewrite (IntFacts.u32_small (0 * stride)) by lia.
      repeat split; try reflexivity; try lia. right. split; reflexivity.
    + exists Device11.D3D11_MAP_WRITE_NO_OVERWRITE, hr, pData.
      rewrite (IntFacts.u32_small (first * stride)) by lia.
      repeat split; try reflexivity; try lia. left. split; [reflexivity | lia].
Qed.

Lemma IAMapVertexBuffer_stays_in_buffer_witness :
  let this := Device11.unbound 100 0 in
  let h := Device11.context_example in
  let map := (Prog.result h (Device11.IAMapVertexBuffer 33554432 this 32 4) tt).1 in
  let after := (Prog.result h (Device11.IAMapVertexBuffer 33554432 this 32 4) tt).2 in
  let first := Device11.Range.start (Device11.m_vertex after) in
  0 <= Device11.m_vb_pos after <= 33554432
  /\ (map <> Device11.nullptr ->
      exists (type : Device11.D3D11_MAP) (hr pData : Z),
        Prog.trace h (Device11.IAMapVertexBuffer 33554432 this 32 4) tt
        = [Prog.ev (E := Device11.CTX) (Device11.Ctx_Map Device11.m_vb type) (hr, pData)]
        /\ map = pData + first * 32
        /\ first * 32 + Int.u32 (32 * 4) = Device11.m_vb_pos after
        /\ (type = Device11.D3D11_MAP_WRITE_NO_OVERWRITE
            /\ Device11.m_vb_pos this <= first * 32 < Device11.m_vb_pos this + 32
            \/ type = Device11.D3D11_MAP_WRITE_DISCARD /\ first = 0)).
Proof.
  intros this h.
  apply (IAMapVertexBuffer_stays_in_buffer 33554432 unit h tt this 32 4);
    [vm_compute; congruence | lia | lia | vm_compute; split; congruence].
Defined.

(** The copies into mapped memory and the unmappings among some calls. *)
Lemma IAMapVertexBuffer_run :
  forall (V : Z) (W : Type) (h : Prog.handler Device11.CTX W) (w : W)
         (this : Device11.t) (stride count : Z),
    (exists after,
        Prog.run h (Device11.IAMapVertexBuffer V this stride count) w
        = (Device11.nullptr, after, w, [])
        /\ Device11.m_state after = Device11.m_state this)
    \/ (exists type hr pData w1 after,
           Prog.run h (Device11.IAMapVertexBuffer V this stride count) w
           = (if Device11.FAILED hr then Device11.nullptr
              else pData + Int.u32 (Device11.Range.start (Device11.m_vertex after) * stride),
              after, w1,
              [Prog.ev (E := Device11.CTX) (Device11.Ctx_Map Device11.m_vb type) (hr, pData)])
           /\ Device11.m_state after = Device11.m_state this).
Proof.
  intros V W h w this stride count. unfold Device11.IAMapVertexBuffer.
  destruct (V <? Int.u32 (stride * count)).
  - left. exists this. split; reflexivity.
  - right.
    cbn [Device11.m_vb_pos Device11.set_m_vb_pos Device11.set_m_vertex Device11.m_vertex
         Device11.Range.start].
    match goal with |- context [if ?b then _ else _] => destruct b end;
      unfold mbind, prog_bind, Device11.ctx, Prog.call; cbn;
      answer_call h; destruct r as [hr pData];
      [exists Device11.D3D11_MAP_WRITE_DISCARD, hr, pData, w0
      | exists Device11.D3D11_MAP_WRITE_NO_OVERWRITE, hr, pData, w0];
      eexists; (split; [destruct (Device11.FAILED hr); reflexivity | reflexivity]).
Qed.

(** X13.  [IASetVertexBuffer] copies the vertices only into memory that
    the context has just mapped.  When it returns false, nothing was
    copied, nothing was unmapped and the remembered state is as before.
    When it returns true, the context mapped the buffer, [count * stride]
    bytes were copied to the mapped address advanced to the first vertex
    of the new range, the buffer was unmapped, the stride was bound
    unless it was the remembered one, and the device remembers the new
    range and the stride. *)
Theorem IASetVertexBuffer_copies_into_mapped_range :
  forall (VERTEX_BUFFER_SIZE : Z) (W : Type) (h : Prog.handler Device11.CTX W) (w : W)
         (this : Device11.t) (vertex stride count : Z),
    let ok :=
      (Prog.result h (Device11.IASetVertexBuffer VERTEX_BUFFER_SIZE this vertex stride count) w).1 in
    let after :=
      (Prog.result h (Device11.IASetVertexBuffer VERTEX_BUFFER_SIZE this vertex stride count) w).2 in
    let calls :=
      Prog.calls h (Device11.IASetVertexBuffer VERTEX_BUFFER_SIZE this vertex stride count) w in
    let first := Device11.Range.start (Device11.m_vertex after) in
    if ok then
      exists (type : Device11.D3D11_MAP) (hr pData : Z),
        Prog.trace h (Device11.IASetVertexBuffer VERTEX_BUFFER_SIZE this vertex stride count) w
        = Prog.ev (E := Device11.CTX) (Device11.Ctx_Map Device11.m_vb type) (hr, pData)
          :: Prog.ev (E := Device11.CTX)
               (Device11.Ctx_storent (pData + Int.u32 (first * stride)) vertex
                  (Int.u32 (count * stride))) tt
          :: Prog.ev (E := Device11.CTX) (Device11.Ctx_Unmap Device11.m_vb) tt
          :: (if Device11.vb_stride (Device11.m_state this) =? stride then []
              else [Prog.ev (E := Device11.CTX) (Device11.Ctx_IASetVertexBuffers stride) tt])
        /\ Device11.FAILED hr = false
        /\ Device11.m_vertex after = Device11.Range.mk first count
        /\ Device11.vb_stride (Device11.m_state after) = stride
    else
      (forall c, In c calls -> exists type, c = Device11.Ctx_Map Device11.m_vb type)
      /\ Device11.m_state after = Device11.m_state this.
Proof.
  intros V W h w this vertex stride count.
  unfold Prog.result, Prog.calls, Prog.trace.
  remember (Prog.run h (Device11.IASetVertexBuffer V this vertex stride count) w) as res eqn:Hres.
  unfold Device11.IASetVertexBuffer in Hres.
  unfold mbind at 1, prog_bind at 1 in Hres. rewrite ProgFacts.run_bind in Hres.
  destruct (IAMapVertexBuffer_run V W h w this stride count)
    as [(mid & Hrun & Hst) | (type & hr & pData & w1 & mid & Hrun & Hst)];
    unfold Device11.ptr in Hrun; rewrite Hrun in Hres.
  - subst res. cbn. split; [intros c [] | exact Hst].
  - destruct (Device11.FAILED hr) eqn:Hhr; rewrite ?Hhr in Hres.
    + subst res. cbn. split; [| exact Hst]. intros c [<- | []]. exists type. reflexivity.
    + destruct (Z.eqb_spec (pData + Int.u32 (Device11.Range.start (Device11.m_vertex mid) * stride))
                  Device11.nullptr) as [Hnull | Hmap].
      * cbn in Hres. subst res. cbn.
        split; [| exact Hst]. intros c [<- | []]. exists type. reflexivity.
      * unfold Device11.IAUnmapVertexBuffer, mbind, prog_bind, Device11.ctx, Prog.call in Hres.
        cbn in Hres.
        destruct (h (Device11.Ctx_storent _ _ _) w1) as [[] w2] eqn:H1 in Hres.
        cbn in Hres.
        destruct (h (Device11.Ctx_Unmap Device11.m_vb) w2) as [[] w3] eqn:H2 in Hres.
        rewrite Hst in Hres.
        destruct (Device11.vb_stride (Device11.m_state this) =? stride) eqn:Hs; cbn in Hres.
        -- subst res. cbn. exists type, hr, pData.
           split; [reflexivity |]. split; [exact Hhr |]. split; [reflexivity |].
           rewrite Hst. apply Z.eqb_eq. exact Hs.
        -- destruct (h (Device11.Ctx_IASetVertexBuffers stride) w3) as [[] w4] eqn:H3 in Hres.
           subst res. cbn. exists type, hr, pData.
           split; [reflexivity |]. split; [exact Hhr |]. split; reflexivity.
Qed.

(** ** The remembered pipeline state of [GSDevice11] *)

(** Runs a program of setters to its end under an arbitrary handler. *)
Ltac run_setter h :=
  repeat first
    [ match goal with
      | |- context [h ?c ?w] =>
          let r := fresh "r" in let w' := fresh "w" in
          destruct (h c w) as [r w'] eqn:?; cbn -[Z.eqb GSVector4i.eq Device11.GSVector2i_ne]
      end
    | match goal with
      | |- context [?a =? ?b] =>
          destruct (Z.eqb_spec a b); cbn -[Z.eqb GSVector4i.eq Device11.GSVector2i_ne]
      end
    | match goal with
      | |- context [if ?b then _ else _] =>
          destruct b eqn:?; cbn -[Z.eqb GSVector4i.eq Device11.GSVector2i_ne]
      end ].

Lemma invoke_agrees :
  forall (W : Type) (h : Prog.handler Device11.CTX W) (w : W) (this : Device11.t)
         (i : Device11.invocation) (b : Device11.State),
    Device11.agrees (Device11.m_state this) b ->
    Device11.agrees
      (Device11.m_state (Prog.run h (Device11.invoke this i) w).1.1.2)
      (fold_left Device11.bound_after
         (map Prog.called (Prog.run h (Device11.invoke this i) w).2) b).
Proof.
  intros W h w this i b Hb.
  destruct i;
    unfold Device11.invoke, Device11.IAUnmapVertexBuffer, Device11.IASetInputLayout,
      Device11.IASetPrimitiveTopology, Device11.VSSetShader, Device11.GSSetShader,
      Device11.PSSetShader, Device11.OMSetDepthStencilState, Device11.OMSetRenderTargets,
      mbind, prog_bind, mret, prog_ret, Device11.ctx, Prog.call;
    cbn -[Z.eqb GSVector4i.eq Device11.GSVector2i_ne];
    run_setter h;
    unfold Device11.agrees in *; cbn; intuition congruence.
Qed.

(** X14.  The setters keep the remembered state in step with the
    context: if the remembered state agrees with what the context has
    bound, it still agrees after any sequence of uses of the setters,
    although a setter makes no call on the context when its arguments are
    the remembered ones. *)
Theorem setters_keep_state_in_step_with_context :
  forall (W : Type) (h : Prog.handler Device11.CTX W) (uses : list Device11.invocation)
         (w : W) (this : Device11.t) (b : Device11.State),
    Device11.agrees (Device11.m_state this) b ->
    Device11.agrees
      (Device11.m_state (Prog.result h (Device11.invoke_all this uses) w).2)
      (fold_left Device11.bound_after (Prog.calls h (Device11.invoke_all this uses) w) b).
Proof.
  intros W h uses. unfold Prog.result, Prog.calls, Prog.trace.
  induction uses as [| i later IH]; intros w this b Hb; [exact Hb |].
  remember (Prog.run h (Device11.invoke_all this (i :: later)) w) as res eqn:Hres.
  cbn [Device11.invoke_all] in Hres. unfold mbind at 1, prog_bind at 1 in Hres.
  rewrite ProgFacts.run_bind in Hres.
  pose proof (invoke_agrees W h w this i b Hb) as Hi.
  destruct (Prog.run h (Device11.invoke this i) w) as [[[c mid] w1] tr1].
  cbn [fst snd] in Hi. destruct c.
  - specialize (IH w1 mid _ Hi).
    destruct (Prog.run h (Device11.invoke_all mid later) w1) as [[[c2 last] w2] tr2].
    subst res. cbn [fst snd] in *. rewrite List.map_app, fold_left_app. exact IH.
  - subst res. cbn. rewrite app_nil_r. exact Hi.
Qed.

Lemma setters_keep_state_in_step_with_context_witness :
  let this := Device11.unbound 0 0 in
  let uses := [Device11.Use_IASetInputLayout 7; Device11.Use_OMSetRenderTargets 16 0 None;
               Device11.Use_IASetInputLayout 7; Device11.Use_VSSetShader 9 0] in
  Device11.agrees
    (Device11.m_state (Prog.result Device11.context_example (Device11.invoke_all this uses) tt).2)
    (fold_left Device11.bound_after
       (Prog.calls Device11.context_example (Device11.invoke_all this uses) tt)
       (Device11.m_state this)).
Proof.
  intros this uses.
  apply (setters_keep_state_in_step_with_context unit Device11.context_example uses tt this
           (Device11.m_state this)).
  unfold Device11.agrees. repeat split; reflexivity.
Defined.

Example setters_skip_repeated_bindings :
  Prog.calls Device11.context_example
    (Device11.invoke_all (Device11.unbound 0 0)
       [Device11.Use_IASetInputLayout 7; Device11.Use_OMSetRenderTargets 16 0 None;
        Device11.Use_IASetInputLayout 7; Device11.Use_OMSetRenderTargets 16 0 None;
        Device11.Use_VSSetShader 9 0]) tt
  = [Device11.Ctx_IASetInputLayout 7;
     Device11.Texture_RenderTargetView 16; Device11.Ctx_AddRef 17;
     Device11.Ctx_OMSetRenderTargets 1 17 0; Device11.Texture_GetSize 16;
     Device11.Ctx_RSSetViewports (GSVector2i.mk 640 448);
     Device11.Ctx_RSSetScissorRects (GSVector4i.mk 0 0 640 448);
     Device11.Texture_RenderTargetView 16; Device11.Texture_GetSize 16;
     Device11.Ctx_VSSetShader 9].
Proof. reflexivity. Qed.

(** X15.  [RestoreAPIState] binds again what the device remembers,
    whatever the context had bound before (another renderer may have
    used it).  Afterwards the vertex stride, the input layout, the
    topology, the three shaders and their constant buffers, the
    depth-stencil state and its reference, the render target and depth
    views, the viewport and the scissor of the context are those of
    [m_state]; so are the shader resource views and the samplers of the
    pixel shader; and the blend state is [m_state.bs] with the sample
    mask 0xFFFFFFFF and all four blend factors [m_state.bf].  The setter
    of that slot, [OMSetBlendState], binds the factors [bf], [bf], [bf]
    and 0 when the blend state or the factor changes, and nothing
    otherwise. *)
Theorem RestoreAPIState_rebinds_remembered_state :
  forall (W : Type) (h : Prog.handler Device11.CTX W) (w : W) (this : Device11.t)
         (b : Device11.State) (blend : Device11.ptr * list f32 * Z)
         (resources : list Device11.ptr * list Device11.ptr),
    let s := Device11.m_state this in
    let calls := Prog.calls h (Device11.RestoreAPIState this) w in
    Device11.agrees s (fold_left Device11.bound_after calls b)
    /\ Device11.blend_after blend calls
       = (Device11.bs s, [Device11.bf s; Device11.bf s; Device11.bf s; Device11.bf s],
          0xFFFFFFFF)
    /\ Device11.ps_resources_after resources calls
       = (Device11.ps_sr_views s, Device11.ps_ss s)
    /\ forall (float_ne : f32 -> f32 -> bool) (bs' : Device11.ptr) (bf' : f32),
         let changed :=
           negb (Device11.bs s =? bs') || float_ne (Device11.bf s) bf' in
         Prog.calls h (Device11.OMSetBlendState float_ne this bs' bf') w
         = (if changed
            then [Device11.Ctx_OMSetBlendState bs' [bf'; bf'; bf'; F32 0] 0xFFFFFFFF]
            else [])
         /\ Device11.m_state (Prog.result h (Device11.OMSetBlendState float_ne this bs' bf') w)
            = (if changed
               then Device11.set_bf bf' (Device11.set_bs bs' s)
               else s).
Proof.
  intros W h w this b blend resources s calls. subst s calls.
  split; [| split; [| split]].
  - unfold Prog.calls, Prog.trace, Device11.RestoreAPIState, Device11.PSUpdateShaderState,
      mbind, prog_bind, mret, prog_ret, Device11.ctx, Prog.call.
    cbn -[Z.eqb].
    repeat match goal with
           | |- context [h ?c ?w] =>
               let r := fresh "r" in let w' := fresh "w" in
               destruct (h c w) as [r w'] eqn:?; cbn -[Z.eqb]
           end.
    destruct (Z.eqb_spec (Device11.rt_view (Device11.m_state this)) Device11.nullptr)
      as [Hn | Hn];
      cbn -[Z.eqb];
      repeat match goal with
             | |- context [h ?c ?w] =>
                 let r := fresh "r" in let w' := fresh "w" in
                 destruct (h c w) as [r w'] eqn:?; cbn -[Z.eqb]
             end;
      unfold Device11.agrees; cbn; repeat split; congruence.
  - unfold Prog.calls, Prog.trace, Device11.RestoreAPIState, Device11.PSUpdateShaderState,
      mbind, prog_bind, mret, prog_ret, Device11.ctx, Prog.call.
    cbn -[Z.eqb].
    repeat match goal with
           | |- context [h ?c ?w] =>
               let r := fresh "r" in let w' := fresh "w" in
               destruct (h c w) as [r w'] eqn:?; cbn -[Z.eqb]
           end.
    destruct (Device11.rt_view (Device11.m_state this) =? Device11.nullptr);
      cbn -[Z.eqb];
      repeat match goal with
             | |- context [h ?c ?w] =>
                 let r := fresh "r" in let w' := fresh "w" in
                 destruct (h c w) as [r w'] eqn:?; cbn -[Z.eqb]
             end;
      reflexivity.
  - unfold Prog.calls, Prog.trace, Device11.RestoreAPIState, Device11.PSUpdateShaderState,
      mbind, prog_bind, mret, prog_ret, Device11.ctx, Prog.call.
    cbn -[Z.eqb].
    repeat match goal with
           | |- context [h ?c ?w] =>
               let r := fresh "r" in let w' := fresh "w" in
               destruct (h c w) as [r w'] eqn:?; cbn -[Z.eqb]
           end.
    destruct (Device11.rt_view (Device11.m_state this) =? Device11.nullptr);
      cbn -[Z.eqb];
      repeat match goal with
             | |- context [h ?c ?w] =>
                 let r := fresh "r" in let w' := fresh "w" in
                 destruct (h c w) as [r w'] eqn:?; cbn -[Z.eqb]
             end;
      reflexivity.
  - intros float_ne bs' bf' changed. subst changed.
    unfold Prog.calls, Prog.trace, Prog.result, Device11.OMSetBlendState,
      mbind, prog_bind, mret, prog_ret, Device11.ctx, Prog.call.
    destruct (negb (Device11.bs (Device11.m_state this) =? bs')
              || float_ne (Device11.bf (Device11.m_state this)) bf');
      cbn -[Z.eqb]; [| split; reflexivity].
    destruct (h (Device11.Ctx_OMSetBlendState bs' [bf'; bf'; bf'; F32 0] 4294967295) w)
      as [r w'].
    split; reflexivity.
Qed.

Example RestoreAPIState_blend_factors :
  let this :=
    Device11.set_m_state
      (Device11.set_bf (F32 0x3F800000) (Device11.set_bs 7 (Device11.m_state (Device11.unbound 0 0))))
      (Device11.unbound 0 0) in
  Device11.blend_after (0, [], 0)
    (Prog.calls Device11.context_example (Device11.RestoreAPIState this) tt)
  = (7, [F32 0x3F800000; F32 0x3F800000; F32 0x3F800000; F32 0x3F800000], 0xFFFFFFFF)
  /\ Device11.blend_after (0, [], 0)
       (Prog.calls Device11.context_example
          (Device11.OMSetBlendState (fun _ _ => true) (Device11.unbound 0 0) 7 (F32 0x3F800000))
          tt)
     = (7, [F32 0x3F800000; F32 0x3F800000; F32 0x3F800000; F32 0], 0xFFFFFFFF).
Proof. split; reflexivity. Qed.

(** X16.  [OMSetRenderTargets] with neither a render target nor a depth
    target throws [GSRecoverableError] before anything else happens: no
    call is made and the device is as before.  With at least one of the
    two it returns. *)
Theorem OMSetRenderTargets_without_target_throws :
  forall (W : Type) (h : Prog.handler Device11.CTX W) (w : W) (this : Device11.t)
         (rt ds : Z) (scissor : option GSVector4i.t),
    (rt = Device11.nullptr /\ ds = Device11.nullptr ->
     Prog.run h (Device11.OMSetRenderTargets this rt ds scissor) w
     = (Device11.Throws_GSRecoverableError, this, w, []))
    /\ (rt <> Device11.nullptr \/ ds <> Device11.nullptr ->
        (Prog.result h (Device11.OMSetRenderTargets this rt ds scissor) w).1
        = Device11.Returns).
Proof.
  intros W h w this rt ds scissor. split.
  - intros [-> ->]. reflexivity.
  - intros Hnot. unfold Prog.result, Device11.OMSetRenderTargets.
    assert (Hb : (rt =? Device11.nullptr) && (ds =? Device11.nullptr) = false).
    { apply andb_false_iff. rewrite !Z.eqb_neq. exact Hnot. }
    rewrite Hb.
    unfold mbind, prog_bind, mret, prog_ret, Device11.ctx, Prog.call.
    cbn -[Z.eqb GSVector4i.eq Device11.GSVector2i_ne].
    run_setter h; reflexivity.
Qed.

Lemma reference_balance_app :
  forall (view : Z) (a b : list Device11.ctx_call),
    Device11.reference_balance view (a ++ b)
    = Device11.reference_balance view a + Device11.reference_balance view b.
Proof.
  intros view a b. induction a as [| c a IH]; [reflexivity |].
  cbn [app Device11.reference_balance fold_right].
  fold (Device11.reference_balance view (a ++ b)). fold (Device11.reference_balance view a).
  rewrite IH. destruct c; try reflexivity; destruct (_ =? _); lia.
Qed.

(** Settles a statement about one step of a setter by running it. *)
Ltac settle_step h :=
  unfold mbind, prog_bind, mret, prog_ret, Device11.ctx, Prog.call;
  cbn -[Z.eqb GSVector4i.eq Device11.GSVector2i_ne];
  run_setter h;
  unfold Device11.reference_balance, Device11.held, Device11.nullptr in *;
  cbn -[Z.eqb];
  repeat match goal with
         | |- context [?a =? ?b] => destruct (Z.eqb_spec a b)
         end;
  repeat split; lia.

(** Splits the first step off a program in [Hres] and records what [S]
    says about its run. *)
Ltac first_step h Hres S a H :=
  unfold mbind at 1, prog_bind at 1 in Hres;
  rewrite ProgFacts.run_bind in Hres;
  match type of Hres with
  | context [Prog.run h ?P ?w0] =>
      assert (H : S (Prog.run h P w0)) by (cbv beta; settle_step h);
      destruct (Prog.run h P w0) as [[a ?] ?];
      cbv beta iota in Hres; cbv beta in H; cbn [fst snd] in H
  end.

Lemma OMSetRenderTargets_balance :
  forall (W : Type) (h : Prog.handler Device11.CTX W) (w : W) (this : Device11.t)
         (rt ds : Z) (scissor : option GSVector4i.t) (view : Z),
    view <> Device11.nullptr ->
    Device11.reference_balance view
      (map Prog.called (Prog.run h (Device11.OMSetRenderTargets this rt ds scissor) w).2)
    = Device11.held
        (Device11.m_state (Prog.run h (Device11.OMSetRenderTargets this rt ds scissor) w).1.1.2)
        view
      - Device11.held (Device11.m_state this) view.
Proof.
  intros W h w this rt ds scissor view Hview.
  remember (Prog.run h (Device11.OMSetRenderTargets this rt ds scissor) w) as res eqn:Hres.
  unfold Device11.OMSetRenderTargets in Hres.
  destruct ((rt =? Device11.nullptr) && (ds =? Device11.nullptr)).
  { subst res. cbn. lia. }
  first_step h Hres
    (fun r : Z * W * list (Prog.event Device11.CTX) =>
       Device11.reference_balance view (map Prog.called r.2) = 0) rtv H1.
  first_step h Hres
    (fun r : Z * W * list (Prog.event Device11.CTX) =>
       Device11.reference_balance view (map Prog.called r.2) = 0) dsv H2.
  first_step h Hres
    (fun r : Device11.t * W * list (Prog.event Device11.CTX) =>
       Device11.reference_balance view (map Prog.called r.2)
       = (if rtv =? view then 1 else 0)
         - (if Device11.rt_view (Device11.m_state this) =? view then 1 else 0)
       /\ Device11.rt_view (Device11.m_state r.1.1) = rtv
       /\ Device11.dsv (Device11.m_state r.1.1) = Device11.dsv (Device11.m_state this)) this1 H3.
  first_step h Hres
    (fun r : Device11.t * W * list (Prog.event Device11.CTX) =>
       Device11.reference_balance view (map Prog.called r.2)
       = (if dsv =? view then 1 else 0)
         - (if Device11.dsv (Device11.m_state this1) =? view then 1 else 0)
       /\ Device11.rt_view (Device11.m_state r.1.1) = Device11.rt_view (Device11.m_state this1)
       /\ Device11.dsv (Device11.m_state r.1.1) = dsv) this2 H4.
  first_step h Hres
    (fun r : unit * W * list (Prog.event Device11.CTX) =>
       Device11.reference_balance view (map Prog.called r.2) = 0) changed H5.
  unfold mbind at 1, prog_bind at 1 in Hres.
  rewrite ProgFacts.run_bind in Hres.
  unfold Device11.ctx at 1, Prog.call at 1 in Hres. cbn [Prog.run] in Hres.
  destruct (h (Device11.Texture_GetSize _) _) as [sz w5] in Hres.
  cbv beta iota in Hres.
  first_step h Hres
    (fun r : Device11.t * W * list (Prog.event Device11.CTX) =>
       Device11.reference_balance view (map Prog.called r.2) = 0
       /\ Device11.rt_view (Device11.m_state r.1.1) = Device11.rt_view (Device11.m_state this2)
       /\ Device11.dsv (Device11.m_state r.1.1) = Device11.dsv (Device11.m_state this2)) this3 H7.
  first_step h Hres
    (fun r : Device11.t * W * list (Prog.event Device11.CTX) =>
       Device11.reference_balance view (map Prog.called r.2) = 0
       /\ Device11.rt_view (Device11.m_state r.1.1) = Device11.rt_view (Device11.m_state this3)
       /\ Device11.dsv (Device11.m_state r.1.1) = Device11.dsv (Device11.m_state this3)) this4 H8.
  subst res. cbn [fst snd Prog.run mret prog_ret].
  rewrite !List.map_app, !reference_balance_app. cbn [map Device11.reference_balance fold_right].
  unfold Device11.held.
  destruct H3 as (-> & E1 & E2), H4 as (-> & E3 & E4),
    H7 as (-> & E5 & E6), H8 as (-> & E7 & E8).
  rewrite H1, H2, H5, E7, E8, E5, E6, E3, E4, E2, E1. cbn [Prog.called Prog.ev projT1]. lia.
Qed.

Lemma invoke_balance :
  forall (W : Type) (h : Prog.handler Device11.CTX W) (w : W) (this : Device11.t)
         (i : Device11.invocation) (view : Z),
    view <> Device11.nullptr ->
    Device11.reference_balance view (map Prog.called (Prog.run h (Device11.invoke this i) w).2)
    = Device11.held (Device11.m_state (Prog.run h (Device11.invoke this i) w).1.1.2) view
      - Device11.held (Device11.m_state this) view.
Proof.
  intros W h w this i view Hview.
  destruct i; try (apply OMSetRenderTargets_balance; exact Hview);
    unfold Device11.invoke, Device11.IAUnmapVertexBuffer, Device11.IASetInputLayout,
      Device11.IASetPrimitiveTopology, Device11.VSSetShader, Device11.GSSetShader,
      Device11.PSSetShader, Device11.OMSetDepthStencilState;
    settle_step h.
Qed.

(** X17.  Over the life of a device no view keeps a reference: for
    every view, the references taken less the references dropped by any
    sequence of uses of the setters followed by the destructor make up
    for the references that the device accounted for at the start (none,
    for a device with no view bound). *)
Theorem views_are_released_as_often_as_referenced :
  forall (W : Type) (h : Prog.handler Device11.CTX W) (uses : list Device11.invocation)
         (w : W) (this : Device11.t) (view : Z),
    view <> Device11.nullptr ->
    let after := (Prog.result h (Device11.invoke_all this uses) w).2 in
    let w1 := Prog.final h (Device11.invoke_all this uses) w in
    Device11.reference_balance view
      (Prog.calls h (Device11.invoke_all this uses) w
       ++ Prog.calls h (Device11.GSDevice11_destructor after) w1)
    + Device11.held (Device11.m_state this) view = 0.
Proof.
  intros W h uses w this view Hview after w1.
  rewrite reference_balance_app.
  assert (Hall : forall uses w this,
             Device11.reference_balance view (Prog.calls h (Device11.invoke_all this uses) w)
             = Device11.held
                 (Device11.m_state (Prog.result h (Device11.invoke_all this uses) w).2) view
               - Device11.held (Device11.m_state this) view).
  { clear - Hview. unfold Prog.result, Prog.calls, Prog.trace.
    induction uses as [| i later IH]; intros w this; [cbn; lia |].
    remember (Prog.run h (Device11.invoke_all this (i :: later)) w) as res eqn:Hres.
    cbn [Device11.invoke_all] in Hres. unfold mbind at 1, prog_bind at 1 in Hres.
    rewrite ProgFacts.run_bind in Hres.
    pose proof (invoke_balance W h w this i view Hview) as Hi.
    destruct (Prog.run h (Device11.invoke this i) w) as [[[c mid] w1] tr1].
    cbn [fst snd] in Hi. destruct c.
    - specialize (IH w1 mid).
      destruct (Prog.run h (Device11.invoke_all mid later) w1) as [[[c2 last] w2] tr2].
      subst res. cbn [fst snd] in *. rewrite List.map_app, reference_balance_app. lia.
    - subst res. cbn. rewrite app_nil_r. exact Hi. }
  rewrite Hall. fold after.
  assert (Hend : Device11.reference_balance view
                   (Prog.calls h (Device11.GSDevice11_destructor after) w1)
                 = - Device11.held (Device11.m_state after) view).
  { unfold Prog.calls, Prog.trace, Device11.GSDevice11_destructor,
      mbind, prog_bind, mret, prog_ret, Device11.ctx, Prog.call.
    unfold Device11.nullptr in *.
    generalize (Device11.m_state after). intros s.
    cbn -[Z.eqb]. run_setter h;
      unfold Device11.reference_balance, Device11.held; cbn -[Z.eqb];
      repeat match goal with
             | |- context [?a =? ?b] => destruct (Z.eqb_spec a b)
             end;
      lia. }
  rewrite Hend. lia.
Qed.

Lemma views_are_released_as_often_as_referenced_witness :
  let this := Device11.unbound 0 0 in
  let uses := [Device11.Use_OMSetRenderTargets 16 0 None;
               Device11.Use_OMSetRenderTargets 32 48 None] in
  let after := (Prog.result Device11.context_example (Device11.invoke_all this uses) tt).2 in
  let w1 := Prog.final Device11.context_example (Device11.invoke_all this uses) tt in
  Device11.reference_balance 17
    (Prog.calls Device11.context_example (Device11.invoke_all this uses) tt
     ++ Prog.calls Device11.context_example (Device11.GSDevice11_destructor after) w1)
  + Device11.held (Device11.m_state this) 17 = 0.
Proof.
  intros this uses.
  apply (views_are_released_as_often_as_referenced unit Device11.context_example uses tt this 17).
  unfold Device11.nullptr. lia.
Defined.

Example views_referenced_and_released :
  Prog.calls Device11.context_example
    (r ← Device11.invoke_all (Device11.unbound 0 0)
           [Device11.Use_OMSetRenderTargets 16 0 None;
            Device11.Use_OMSetRenderTargets 32 48 None];
     Device11.GSDevice11_destructor r.2) tt
  = [Device11.Texture_RenderTargetView 16; Device11.Ctx_AddRef 17;
     Device11.Ctx_OMSetRenderTargets 1 17 0; Device11.Texture_GetSize 16;
     Device11.Ctx_RSSetViewports (GSVector2i.mk 640 448);
     Device11.Ctx_RSSetScissorRects (GSVector4i.mk 0 0 640 448);
     Device11.Texture_RenderTargetView 32; Device11.Texture_DepthStencilView 48;
     Device11.Ctx_Release 17; Device11.Ctx_AddRef 33; Device11.Ctx_AddRef 50;
     Device11.Ctx_OMSetRenderTargets 1 33 50; Device11.Texture_GetSize 32;
     Device11.Ctx_Release 33; Device11.Ctx_Release 50].
Proof. reflexivity. Qed.

(** ** The checks on the index queue *)

Lemma VerifyIndices_loop_spec :
  forall (ok : Z -> bool) (step tail : Z) (fuel : nat) (i : Z),
    0 < step ->
    tail - i <= Z.of_nat fuel * step ->
    VerifyIndices_loop ok step tail i fuel = true
    <-> (forall k, 0 <= k -> i + k * step < tail -> ok (i + k * step) = true).
Proof.
  intros ok step tail fuel. induction fuel as [| fuel IH]; intros i Hstep Hfuel.
  - cbn. split; [| reflexivity]. intros _ k Hk Hlt. nia.
  - cbn [VerifyIndices_loop]. destruct (Z.ltb_spec i tail) as [Hlt | Hge].
    + destruct (ok i) eqn:Hok.
      * rewrite IH by lia. split.
        -- intros Hall k Hk Hk'. destruct (Z.eq_dec k 0) as [-> | Hne].
           ++ replace (i + 0 * step) with i by lia. exact Hok.
           ++ replace (i + k * step) with (i + step + (k - 1) * step) by lia.
              apply Hall; [lia |]. replace (i + step + (k - 1) * step) with (i + k * step) by lia.
              exact Hk'.
        -- intros Hall k Hk Hk'.
           replace (i + step + k * step) with (i + (k + 1) * step) by lia.
           apply Hall; [lia |]. replace (i + (k + 1) * step) with (i + step + k * step) by lia.
           exact Hk'.
      * split; [discriminate |]. intros Hall.
        specialize (Hall 0 ltac:(lia)). replace (i + 0 * step) with i in Hall by lia.
        rewrite Hall in Hok by lia. discriminate.
    + split; [| reflexivity]. intros _ k Hk Hk'. nia.
Qed.

(** X18.  What [VerifyIndices] accepts.  For points the queue holds
    0, 1, 2, ... in order; for sprites the same and their number is even;
    for lines the number is even and the two indices of every line are
    next to each other, the second one above the first when the
    provoking vertex is the last one and below it otherwise; for
    triangles the number is a multiple of 3. *)
Theorem VerifyIndices_accepts :
  forall (m_primclass : GS_PRIM_CLASS) (provoking_vertex_last : bool) (m_index : IndexQueue.t),
    0 <= IndexQueue.tail m_index <= Z.of_nat (length (IndexQueue.buff m_index)) ->
    let buff := IndexQueue.at_ (IndexQueue.buff m_index) in
    let tail := IndexQueue.tail m_index in
    VerifyIndices m_primclass provoking_vertex_last m_index = true
    <-> match m_primclass with
        | GS_POINT_CLASS => forall i, 0 <= i < tail -> buff i = i
        | GS_SPRITE_CLASS => tail mod 2 = 0 /\ forall i, 0 <= i < tail -> buff i = i
        | GS_LINE_CLASS =>
            tail mod 2 = 0
            /\ forall k, 0 <= k -> 2 * k < tail ->
                 if provoking_vertex_last
                 then Int.u32 (buff (2 * k) + 1) = buff (2 * k + 1)
                 else buff (2 * k) = Int.u32 (buff (2 * k + 1) + 1)
        | GS_TRIANGLE_CLASS => tail mod 3 = 0
        | GS_INVALID_CLASS => True
        end.
Proof.
  intros m_primclass pvl m_index Htail buff tail. fold tail in Htail.
  assert (Hflat : VerifyIndices_loop (fun i => buff i =? i) 1 tail 0 (Z.to_nat tail) = true
                  <-> (forall i, 0 <= i < tail -> buff i = i)).
  { rewrite VerifyIndices_loop_spec by lia. split.
    - intros H i Hi. specialize (H i ltac:(lia) ltac:(lia)).
      replace (0 + i * 1) with i in H by lia. apply Z.eqb_eq. exact H.
    - intros H k Hk Hk'. replace (0 + k * 1) with k in * by lia.
      apply Z.eqb_eq. apply H. lia. }
  unfold VerifyIndices. fold buff. fold tail.
  destruct m_primclass.
  - exact Hflat.
  - destruct (Z.eqb_spec (tail mod 2) 0) as [Heven | Hodd]; cbn [negb].
    + destruct pvl; rewrite VerifyIndices_loop_spec by lia; split.
      * intros H. split; [exact Heven |]. intros k Hk Hk'.
        specialize (H k Hk ltac:(lia)). replace (0 + k * 2) with (2 * k) in H by lia.
        apply Z.eqb_eq. exact H.
      * intros [_ H] k Hk Hk'. replace (0 + k * 2) with (2 * k) in * by lia.
        apply Z.eqb_eq. apply (H k Hk). lia.
      * intros H. split; [exact Heven |]. intros k Hk Hk'.
        specialize (H k Hk ltac:(lia)). replace (0 + k * 2) with (2 * k) in H by lia.
        apply Z.eqb_eq. exact H.
      * intros [_ H] k Hk Hk'. replace (0 + k * 2) with (2 * k) in * by lia.
        apply Z.eqb_eq. apply (H k Hk). lia.
    + split; [discriminate | intros [H _]; contradiction].
  - destruct (Z.eqb_spec (tail mod 3) 0) as [H3 | H3]; cbn [negb];
      split; auto; try discriminate.
  - destruct (Z.eqb_spec (tail mod 2) 0) as [Heven | Hodd]; cbn [negb].
    + rewrite Hflat. split; [intros H; split; assumption | intros [_ H]; exact H].
    + split; [discriminate | intros [H _]; contradiction].
  - split; auto.
Qed.

Lemma VerifyIndices_accepts_witness :
  let m_index := IndexQueue.mk [0; 1; 2; 3; 9] 4 in
  let buff := IndexQueue.at_ (IndexQueue.buff m_index) in
  let tail := IndexQueue.tail m_index in
  VerifyIndices GS_SPRITE_CLASS false m_index = true
  <-> (tail mod 2 = 0 /\ forall i, 0 <= i < tail -> buff i = i).
Proof.
  intros m_index.
  apply (VerifyIndices_accepts GS_SPRITE_CLASS false m_index).
  vm_compute. split; congruence.
Defined.

Example VerifyIndices_line_order :
  VerifyIndices GS_LINE_CLASS true (IndexQueue.mk [4; 5; 0; 1] 4) = true
  /\ VerifyIndices GS_LINE_CLASS false (IndexQueue.mk [4; 5; 0; 1] 4) = false
  /\ VerifyIndices GS_LINE_CLASS false (IndexQueue.mk [5; 4; 1; 0] 4) = true
  /\ VerifyIndices GS_SPRITE_CLASS false (IndexQueue.mk [0; 1; 2] 3) = false
  /\ VerifyIndices GS_POINT_CLASS false (IndexQueue.mk [0; 1; 2] 3) = true.
Proof. repeat split. Qed.

(** ** The two halves of a split invalidation *)

(** X19.  A rectangle that is too tall only (bottom above 2048, right at
    most 2048) is invalidated in two pieces with the columns of the
    original: the rows from its top to 2048, and the rows from 0 to its
    bottom less 2048; together the pieces have as many rows as the
    rectangle. *)
Theorem InvalidateVideoMem_tall_rectangle_rows :
  forall (W : Type) (h : Prog.handler HW W) (w : W)
         (BITBLTBUF : GIFRegBITBLTBUF) (r : GSVector4i.t) (eewrite : bool),
    2048 < GSVector4i.w r < 2 ^ 31 ->
    GSVector4i.z r <= 2048 ->
    let off := GetOffset (DBP BITBLTBUF) (DBW BITBLTBUF) (DPSM BITBLTBUF) in
    let upper := GSVector4i.mk (GSVector4i.x r) (GSVector4i.y r) (GSVector4i.z r) 2048 in
    let lower := GSVector4i.mk (GSVector4i.x r) 0 (GSVector4i.z r) (GSVector4i.w r - 2048) in
    Prog.calls h (InvalidateVideoMem BITBLTBUF r eewrite) w
    = [TC_InvalidateVideoMem off upper eewrite true;
       TC_InvalidateVideoMem off lower eewrite true]
    /\ (GSVector4i.w upper - GSVector4i.y upper) + (GSVector4i.w lower - GSVector4i.y lower)
       = GSVector4i.w r - GSVector4i.y r.
Proof.
  intros W h w B r eewrite Hh Hw off upper lower. split; [| cbn; lia].
  unfold Prog.calls, Prog.trace, InvalidateVideoMem, mbind, prog_bind.
  unfold GSVector4i.set_w, GSVector4i.set_z, GSVector4i.set_y, GSVector4i.set_x.
  subst upper lower off.
  destruct r as [rx ry rz rw]; cbn [GSVector4i.x GSVector4i.y GSVector4i.z GSVector4i.w] in *.
  destruct (Z.ltb_spec 2048 rw); [| lia].
  destruct (Z.ltb_spec 2048 rz); [lia |].
  rewrite (IntFacts.s32_small (rw - 2048)) by lia.
  cbn -[Z.sub]. repeat answer_call h. reflexivity.
Qed.

Lemma InvalidateVideoMem_tall_rectangle_rows_witness :
  let r := GSVector4i.mk 0 1024 512 2560 in
  let off := GetOffset 0x100 10 0 in
  let upper := GSVector4i.mk 0 1024 512 2048 in
  let lower := GSVector4i.mk 0 0 512 (2560 - 2048) in
  Prog.calls (recorder 0) (InvalidateVideoMem (mkBITBLTBUF 0 0 0 0x100 10 0) r true) []
  = [TC_InvalidateVideoMem off upper true true; TC_InvalidateVideoMem off lower true true]
  /\ (GSVector4i.w upper - GSVector4i.y upper) + (GSVector4i.w lower - GSVector4i.y lower)
     = GSVector4i.w r - GSVector4i.y r.
Proof.
  intros r.
  apply (InvalidateVideoMem_tall_rectangle_rows (list hw_call) (recorder 0) []
           (mkBITBLTBUF 0 0 0 0x100 10 0) r true); cbn; lia.
Defined.

(** X20.  A rectangle that is too wide only (right above 2048, bottom at
    most 2048) is invalidated in two pieces as well, but the right edge
    of the second piece is computed from the bottom of the rectangle:
    the second piece starts at column 0 and ends at or before it, so it
    holds no column at all. *)
Theorem InvalidateVideoMem_wide_rectangle_drops_columns :
  forall (W : Type) (h : Prog.handler HW W) (w : W)
         (BITBLTBUF : GIFRegBITBLTBUF) (r : GSVector4i.t) (eewrite : bool),
    2048 < GSVector4i.z r ->
    - 2 ^ 31 + 2048 <= GSVector4i.w r <= 2048 ->
    let off := GetOffset (DBP BITBLTBUF) (DBW BITBLTBUF) (DPSM BITBLTBUF) in
    let second :=
      GSVector4i.mk 0 (GSVector4i.y r) (GSVector4i.w r - 2048) (GSVector4i.w r) in
    Prog.calls h (InvalidateVideoMem BITBLTBUF r eewrite) w
    = [TC_InvalidateVideoMem off (clamped_2048 r) eewrite true;
       TC_InvalidateVideoMem off second eewrite true]
    /\ GSVector4i.z second <= GSVector4i.x second.
Proof.
  intros W h w B r eewrite Hw Hh off second. split; [| cbn; lia].
  unfold Prog.calls, Prog.trace, InvalidateVideoMem, clamped_2048, mbind, prog_bind.
  unfold GSVector4i.set_w, GSVector4i.set_z, GSVector4i.set_y, GSVector4i.set_x.
  subst second off.
  destruct r as [rx ry rz rw]; cbn [GSVector4i.x GSVector4i.y GSVector4i.z GSVector4i.w] in *.
  destruct (Z.ltb_spec 2048 rw); [lia |].
  destruct (Z.ltb_spec 2048 rz); [| lia].
  rewrite (IntFacts.s32_small (rw - 2048)) by lia.
  rewrite (Z.min_r rz 2048), (Z.min_l rw 2048) by lia.
  cbn -[Z.sub]. repeat answer_call h. reflexivity.
Qed.

Lemma InvalidateVideoMem_wide_rectangle_drops_columns_witness :
  let r := GSVector4i.mk 0 0 2560 512 in
  let off := GetOffset 0x100 10 0 in
  let second := GSVector4i.mk 0 0 (512 - 2048) 512 in
  Prog.calls (recorder 0) (InvalidateVideoMem (mkBITBLTBUF 0 0 0 0x100 10 0) r true) []
  = [TC_InvalidateVideoMem off (clamped_2048 r) true true;
     TC_InvalidateVideoMem off second true true]
  /\ GSVector4i.z second <= GSVector4i.x second.
Proof.
  intros r.
  apply (InvalidateVideoMem_wide_rectangle_drops_columns (list hw_call) (recorder 0) []
           (mkBITBLTBUF 0 0 0 0x100 10 0) r true); cbn; lia.
Defined.

(** ** Copies between textures *)

(** X21.  [CloneTexture] copies a depth texture whole and a colour
    texture in place.  The clone is made with the size and format of the
    source.  For a depth source the copy has no box and lands at (0, 0),
    whatever rectangle was asked for; for any other source the copy takes
    the box of the rectangle and lands at the left and top of that box,
    so every pixel keeps its coordinates. *)
Theorem CloneTexture_copies_in_place :
  forall (W : Type) (h : Prog.handler Device11Draw.DRAW W) (w : W)
         (src : Device11Draw.GSTexture) (rect : GSVector4i.t),
    let dest := Prog.result h (Device11Draw.CloneTexture src rect) w in
    let width := Device11Draw.GetWidth src in
    let height := Device11Draw.GetHeight src in
    let format := Device11Draw.GetFormat src in
    exists (dstX dstY : Z) (box : option Device11Draw.D3D11_BOX),
      Prog.calls h (Device11Draw.CloneTexture src rect) w
      = [if Device11Draw.IsDepthStencil src
         then Device11Draw.CreateDepthStencil width height format false
         else Device11Draw.CreateRenderTarget width height format false;
         Device11Draw.PerfMon_Put_TextureCopies;
         Device11Draw.Ctx_CopySubresourceRegion (Device11Draw.address dest) dstX dstY
           (Device11Draw.address src) box]
      /\ match box with
         | None => Device11Draw.IsDepthStencil src = true /\ dstX = 0 /\ dstY = 0
         | Some b =>
             Device11Draw.IsDepthStencil src = false
             /\ dstX = Device11Draw.left b /\ dstY = Device11Draw.top b
             /\ b = Device11Draw.mkBox (Int.u32 (GSVector4i.x rect)) (Int.u32 (GSVector4i.y rect)) 0
                      (Int.u32 (GSVector4i.z rect)) (Int.u32 (GSVector4i.w rect)) 1
         end.
Proof.
  intros W h w src rect.
  unfold Prog.result, Prog.calls, Prog.trace, Device11Draw.CloneTexture, Device11Draw.CopyRect,
    mbind, prog_bind, mret, prog_ret, Device11Draw.dev, Prog.call.
  destruct (Device11Draw.IsDepthStencil src) eqn:Hdepth; cbn;
    repeat answer_call h; rewrite ?Hdepth.
  - exists 0, 0, None. split; [reflexivity | auto].
  - eexists _, _, (Some _). split; [reflexivity |]. cbn. auto.
Qed.

Example CloneTexture_depth_ignores_rectangle :
  Prog.calls Device11Draw.device_example
    (Device11Draw.CloneTexture (Device11Draw.mkTexture 32 D3D11.DepthStencil 640 448 7)
       (GSVector4i.mk 16 16 64 64)) tt
  = [Device11Draw.CreateDepthStencil 640 448 7 false;
     Device11Draw.PerfMon_Put_TextureCopies;
     Device11Draw.Ctx_CopySubresourceRegion 64 0 0 32 None]
  /\ Prog.calls Device11Draw.device_example
       (Device11Draw.CloneTexture (Device11Draw.mkTexture 32 D3D11.RenderTarget 640 448 7)
          (GSVector4i.mk 16 16 64 64)) tt
     = [Device11Draw.CreateRenderTarget 640 448 7 false;
        Device11Draw.PerfMon_Put_TextureCopies;
        Device11Draw.Ctx_CopySubresourceRegion 64 16 16 32
          (Some (Device11Draw.mkBox 16 16 0 64 64 1))].
Proof. split; reflexivity. Qed.

(** X22.  The [StretchRect] with a colour mask draws with the blend
    state whose write mask enables exactly the channels asked for: the
    index it computes is below 16, and the state that [Create] made for
    that index has the write mask with
    [D3D11_COLOR_WRITE_ENABLE_RED], [..._GREEN], [..._BLUE] and
    [..._ALPHA] set for [red], [green], [blue] and [alpha]. *)
Theorem StretchRect_mask_selects_write_mask :
  forall (m_convert : Device11Draw.Convert) (ShaderConvert_COPY : Z) (size : nat)
         (W : Type) (h : Prog.handler Device11Draw.DRAW W) (w : W)
         (sTex dTex : Z) (sRect dRect : Device11Draw.GSVector4) (red green blue alpha : bool),
    (16 <= size)%nat ->
    let index := Device11Draw.color_mask_index red green blue alpha in
    Prog.calls h
      (Device11Draw.StretchRect_mask m_convert ShaderConvert_COPY sTex sRect dTex dRect
         red green blue alpha) w
    = [Device11Draw.StretchRect_bs sTex sRect dTex dRect
         (Device11Draw.ps m_convert ShaderConvert_COPY) Device11Draw.nullptr
         (Device11Draw.bs m_convert index) false]
    /\ 0 <= index < 16
    /\ nth_error (Device11Draw.convert_write_masks size) (Z.to_nat index)
       = Some ((if red then Device11Draw.D3D11_COLOR_WRITE_ENABLE_RED else 0)
               + (if green then Device11Draw.D3D11_COLOR_WRITE_ENABLE_GREEN else 0)
               + (if blue then Device11Draw.D3D11_COLOR_WRITE_ENABLE_BLUE else 0)
               + (if alpha then Device11Draw.D3D11_COLOR_WRITE_ENABLE_ALPHA else 0)).
Proof.
  intros m_convert COPY size W h w sTex dTex sRect dRect red green blue alpha Hsize index.
  split; [| split].
  - unfold Prog.calls, Prog.trace, Device11Draw.StretchRect_mask, Device11Draw.dev, Prog.call.
    cbn. answer_call h. reflexivity.
  - subst index. destruct red, green, blue, alpha; vm_compute; split; congruence.
  - unfold Device11Draw.convert_write_masks.
    assert (Hi : (Z.to_nat index < size)%nat).
    { subst index. destruct red, green, blue, alpha; vm_compute; lia. }
    rewrite nth_error_map, nth_error_seq.
    destruct (Nat.ltb_spec (Z.to_nat index) size) as [_ | Hge]; [| lia].
    subst index. destruct red, green, blue, alpha; reflexivity.
Qed.

Lemma StretchRect_mask_selects_write_mask_witness :
  let m_convert := Device11Draw.mkConvert 1 2 (fun i => 100 + i) 3 4 5 6 (fun i => 200 + i) in
  let sRect := Device11Draw.mkVector4 (F32 0) (F32 0) (F32 0) (F32 0) in
  let index := Device11Draw.color_mask_index true false true false in
  Prog.calls Device11Draw.device_example
    (Device11Draw.StretchRect_mask m_convert 0 32 sRect 48 sRect true false true false) tt
  = [Device11Draw.StretchRect_bs 32 sRect 48 sRect
       (Device11Draw.ps m_convert 0) Device11Draw.nullptr
       (Device11Draw.bs m_convert index) false]
  /\ 0 <= index < 16
  /\ nth_error (Device11Draw.convert_write_masks 16) (Z.to_nat index)
     = Some ((if true then Device11Draw.D3D11_COLOR_WRITE_ENABLE_RED else 0)
             + (if false then Device11Draw.D3D11_COLOR_WRITE_ENABLE_GREEN else 0)
             + (if true then Device11Draw.D3D11_COLOR_WRITE_ENABLE_BLUE else 0)
             + (if false then Device11Draw.D3D11_COLOR_WRITE_ENABLE_ALPHA else 0)).
Proof.
  intros m_convert sRect.
  apply (StretchRect_mask_selects_write_mask m_convert 0 16 unit Device11Draw.device_example tt
           32 48 sRect sRect true false true false).
  lia.
Defined.

(** ** Stretched draws in batches *)

(** Equality of two lists of numbers, or pairs of numbers, of the same
    length. *)
Ltac list_eq :=
  repeat (apply (f_equal2 cons); [first [reflexivity | lia | (f_equal; lia)] |]);
  reflexivity.

Lemma DoMultiStretchRects_iter_run :
  forall (W : Type) (h : Prog.handler Device11Draw.DRAW W) (w : W) (verts idx : Z)
         (ds : GSVector2i.t) (i : Z) (r : Device11Draw.MultiStretchRect) (icount vcount : Z),
    0 <= vcount -> vcount + 4 < 2 ^ 32 -> 0 <= icount -> icount + 6 < 2 ^ 32 ->
    exists (w' : W) (tr : list (Prog.event Device11Draw.DRAW)),
      Prog.run h (Device11Draw.DoMultiStretchRects_iter verts idx ds i r icount vcount) w
      = ((icount + (if 0 <? i then 6 else 5), vcount + 4), w', tr)
      /\ omap Device11Draw.vertex_store (map Prog.called tr) = seqZ vcount 4
      /\ omap Device11Draw.index_store (map Prog.called tr)
         = (if 0 <? i then [(icount, vcount)] else [])
           ++ (let icount := icount + (if 0 <? i then 1 else 0) in
               [(icount, vcount); (icount + 1, vcount + 1); (icount + 2, vcount + 2);
                (icount + 3, vcount + 3); (icount + 4, vcount + 3)]).
Proof.
  intros W h w verts idx ds i r icount vcount Hv0 Hv Hi0 Hi.
  unfold Device11Draw.DoMultiStretchRects_iter.
  rewrite (IntFacts.u32_small (vcount + 1)) by lia.
  rewrite (IntFacts.u32_small (vcount + 1 + 1)) by lia.
  rewrite (IntFacts.u32_small (vcount + 1 + 1 + 1)) by lia.
  rewrite (IntFacts.u32_small (vcount + 1 + 1 + 1 + 1)) by lia.
  rewrite (IntFacts.u32_small (vcount + 2)) by lia.
  rewrite (IntFacts.u32_small (vcount + 3)) by lia.
  unfold mbind, prog_bind, mret, prog_ret, Device11Draw.dev, Prog.call.
  destruct (0 <? i); cbn -[Z.add Int.u32 seqZ];
    repeat (rewrite (IntFacts.u32_small (icount + 1)) by lia);
    repeat (rewrite (IntFacts.u32_small (icount + 1 + 1)) by lia);
    repeat (rewrite (IntFacts.u32_small (icount + 1 + 1 + 1)) by lia);
    repeat (rewrite (IntFacts.u32_small (icount + 1 + 1 + 1 + 1)) by lia);
    repeat (rewrite (IntFacts.u32_small (icount + 1 + 1 + 1 + 1 + 1)) by lia);
    repeat (rewrite (IntFacts.u32_small (icount + 1 + 1 + 1 + 1 + 1 + 1)) by lia);
    repeat match goal with
           | |- context [h ?c ?w] =>
               let r := fresh "r" in let w' := fresh "w" in
               destruct (h c w) as [r w'] eqn:?; cbn -[Z.add Int.u32 seqZ]
           end;
    eexists _, _; (split; [f_equal; f_equal; f_equal; lia |]);
    unfold seqZ; cbn -[Z.add]; split; list_eq.
Qed.

Lemma DoMultiStretchRects_loop_run :
  forall (W : Type) (h : Prog.handler Device11Draw.DRAW W) (verts idx : Z) (ds : GSVector2i.t)
         (rects : list Device11Draw.MultiStretchRect) (i : Z) (w : W),
    0 <= i ->
    6 * (i + Z.of_nat (length rects)) < 2 ^ 32 ->
    let n := i + Z.of_nat (length rects) in
    exists (w' : W) (tr : list (Prog.event Device11Draw.DRAW)),
      Prog.run h (Device11Draw.DoMultiStretchRects_loop verts idx ds i rects (Device11Draw.indices_written i) (4 * i)) w
      = ((Device11Draw.indices_written n, 4 * n), w', tr)
      /\ omap Device11Draw.vertex_store (map Prog.called tr)
         = seqZ (4 * i) (4 * Z.of_nat (length rects))
      /\ map fst (omap Device11Draw.index_store (map Prog.called tr))
         = seqZ (Device11Draw.indices_written i) (Device11Draw.indices_written n - Device11Draw.indices_written i)
      /\ Forall (fun sv : Z * Z => 4 * i <= sv.2 < 4 * n)
           (omap Device11Draw.index_store (map Prog.called tr)).
Proof.
  intros W h verts idx ds rects.
  induction rects as [| r later IH]; intros i w Hi Hn n.
  - exists w, []. subst n. cbn [length Z.of_nat]. rewrite Z.add_0_r, Z.sub_diag.
    cbn. repeat split; constructor.
  - cbn [Device11Draw.DoMultiStretchRects_loop].
    unfold mbind at 1, prog_bind at 1. rewrite ProgFacts.run_bind.
    assert (Hlen : Z.of_nat (length (r :: later)) = Z.of_nat (length later) + 1)
      by (cbn [length]; lia).
    assert (Hw0 : 0 <= Device11Draw.indices_written i) by (unfold Device11Draw.indices_written; destruct (Z.ltb_spec 0 i); lia).
    assert (Hw1 : Device11Draw.indices_written i + 6 < 2 ^ 32)
      by (unfold Device11Draw.indices_written; destruct (Z.ltb_spec 0 i); lia).
    destruct (DoMultiStretchRects_iter_run W h w verts idx ds i r (Device11Draw.indices_written i) (4 * i)
                ltac:(lia) ltac:(lia) Hw0 Hw1) as (w1 & tr1 & Hrun & Hv & Hx).
    rewrite Hrun. cbv beta iota.
    rewrite (IntFacts.u32_small (i + 1)) by lia.
    assert (Hnext : Device11Draw.indices_written i + (if 0 <? i then 6 else 5) = Device11Draw.indices_written (i + 1)).
    { unfold Device11Draw.indices_written. destruct (Z.ltb_spec 0 i), (Z.ltb_spec 0 (i + 1)); lia. }
    rewrite Hnext. replace (4 * i + 4) with (4 * (i + 1)) by lia.
    destruct (IH (i + 1) w1 ltac:(lia) ltac:(lia)) as (w2 & tr2 & Hrun2 & Hv2 & Hx2 & Hb2).
    rewrite Hrun2.
    replace (i + 1 + Z.of_nat (length later)) with n in * by (subst n; lia).
    exists w2, (tr1 ++ tr2). split; [reflexivity |].
    rewrite List.map_app, !omap_app, List.map_app, Hv, Hv2, Hx2. split; [| split].
    + rewrite Hlen. replace (4 * (Z.of_nat (length later) + 1))
        with (4 + 4 * Z.of_nat (length later)) by lia.
      rewrite seqZ_app by lia. replace (4 * i + 4) with (4 * (i + 1)) by lia. reflexivity.
    + replace (Device11Draw.indices_written n - Device11Draw.indices_written i)
        with ((Device11Draw.indices_written (i + 1) - Device11Draw.indices_written i) + (Device11Draw.indices_written n - Device11Draw.indices_written (i + 1))) by lia.
      assert (Hwn : Device11Draw.indices_written (i + 1) <= Device11Draw.indices_written n).
      { subst n. unfold Device11Draw.indices_written. destruct (Z.ltb_spec 0 (i + 1)),
          (Z.ltb_spec 0 (i + Z.of_nat (length (r :: later)))); lia. }
      assert (Hwi : Device11Draw.indices_written i <= Device11Draw.indices_written (i + 1))
        by (rewrite <- Hnext; destruct (0 <? i); lia).
      rewrite seqZ_app by lia.
      replace (Device11Draw.indices_written i + (Device11Draw.indices_written (i + 1) - Device11Draw.indices_written i)) with (Device11Draw.indices_written (i + 1)) by lia.
      f_equal. rewrite Hx. rewrite <- Hnext.
      destruct (Z.ltb_spec 0 i);
        [replace (Device11Draw.indices_written i + 6 - Device11Draw.indices_written i)
           with 6 by lia
        | replace (Device11Draw.indices_written i + 5 - Device11Draw.indices_written i)
            with 5 by lia];
        unfold seqZ; cbn -[Z.add Z.mul]; list_eq.
    + apply Forall_app. split.
      * rewrite Hx. subst n.
        destruct (0 <? i); cbn -[Z.mul]; repeat constructor; cbn -[Z.mul]; lia.
      * eapply Forall_impl; [exact Hb2 |]. intros sv Hsv. cbn beta in *. lia.
Qed.

Lemma DoMultiStretchRects_loop_from_start :
  forall (W : Type) (h : Prog.handler Device11Draw.DRAW W) (verts idx : Z) (ds : GSVector2i.t)
         (rects : list Device11Draw.MultiStretchRect) (w : W),
    rects <> [] ->
    6 * Z.of_nat (length rects) < 2 ^ 32 ->
    let n := Z.of_nat (length rects) in
    exists (w' : W) (tr : list (Prog.event Device11Draw.DRAW)),
      Prog.run h (Device11Draw.DoMultiStretchRects_loop verts idx ds 0 rects 0 0) w
      = ((6 * n - 1, 4 * n), w', tr)
      /\ omap Device11Draw.vertex_store (map Prog.called tr) = seqZ 0 (4 * n)
      /\ map fst (omap Device11Draw.index_store (map Prog.called tr)) = seqZ 0 (6 * n - 1)
      /\ Forall (fun sv : Z * Z => 0 <= sv.2 < 4 * n)
           (omap Device11Draw.index_store (map Prog.called tr)).
Proof.
  intros W h verts idx ds rects w Hne Hn n.
  destruct (DoMultiStretchRects_loop_run W h verts idx ds rects 0 w ltac:(lia) ltac:(lia))
    as (w3 & tr & Hrun & Hv & Hx & Hb).
  assert (Hwritten : Device11Draw.indices_written (0 + Z.of_nat (length rects)) = 6 * n - 1).
  { unfold Device11Draw.indices_written. subst n.
    destruct (Z.ltb_spec 0 (0 + Z.of_nat (length rects))); [lia |].
    destruct rects; [contradiction | cbn [length] in *; lia]. }
  rewrite Hwritten in Hrun, Hx.
  replace (Device11Draw.indices_written 0) with 0 in Hrun, Hx by reflexivity.
  replace (4 * 0) with 0 in Hrun, Hv, Hb by reflexivity.
  replace (0 + Z.of_nat (length rects)) with n in Hrun, Hb by (subst n; lia).
  rewrite Z.sub_0_r in Hx.
  exists w3, tr. split; [exact Hrun |]. split; [exact Hv |]. split; [exact Hx | exact Hb].
Qed.

(** X23.  [DoMultiStretchRects] stays within what it reserved, when
    both mappings succeed.  For [n] rectangles (at least one, and few
    enough for the counts to fit 32 bits) it reserves [4 * n] vertices
    and [6 * n] indices; if neither [IAMapVertexBuffer] nor
    [IAMapIndexBuffer] answers [nullptr], it returns, having stored the
    vertices into the slots 0, 1, ..., [4 * n - 1] in this order and the
    indices into the slots 0, 1, ..., [6 * n - 2], every stored index is
    the slot of a stored vertex, and the counts it unmaps with are the
    numbers stored. *)
Theorem DoMultiStretchRects_stays_within_reserved :
  forall (m_convert : Device11Draw.Convert) (sizeof_GSVertexPT1 : Z)
         (W : Type) (h : Prog.handler Device11Draw.DRAW W) (w : W)
         (first : Device11Draw.MultiStretchRect) (later : list Device11Draw.MultiStretchRect)
         (ds : GSVector2i.t),
    let rects := first :: later in
    let n := Z.of_nat (length rects) in
    let vertices := h (Device11Draw.IAMapVertexBuffer sizeof_GSVertexPT1 (4 * n)) w in
    let indices := h (Device11Draw.IAMapIndexBuffer (6 * n)) vertices.2 in
    let p := Device11Draw.DoMultiStretchRects m_convert sizeof_GSVertexPT1 rects ds in
    6 * n < 2 ^ 32 ->
    vertices.1 <> Device11Draw.nullptr ->
    indices.1 <> Device11Draw.nullptr ->
    Prog.result h p w = Some tt
    /\ exists stores : list Device11Draw.draw_call,
      Prog.calls h p w
         = [Device11Draw.IAMapVertexBuffer sizeof_GSVertexPT1 (4 * n);
            Device11Draw.IAMapIndexBuffer (6 * n)]
           ++ stores
           ++ [Device11Draw.IAUnmapVertexBuffer sizeof_GSVertexPT1 (4 * n);
               Device11Draw.IAUnmapIndexBuffer (6 * n - 1);
               Device11Draw.PSSetShaderResource 0 (Device11Draw.src first);
               Device11Draw.PSSetSamplerState
                 (if Device11Draw.linear first then Device11Draw.ln m_convert
                  else Device11Draw.pt m_convert);
               Device11Draw.OMSetBlendState
                 (Device11Draw.bs m_convert (Device11Draw.wmask first)) (F32 0);
               Device11Draw.DrawIndexedPrimitive]
      /\ omap Device11Draw.vertex_store stores = seqZ 0 (4 * n)
      /\ map fst (omap Device11Draw.index_store stores) = seqZ 0 (6 * n - 1)
      /\ Forall (fun sv : Z * Z => 0 <= sv.2 < 4 * n) (omap Device11Draw.index_store stores).
Proof.
  intros m_convert sz W h w first later ds rects n vertices indices p Hn Hverts Hidx.
  subst p vertices indices rects n.
  unfold Prog.result, Prog.calls, Prog.trace.
  remember (Z.of_nat (length (first :: later))) as n eqn:Hlen.
  remember (Prog.run h (Device11Draw.DoMultiStretchRects m_convert sz (first :: later) ds) w)
    as res eqn:Hres.
  cbn [Device11Draw.DoMultiStretchRects] in Hres.
  rewrite <- Hlen in Hres.
  rewrite (IntFacts.u32_small (n * 4)) in Hres by lia.
  rewrite (IntFacts.u32_small (n * 6)) in Hres by lia.
  replace (n * 4) with (4 * n) in Hres by lia.
  replace (n * 6) with (6 * n) in Hres by lia.
  unfold mbind at 1, prog_bind at 1 in Hres. rewrite ProgFacts.run_bind in Hres.
  unfold Device11Draw.dev at 1, Prog.call at 1 in Hres. cbn [Prog.run] in Hres.
  destruct (h (Device11Draw.IAMapVertexBuffer sz (4 * n)) w) as [verts w1].
  cbn [fst snd] in Hverts, Hidx. cbv beta iota in Hres.
  unfold mbind at 1, prog_bind at 1 in Hres. rewrite ProgFacts.run_bind in Hres.
  unfold Device11Draw.dev at 1, Prog.call at 1 in Hres. cbn [Prog.run] in Hres.
  destruct (h (Device11Draw.IAMapIndexBuffer (6 * n)) w1) as [idx w2].
  cbn [fst snd] in Hidx. cbv beta iota in Hres.
  destruct (Z.eqb_spec verts Device11Draw.nullptr) as [E | _]; [contradiction |].
  destruct (Z.eqb_spec idx Device11Draw.nullptr) as [E | _]; [contradiction |].
  cbn [orb] in Hres.
  unfold mbind at 1, prog_bind at 1 in Hres. rewrite ProgFacts.run_bind in Hres.
  destruct (DoMultiStretchRects_loop_from_start W h verts idx ds (first :: later) w2
              ltac:(discriminate) ltac:(lia))
    as (w3 & tr & Hrun & Hv & Hx & Hb).
  assert (Hlen' : Z.of_nat (length (first :: later)) = n) by (subst n; reflexivity).
  rewrite Hlen' in Hrun, Hv, Hx, Hb.
  rewrite Hrun in Hres. cbv beta iota in Hres.
  unfold mbind, prog_bind, mret, prog_ret, Device11Draw.dev, Prog.call in Hres.
  cbn -[Z.mul Z.sub] in Hres.
  repeat match type of Hres with
         | context [h ?c ?w] =>
             let r := fresh "r" in let w' := fresh "w" in
             destruct (h c w) as [r w']; cbn -[Z.mul Z.sub] in Hres
         end.
  subst res. cbn [fst snd].
  split; [reflexivity |].
  exists (map Prog.called tr).
  cbn [map Prog.called Prog.ev projT1 app].
  rewrite List.map_app. cbn [map Prog.called Prog.ev projT1 app].
  split; [reflexivity |]. split; [exact Hv |]. split; [exact Hx | exact Hb].
Qed.

Lemma DoMultiStretchRects_stays_within_reserved_witness :
  let m_convert := Device11Draw.mkConvert 1 2 (fun i => 100 + i) 3 4 5 6 (fun i => 200 + i) in
  let zero := Device11Draw.mkVector4 (F32 0) (F32 0) (F32 0) (F32 0) in
  let first := Device11Draw.mkMultiStretchRect zero zero 32 false 15 in
  let later := [Device11Draw.mkMultiStretchRect zero zero 32 false 15] in
  let ds := GSVector2i.mk 640 448 in
  let rects := first :: later in
  let n := Z.of_nat (length rects) in
  let p := Device11Draw.DoMultiStretchRects m_convert 32 rects ds in
  Prog.result Device11Draw.device_example p tt = Some tt
  /\ exists stores : list Device11Draw.draw_call,
    Prog.calls Device11Draw.device_example p tt
    = [Device11Draw.IAMapVertexBuffer 32 (4 * n); Device11Draw.IAMapIndexBuffer (6 * n)]
      ++ stores
      ++ [Device11Draw.IAUnmapVertexBuffer 32 (4 * n);
          Device11Draw.IAUnmapIndexBuffer (6 * n - 1);
          Device11Draw.PSSetShaderResource 0 (Device11Draw.src first);
          Device11Draw.PSSetSamplerState
            (if Device11Draw.linear first then Device11Draw.ln m_convert
             else Device11Draw.pt m_convert);
          Device11Draw.OMSetBlendState
            (Device11Draw.bs m_convert (Device11Draw.wmask first)) (F32 0);
          Device11Draw.DrawIndexedPrimitive]
    /\ omap Device11Draw.vertex_store stores = seqZ 0 (4 * n)
    /\ map fst (omap Device11Draw.index_store stores) = seqZ 0 (6 * n - 1)
    /\ Forall (fun sv : Z * Z => 0 <= sv.2 < 4 * n) (omap Device11Draw.index_store stores).
Proof.
  intros m_convert zero first later ds.
  apply (DoMultiStretchRects_stays_within_reserved m_convert 32 unit
           Device11Draw.device_example tt first later ds).
  - reflexivity.
  - discriminate.
  - discriminate.
Defined.

Example DoMultiStretchRects_two_rectangles :
  let zero := Device11Draw.mkVector4 (F32 0) (F32 0) (F32 0) (F32 0) in
  let r := Device11Draw.mkMultiStretchRect zero zero 32 false 15 in
  omap Device11Draw.index_store
    (Prog.calls Device11Draw.device_example
       (Device11Draw.DoMultiStretchRects
          (Device11Draw.mkConvert 1 2 (fun i => 100 + i) 3 4 5 6 (fun i => 200 + i)) 32
          [r; r] (GSVector2i.mk 640 448)) tt)
  = [(0, 0); (1, 1); (2, 2); (3, 3); (4, 3);
     (5, 4); (6, 4); (7, 5); (8, 6); (9, 7); (10, 7)].
Proof. reflexivity. Qed.

(** When a mapping fails the body stores through a null pointer: the
    behaviour is undefined after the two mappings, and the unmaps are
    not reached. *)
Example DoMultiStretchRects_failed_mapping :
  let zero := Device11Draw.mkVector4 (F32 0) (F32 0) (F32 0) (F32 0) in
  let r := Device11Draw.mkMultiStretchRect zero zero 32 false 15 in
  Prog.run Device11Draw.device_without_index_mapping
    (Device11Draw.DoMultiStretchRects
       (Device11Draw.mkConvert 1 2 (fun i => 100 + i) 3 4 5 6 (fun i => 200 + i)) 32
       [r; r] (GSVector2i.mk 640 448)) tt
  = (None, tt,
     [Prog.ev (E := Device11Draw.DRAW) (Device11Draw.IAMapVertexBuffer 32 8) 4096;
      Prog.ev (E := Device11Draw.DRAW) (Device11Draw.IAMapIndexBuffer 12) Device11Draw.nullptr]).
Proof. reflexivity. Qed.

Lemma slice_current :
  forall (done current rest : list Device11Draw.MultiStretchRect),
    Device11Draw.slice (done ++ current ++ rest)
      (Z.of_nat (length done), Z.of_nat (length current))
    = current.
Proof.
  intros done current rest. unfold Device11Draw.slice. cbn [fst snd].
  rewrite !Nat2Z.id, drop_app_length, take_app_length. reflexivity.
Qed.

Lemma DrawMultiStretchRects_loop_batches :
  forall (W : Type) (h : Prog.handler Device11Draw.DRAW W) (ds : GSVector2i.t)
         (rects rest done : list Device11Draw.MultiStretchRect)
         (a : Device11Draw.MultiStretchRect) (current : list Device11Draw.MultiStretchRect)
         (w : W),
    rects = done ++ (a :: current) ++ rest ->
    Z.of_nat (length rects) < 2 ^ 32 ->
    Forall (fun r => Device11Draw.same_state r a = true) current ->
    let batches :=
      map (Device11Draw.slice rects)
        (omap Device11Draw.batch_of
           (map Prog.called
              (Prog.run h
                 (Device11Draw.DrawMultiStretchRects_loop ds rest (Device11Draw.src a)
                    (Device11Draw.linear a) (Device11Draw.wmask a)
                    (Z.of_nat (length done)) (Z.of_nat (length (a :: current)))) w).2)) in
    (exists more later, batches = (a :: current ++ more) :: later)
    /\ concat batches = (a :: current) ++ rest
    /\ Forall Device11Draw.uniform batches
    /\ Device11Draw.adjacent_differ batches.
Proof.
  intros W h ds rects rest. induction rest as [| r rest IH];
    intros done a current w Hrects Hlen Hsame batches; subst batches;
    assert (Hslice : Device11Draw.slice rects
                       (Z.of_nat (length done), Z.of_nat (length (a :: current)))
                     = a :: current)
      by (rewrite Hrects; apply slice_current).
  - cbn [Device11Draw.DrawMultiStretchRects_loop].
    unfold Device11Draw.dev, Prog.call. cbn [Prog.run].
    destruct (h (Device11Draw.DoMultiStretchRects_at _ _ _) w) as [u0 w1].
    cbn [snd map Prog.called Prog.ev projT1 omap Device11Draw.batch_of].
    cbn [omap list_omap Device11Draw.batch_of map].
    rewrite Hslice.
    split; [exists [], []; rewrite app_nil_r; reflexivity |].
    split; [cbn; rewrite !app_nil_r; reflexivity |].
    split; [repeat constructor; exact Hsame | exact I].
  - cbn [Device11Draw.DrawMultiStretchRects_loop].
    assert (Hbound : Z.of_nat (length done) + Z.of_nat (length (a :: current)) + 1 <= 2 ^ 32 - 1).
    { rewrite Hrects in Hlen. rewrite !length_app in Hlen. cbn [length] in *.
      clear - Hlen. lia. }
    fold (Device11Draw.same_state r a).
    destruct (Device11Draw.same_state r a) eqn:Hr.
    + rewrite (IntFacts.u32_small (Z.of_nat (length (a :: current)) + 1)) by lia.
      replace (Z.of_nat (length (a :: current)) + 1)
        with (Z.of_nat (length (a :: (current ++ [r]))))
        by (cbn [length]; rewrite length_app; cbn [length]; lia).
      destruct (IH done a (current ++ [r]) w) as ((more & later & Hhead) & Hcat & Huni & Hadj).
      * rewrite Hrects. cbn [app]. rewrite <- !app_assoc. reflexivity.
      * exact Hlen.
      * apply Forall_app. split; [exact Hsame | repeat constructor; exact Hr].
      * split; [| split; [| split; [exact Huni | exact Hadj]]].
        -- exists (r :: more), later. rewrite Hhead, <- app_assoc. reflexivity.
        -- rewrite Hcat. cbn [app]. rewrite <- app_assoc. reflexivity.
    + unfold mbind, prog_bind. rewrite ProgFacts.run_bind.
      unfold Device11Draw.dev, Prog.call. cbn [Prog.run].
      destruct (h (Device11Draw.DoMultiStretchRects_at _ _ _) w) as [u0 w1]. cbv beta iota.
      rewrite (IntFacts.u32_small (Z.of_nat (length done) + Z.of_nat (length (a :: current))))
        by lia.
      replace (Z.of_nat (length done) + Z.of_nat (length (a :: current)))
        with (Z.of_nat (length (done ++ a :: current)))
        by (rewrite length_app; lia).
      change 1 with (Z.of_nat (length [r])).
      destruct (IH (done ++ a :: current) r [] w1)
        as ((more & later & Hhead) & Hcat & Huni & Hadj).
      * rewrite Hrects. rewrite <- app_assoc. reflexivity.
      * exact Hlen.
      * constructor.
      * match goal with
        | |- context [Prog.run h ?p ?w0] =>
            destruct (Prog.run h p w0) as [[u w2] tr2]
        end.
        cbn [snd map Prog.called Prog.ev projT1 app] in *.
        cbn [omap list_omap Device11Draw.batch_of map] in *.
        rewrite Hslice.
        split; [exists [], (map (Device11Draw.slice rects)
                             (omap Device11Draw.batch_of (map Prog.called tr2)));
                rewrite app_nil_r; reflexivity |].
        split; [cbn [concat]; rewrite Hcat; reflexivity |].
        split; [constructor; [exact Hsame | exact Huni] |].
        rewrite Hhead in *. cbn [Device11Draw.adjacent_differ]. split; [| exact Hadj].
        intros a' b' Ha' Hb'. cbn in Ha', Hb'. inversion Ha'; inversion Hb'; subst. exact Hr.
Qed.

(** X24.  [DrawMultiStretchRects] hands the rectangles on in batches
    that it never reorders, splits wrongly or merges wrongly.  When the
    render targets could be set, the batches put one after another are
    the rectangles it was given; no batch is empty; all the rectangles of
    a batch have the source, the filter and the write mask of its first
    one; and the first rectangle of a batch differs in one of these from
    the batch before.  When setting the render targets throws, nothing is
    drawn. *)
Theorem DrawMultiStretchRects_batches :
  forall (m_convert : Device11Draw.Convert)
         (W : Type) (h : Prog.handler Device11Draw.DRAW W) (w : W)
         (first : Device11Draw.MultiStretchRect) (later : list Device11Draw.MultiStretchRect)
         (dTex : Device11Draw.GSTexture) (shader : Z),
    let rects := first :: later in
    Z.of_nat (length rects) < 2 ^ 32 ->
    exists p : Prog.t Device11Draw.DRAW Device11Draw.completion,
      Device11Draw.DrawMultiStretchRects m_convert rects dTex shader = Some p
      /\ let batches :=
           map (Device11Draw.slice rects)
             (omap Device11Draw.batch_of (Prog.calls h p w)) in
         match Prog.result h p w with
         | Device11Draw.Returns =>
             concat batches = rects
             /\ Forall Device11Draw.uniform batches
             /\ Device11Draw.adjacent_differ batches
         | Device11Draw.Throws_GSRecoverableError => batches = []
         end.
Proof.
  intros m_convert W h w first later dTex shader rects Hlen. subst rects.
  eexists. split; [reflexivity |].
  unfold Prog.result, Prog.calls, Prog.trace.
  unfold mbind, prog_bind, Device11Draw.dev, Prog.call. cbn [Prog.bind Prog.run].
  repeat match goal with
         | |- context [h ?c ?w0] =>
             lazymatch c with
             | Device11Draw.OMSetRenderTargets _ _ => fail
             | _ => destruct (h c w0) as [? ?]
             end
         end.
  match goal with
  | |- context [h (Device11Draw.OMSetRenderTargets ?a ?b) ?w0] =>
      destruct (h (Device11Draw.OMSetRenderTargets a b) w0) as [c w7]
  end.
  destruct c.
  - fold (@Prog.bind Device11Draw.DRAW unit Device11Draw.completion).
    rewrite ProgFacts.run_bind.
    pose proof (DrawMultiStretchRects_loop_batches W h
                  (GSVector2i.mk (Device11Draw.GetWidth dTex) (Device11Draw.GetHeight dTex))
                  (first :: later) later [] first [] w7 eq_refl Hlen ltac:(constructor))
      as ((more & rest & Hhead) & Hcat & Huni & Hadj).
    change (Z.of_nat (length (@nil Device11Draw.MultiStretchRect))) with 0 in *.
    change (Z.of_nat (length [first])) with 1 in *.
    cbn [app] in Hhead, Hcat, Huni, Hadj.
    destruct (Prog.run h (Device11Draw.DrawMultiStretchRects_loop _ later _ _ _ 0 1) w7)
      as [[u w8] tr].
    cbn [fst snd map Prog.called Prog.ev projT1 app omap list_omap Device11Draw.batch_of
         mret prog_ret Prog.run] in *.
    rewrite app_nil_r.
    split; [exact Hcat | split; [exact Huni | exact Hadj]].
  - cbn. reflexivity.
Qed.

Lemma DrawMultiStretchRects_batches_witness :
  let m_convert := Device11Draw.mkConvert 1 2 (fun i => 100 + i) 3 4 5 6 (fun i => 200 + i) in
  let zero := Device11Draw.mkVector4 (F32 0) (F32 0) (F32 0) (F32 0) in
  let first := Device11Draw.mkMultiStretchRect zero zero 32 false 15 in
  let later := [Device11Draw.mkMultiStretchRect zero zero 32 false 15;
                Device11Draw.mkMultiStretchRect zero zero 48 false 15;
                Device11Draw.mkMultiStretchRect zero zero 32 false 15] in
  let dTex := Device11Draw.mkTexture 64 D3D11.RenderTarget 640 448 0 in
  let rects := first :: later in
  exists p : Prog.t Device11Draw.DRAW Device11Draw.completion,
    Device11Draw.DrawMultiStretchRects m_convert rects dTex 0 = Some p
    /\ let batches :=
         map (Device11Draw.slice rects)
           (omap Device11Draw.batch_of (Prog.calls Device11Draw.device_example p tt)) in
       match Prog.result Device11Draw.device_example p tt with
       | Device11Draw.Returns =>
           concat batches = rects
           /\ Forall Device11Draw.uniform batches
           /\ Device11Draw.adjacent_differ batches
       | Device11Draw.Throws_GSRecoverableError => batches = []
       end.
Proof.
  intros m_convert zero first later dTex.
  apply (DrawMultiStretchRects_batches m_convert unit Device11Draw.device_example tt
           first later dTex 0).
  reflexivity.
Defined.

Example DrawMultiStretchRects_three_batches :
  let zero := Device11Draw.mkVector4 (F32 0) (F32 0) (F32 0) (F32 0) in
  let a := Device11Draw.mkMultiStretchRect zero zero 32 false 15 in
  let b := Device11Draw.mkMultiStretchRect zero zero 48 false 15 in
  option_map
    (fun p => omap Device11Draw.batch_of (Prog.calls Device11Draw.device_example p tt))
    (Device11Draw.DrawMultiStretchRects
       (Device11Draw.mkConvert 1 2 (fun i => 100 + i) 3 4 5 6 (fun i => 200 + i))
       [a; a; b; a] (Device11Draw.mkTexture 64 D3D11.RenderTarget 640 448 0) 0)
  = Some [(0, 2); (2, 1); (3, 1)].
Proof. reflexivity. Qed.

(** ** The expansion of the index queue *)

Section ExpandIndicesFacts.

Lemma at_insert (b : list Z) (j i v : Z) :
  0 <= i -> 0 <= j < Z.of_nat (length b) ->
  IndexQueue.at_ (<[Z.to_nat j := v]> b) i = if i =? j then v else IndexQueue.at_ b i.
Proof.
  intros Hi Hj. unfold IndexQueue.at_. rewrite !nth_lookup, list_lookup_insert.
  destruct (Z.eqb_spec i j) as [-> | Hne].
  - destruct (decide _) as [_ | Hn]; [reflexivity |]. exfalso. apply Hn. split; [reflexivity | lia].
  - destruct (decide _) as [[He _] | _]; [| reflexivity]. exfalso. apply Hne. lia.
Qed.

Lemma at_store (b : list Z) (g : Z) (v : GSVector4i.t) (i : Z) :
  0 <= g -> 4 * g + 4 <= Z.of_nat (length b) -> 0 <= i ->
  IndexQueue.at_ (Lanes.store b g v) i
  = if (4 * g <=? i) && (i <? 4 * g + 4) then Lanes.lane v (i - 4 * g) else IndexQueue.at_ b i.
Proof.
  intros Hg Hlen Hi. unfold Lanes.store.
  rewrite !at_insert by (rewrite ?length_insert; lia).
  unfold Lanes.lane.
  destruct (Z.eqb_spec i (4 * g + 3)), (Z.eqb_spec i (4 * g + 2)),
    (Z.eqb_spec i (4 * g + 1)), (Z.eqb_spec i (4 * g));
    destruct (Z.leb_spec (4 * g) i), (Z.ltb_spec i (4 * g + 4)); cbn [andb]; try lia;
    destruct (Z.eqb_spec (i - 4 * g) 0), (Z.eqb_spec (i - 4 * g) 1),
      (Z.eqb_spec (i - 4 * g) 2); try lia; reflexivity.
Qed.

Lemma length_store (b : list Z) (g : Z) (v : GSVector4i.t) :
  length (Lanes.store b g v) = length b.
Proof. unfold Lanes.store. rewrite !length_insert. reflexivity. Qed.

Lemma length_stores (vs : list GSVector4i.t) (b : list Z) (write : Z) :
  length (ExpandIndices_stores b write vs) = length b.
Proof.
  revert b write. induction vs as [| v vs IH]; intros b write; [reflexivity |].
  cbn [ExpandIndices_stores]. rewrite IH, length_store. reflexivity.
Qed.

(** After [write[0] = v0; write[1] = v1; ...] the stored lanes are in
    place and the rest of the buffer is as before. *)
Lemma at_stores (vs : list GSVector4i.t) (b : list Z) (write i : Z) :
  0 <= write -> 4 * (write + Z.of_nat (length vs)) <= Z.of_nat (length b) -> 0 <= i ->
  IndexQueue.at_ (ExpandIndices_stores b write vs) i
  = if (4 * write <=? i) && (i <? 4 * (write + Z.of_nat (length vs)))
    then Lanes.lane (nth (Z.to_nat ((i - 4 * write) / 4)) vs (GSVector4i.mk 0 0 0 0))
                    ((i - 4 * write) mod 4)
    else IndexQueue.at_ b i.
Proof.
  revert b write. induction vs as [| v vs IH]; intros b write Hw Hlen Hi.
  - cbn [ExpandIndices_stores].
    destruct ((4 * write <=? i) && (i <? 4 * (write + Z.of_nat (length (@nil GSVector4i.t)))))
      eqn:E; [| reflexivity].
    apply andb_true_iff in E. destruct E as [E1 E2].
    apply Z.leb_le in E1. apply Z.ltb_lt in E2. cbn [length] in E2. lia.
  - cbn [ExpandIndices_stores]. cbn [length] in Hlen.
    rewrite IH by (rewrite ?length_store; lia).
    rewrite at_store by lia.
    destruct (Z.leb_spec (4 * (write + 1)) i) as [H1 | H1],
      (Z.ltb_spec i (4 * (write + 1 + Z.of_nat (length vs)))) as [H2 | H2];
      destruct (Z.leb_spec (4 * write) i) as [H3 | H3],
        (Z.ltb_spec i (4 * write + 4)) as [H4 | H4];
      destruct (Z.ltb_spec i (4 * (write + Z.of_nat (length (v :: vs))))) as [H5 | H5];
      cbn [andb length] in *; try lia; try reflexivity.
    + replace ((i - 4 * write) / 4) with ((i - 4 * (write + 1)) / 4 + 1)
        by (rewrite <- Z.div_add by lia; f_equal; lia).
      replace ((i - 4 * write) mod 4) with ((i - 4 * (write + 1)) mod 4)
        by (rewrite <- (Z.mod_add (i - 4 * (write + 1)) 1 4) by lia; f_equal; lia).
      assert (H0 : 0 <= (i - 4 * (write + 1)) / 4) by (apply Z.div_pos; lia).
      rewrite Z2Nat.inj_add by lia. rewrite Nat.add_comm. reflexivity.
    + replace ((i - 4 * write) / 4) with 0 by (symmetry; apply Z.div_small; lia).
      rewrite Z.mod_small by lia. reflexivity.
Qed.


Lemma length_vectors (Expand : VSExpand.t) (v : GSVector4i.t) :
  Expand <> VSExpand.None ->
  Z.of_nat (length (ExpandIndices_vectors Expand v)) = expansion_factor Expand.
Proof. destruct Expand; intros H; [contradiction | reflexivity ..]. Qed.

Lemma load_agree (b b' : list Z) (g : Z) :
  (forall i, 4 * g <= i < 4 * g + 4 -> IndexQueue.at_ b' i = IndexQueue.at_ b i) ->
  Lanes.load b' g = Lanes.load b g.
Proof. intros H. unfold Lanes.load. rewrite !H by lia. reflexivity. Qed.

(** The lane that the loop leaves at position [i] of the expanded part,
    computed from the buffer before the loop. *)
Lemma ExpandIndices_loop_spec (Expand : VSExpand.t) :
  Expand <> VSExpand.None ->
  forall (n : nat) (b : list Z),
    4 * Z.of_nat n * expansion_factor Expand <= Z.of_nat (length b) ->
    let f := expansion_factor Expand in
    let b' := ExpandIndices_loop Expand b (Z.of_nat n) (Z.of_nat n * f) n in
    length b' = length b
    /\ forall i, 0 <= i ->
         IndexQueue.at_ b' i
         = if i <? 4 * Z.of_nat n * f
           then Lanes.lane
                  (nth (Z.to_nat ((i mod (4 * f)) / 4))
                     (ExpandIndices_vectors Expand (Lanes.load b (i / (4 * f))))
                     (GSVector4i.mk 0 0 0 0))
                  (i mod 4)
           else IndexQueue.at_ b i.
Proof.
  intros HE n. assert (Hf : 3 <= expansion_factor Expand <= 6) by (destruct Expand; cbn; lia).
  induction n as [| n IH]; intros b Hlen f b'; subst f b'.
  - cbn [ExpandIndices_loop]. split; [reflexivity |]. intros i Hi.
    destruct (Z.ltb_spec i (4 * Z.of_nat 0 * expansion_factor Expand)); [lia | reflexivity].
  - set (f := expansion_factor Expand) in *.
    cbn [ExpandIndices_loop]. destruct (Z.ltb_spec 0 (Z.of_nat (S n))) as [_ | H0]; [| lia].
    replace (Z.of_nat (S n) - 1) with (Z.of_nat n) by lia.
    replace (Z.of_nat (S n) * f - expansion_factor Expand) with (Z.of_nat n * f)
      by (subst f; lia).
    set (vs := ExpandIndices_vectors Expand (Lanes.load b (Z.of_nat n))).
    assert (Hvs : Z.of_nat (length vs) = f) by (apply length_vectors; exact HE).
    set (b1 := ExpandIndices_stores b (Z.of_nat n * f) vs).
    assert (Hb1 : forall i, 0 <= i ->
               IndexQueue.at_ b1 i
               = if (4 * (Z.of_nat n * f) <=? i) && (i <? 4 * (Z.of_nat n * f + f))
                 then Lanes.lane (nth (Z.to_nat ((i - 4 * (Z.of_nat n * f)) / 4)) vs
                                    (GSVector4i.mk 0 0 0 0))
                        ((i - 4 * (Z.of_nat n * f)) mod 4)
                 else IndexQueue.at_ b i).
    { intros i Hi. subst b1. rewrite at_stores by nia. rewrite Hvs. reflexivity. }
    destruct (IH b1) as [Hl Hat].
    { subst b1. rewrite length_stores. nia. }
    fold f in Hl, Hat. split.
    { rewrite Hl. subst b1. apply length_stores. }
    intros i Hi. rewrite Hat by exact Hi.
    destruct (Z.ltb_spec i (4 * Z.of_nat n * f)) as [Hlow | Hhigh].
    + destruct (Z.ltb_spec i (4 * Z.of_nat (S n) * f)) as [_ | Hn]; [| nia].
      f_equal. f_equal. f_equal. apply load_agree. intros j Hj.
      rewrite Hb1 by (assert (0 <= i / (4 * f)) by (apply Z.div_pos; lia); lia).
      assert (Hg : i / (4 * f) < Z.of_nat n) by (apply Z.div_lt_upper_bound; nia).
      destruct (Z.leb_spec (4 * (Z.of_nat n * f)) j); [nia | reflexivity].
    + rewrite Hb1 by exact Hi.
      destruct (Z.leb_spec (4 * (Z.of_nat n * f)) i) as [_ | Hc]; [| nia].
      destruct (Z.ltb_spec i (4 * (Z.of_nat n * f + f))) as [Hin | Hout]; cbn [andb].
      * destruct (Z.ltb_spec i (4 * Z.of_nat (S n) * f)) as [_ | Hout']; [| nia].
        assert (Hq : i / (4 * f) = Z.of_nat n).
        { symmetry. apply (Z.div_unique i (4 * f) (Z.of_nat n) (i - 4 * f * Z.of_nat n)); nia. }
        assert (Hr : i mod (4 * f) = i - 4 * (Z.of_nat n * f)).
        { symmetry.
          apply (Z.mod_unique i (4 * f) (Z.of_nat n) (i - 4 * (Z.of_nat n * f))); nia. }
        rewrite Hq, Hr. subst vs. f_equal.
        replace i with (i - 4 * (Z.of_nat n * f) + (Z.of_nat n * f) * 4) at 2 by lia.
        rewrite Z.mod_add by lia. reflexivity.
      * destruct (Z.ltb_spec i (4 * Z.of_nat (S n) * f)) as [Hin' | _]; [nia | reflexivity].
Qed.

End ExpandIndicesFacts.

Lemma lane_load (b : list Z) (g M : Z) :
  0 <= M < 4 -> Lanes.lane (Lanes.load b g) M = IndexQueue.at_ b (4 * g + M).
Proof.
  intros HM. assert (H : M = 0 \/ M = 1 \/ M = 2 \/ M = 3) by lia.
  destruct H as [-> | [-> | [-> | ->]]]; cbn; rewrite ?Z.add_0_r; reflexivity.
Qed.

(** X25.  [ExpandIndices] rewrites the index queue in place, from its
    end to its start, and loses nothing on the way: afterwards every
    primitive (a point, or the two indices of a line or of a sprite) has
    six indices, each holding the index of one of its vertices shifted
    left (by 2, or by 1 for a sprite) with the number of a corner in the
    low bits: corners 0, 1, 2, 1, 2, 3 (for a sprite 0, 1, 0, 1, 0, 1) of
    the vertex of the point, or of the first, first, second, first,
    second and second vertex of the line or sprite.  The queue is 6 or 3
    times as long as before. *)
Theorem ExpandIndices_expands_each_primitive :
  forall (Expand : VSExpand.t) (m_index : IndexQueue.t) (m_vertex_maxcount : Z),
    let tail := IndexQueue.tail m_index in
    let buff := IndexQueue.buff m_index in
    let factor := expansion_factor Expand in
    let per := indices_per_primitive Expand in
    let process_count := (tail + 3) / 4 * 4 in
    Expand <> VSExpand.None ->
    0 <= tail ->
    process_count * factor <= Z.of_nat (length buff) < 2 ^ 32 ->
    (Expand = VSExpand.Point -> process_count <= m_vertex_maxcount) ->
    exists expanded : IndexQueue.t,
      ExpandIndices Expand m_index m_vertex_maxcount = Some expanded
      /\ IndexQueue.tail expanded = tail * factor
      /\ length (IndexQueue.buff expanded) = length buff
      /\ forall p k,
           0 <= p -> per * p + per <= tail -> 0 <= k < 6 ->
           IndexQueue.at_ (IndexQueue.buff expanded) (6 * p + k)
           = Z.lor (Int.u32 (Z.shiftl (IndexQueue.at_ buff (per * p + expanded_source Expand k))
                               (expanded_shift Expand)))
                   (expanded_corner Expand k).
Proof.
  intros Expand m_index maxcount tail buff factor per pc HE Htail Hcap Hgrow.
  assert (Hf : 3 <= factor <= 6) by (subst factor; destruct Expand; cbn; lia).
  assert (Hfp : factor * per = 6) by (subst factor per; destruct Expand; [contradiction | reflexivity ..]).
  assert (Hpc : tail <= pc < tail + 4).
  { subst pc. pose proof (Z.div_mod (tail + 3) 4 ltac:(lia)).
    pose proof (Z.mod_pos_bound (tail + 3) 4 ltac:(lia)). lia. }
  set (G := (tail + 3) / 4) in *.
  assert (HG : 0 <= G) by (subst G; apply Z.div_pos; lia).
  unfold ExpandIndices. fold tail. fold buff. fold factor.
  rewrite (IntFacts.u32_small (tail + 3)) by nia. fold G. fold pc.
  assert (Hnogrow : match Expand with
                    | VSExpand.Point => maxcount <? pc
                    | _ => false
                    end = false).
  { destruct Expand; try reflexivity. apply Z.ltb_ge. apply Hgrow. reflexivity. }
  rewrite Hnogrow.
  rewrite (IntFacts.u32_small (tail * factor)) by nia.
  rewrite (IntFacts.u32_small (pc * factor)) by nia.
  replace (pc / 4) with G by (subst pc; rewrite Z.div_mul by lia; reflexivity).
  replace (pc * factor / 4) with (G * factor)
    by (subst pc; replace (G * 4 * factor) with (G * factor * 4) by lia;
        rewrite Z.div_mul by lia; reflexivity).
  destruct (ExpandIndices_loop_spec Expand HE (Z.to_nat G) buff) as [Hl Hat].
  { rewrite Z2Nat.id by lia. fold factor. subst pc. nia. }
  fold factor in Hl, Hat. cbv zeta in Hl, Hat. rewrite Z2Nat.id in Hl, Hat by lia.
  eexists. split; [reflexivity |]. cbn [IndexQueue.tail IndexQueue.buff].
  split; [reflexivity |]. split; [exact Hl |].
  intros p k Hp Hpt Hk.
  rewrite Hat by lia.
  destruct (Z.ltb_spec (6 * p + k) (4 * G * factor)) as [_ | Hout]; [| nia].
  set (c := 4 / per).
  assert (Hc : c * per = 4 /\ 0 < c)
    by (subst c per; destruct Expand; [contradiction | split; reflexivity ..]).
  pose proof (Z.div_mod p c ltac:(lia)) as Hdm.
  pose proof (Z.mod_pos_bound p c ltac:(lia)) as Hm.
  remember (p / c) as g eqn:Hg. remember (p mod c) as m eqn:Hmdef.
  assert (Hg0 : 0 <= g) by (subst g; apply Z.div_pos; lia).
  assert (Hi : 6 * p + k = 4 * factor * g + (6 * m + k)) by nia.
  assert (Hr : 0 <= 6 * m + k < 4 * factor) by nia.
  assert (Hq : (6 * p + k) / (4 * factor) = g).
  { symmetry. apply (Z.div_unique (6 * p + k) (4 * factor) g (6 * m + k)); lia. }
  assert (Hmod : (6 * p + k) mod (4 * factor) = 6 * m + k).
  { symmetry. apply (Z.mod_unique (6 * p + k) (4 * factor) g (6 * m + k)); lia. }
  assert (Hmod4 : (6 * p + k) mod 4 = (6 * m + k) mod 4).
  { rewrite Hi. replace (4 * factor * g + (6 * m + k)) with (6 * m + k + factor * g * 4) by lia.
    apply Z.mod_add. lia. }
  rewrite Hq, Hmod, Hmod4.
  assert (Hsrc : 0 <= per * m + expanded_source Expand k < 4
                 /\ per * p + expanded_source Expand k
                    = 4 * g + (per * m + expanded_source Expand k)).
  { assert (Hk6 : k = 0 \/ k = 1 \/ k = 2 \/ k = 3 \/ k = 4 \/ k = 5) by lia.
    subst per c. destruct Expand; [contradiction | ..];
      cbn [indices_per_primitive expanded_source] in *;
      change (4 / 1) with 4 in *; change (4 / 2) with 2 in *;
      destruct Hk6 as [-> | [-> | [-> | [-> | [-> | ->]]]]];
      repeat match goal with
             | |- context [nth (Z.to_nat ?k) ?l ?d] =>
                 let v := eval vm_compute in (nth (Z.to_nat k) l d) in
                 change (nth (Z.to_nat k) l d) with v
             end;
      lia. }
  destruct Hsrc as [HM Hsrc]. rewrite Hsrc.
  rewrite <- (lane_load buff g (per * m + expanded_source Expand k)) by lia.
  generalize (Lanes.load buff g). intros [a b c0 d].
  assert (Hk6 : k = 0 \/ k = 1 \/ k = 2 \/ k = 3 \/ k = 4 \/ k = 5) by lia.
  clear - HE Hm Hc Hk6. subst c per.
  destruct Expand; [contradiction | ..]; cbn [indices_per_primitive] in Hm |- *;
    change (4 / 1) with 4 in *; change (4 / 2) with 2 in *.
  - assert (Hm4 : m = 0 \/ m = 1 \/ m = 2 \/ m = 3) by lia.
    destruct Hm4 as [-> | [-> | [-> | ->]]];
      destruct Hk6 as [-> | [-> | [-> | [-> | [-> | ->]]]]]; reflexivity.
  - assert (Hm2 : m = 0 \/ m = 1) by lia.
    destruct Hm2 as [-> | ->];
      destruct Hk6 as [-> | [-> | [-> | [-> | [-> | ->]]]]]; reflexivity.
  - assert (Hm2 : m = 0 \/ m = 1) by lia.
    destruct Hm2 as [-> | ->];
      destruct Hk6 as [-> | [-> | [-> | [-> | [-> | ->]]]]]; reflexivity.
Qed.

Lemma ExpandIndices_expands_each_primitive_witness :
  let m_index := IndexQueue.mk [0; 1; 2; 3; 0; 0; 0; 0; 0; 0; 0; 0] 4 in
  let tail := IndexQueue.tail m_index in
  let buff := IndexQueue.buff m_index in
  exists expanded : IndexQueue.t,
    ExpandIndices VSExpand.Sprite m_index 0 = Some expanded
    /\ IndexQueue.tail expanded = tail * expansion_factor VSExpand.Sprite
    /\ length (IndexQueue.buff expanded) = length buff
    /\ forall p k,
         0 <= p -> indices_per_primitive VSExpand.Sprite * p
                   + indices_per_primitive VSExpand.Sprite <= tail -> 0 <= k < 6 ->
         IndexQueue.at_ (IndexQueue.buff expanded) (6 * p + k)
         = Z.lor (Int.u32 (Z.shiftl (IndexQueue.at_ buff
                                       (indices_per_primitive VSExpand.Sprite * p
                                        + expanded_source VSExpand.Sprite k))
                             (expanded_shift VSExpand.Sprite)))
                 (expanded_corner VSExpand.Sprite k).
Proof.
  intros m_index.
  apply (ExpandIndices_expands_each_primitive VSExpand.Sprite m_index 0).
  - discriminate.
  - vm_compute. congruence.
  - vm_compute. split; congruence.
  - discriminate.
Defined.

Example ExpandIndices_two_sprites :
  ExpandIndices VSExpand.Sprite (IndexQueue.mk [0; 1; 2; 3; 0; 0; 0; 0; 0; 0; 0; 0] 4) 0
  = Some (IndexQueue.mk [0; 1; 2; 1; 2; 3; 4; 5; 6; 5; 6; 7] 12)
  /\ ExpandIndices VSExpand.Line (IndexQueue.mk [0; 1; 2; 3; 0; 0; 0; 0; 0; 0; 0; 0] 4) 0
     = Some (IndexQueue.mk [0; 1; 6; 1; 6; 7; 8; 9; 14; 9; 14; 15] 12)
  /\ ExpandIndices VSExpand.Point (IndexQueue.mk [0; 1; 0; 0; 0; 0; 0; 0; 0; 0; 0; 0;
                                                 0; 0; 0; 0; 0; 0; 0; 0; 0; 0; 0; 0] 2) 4
     = Some (IndexQueue.mk [0; 1; 2; 1; 2; 3; 4; 5; 6; 5; 6; 7;
                            0; 1; 2; 1; 2; 3; 0; 1; 2; 1; 2; 3] 12)
  /\ ExpandIndices VSExpand.Point (IndexQueue.mk [0; 1; 0; 0] 2) 3 = None.
Proof. repeat split. Qed.

(** ** The macros handed to the shader compiler *)

(** X26.  The array that [GetPtr] hands out holds the shader model of
    the feature level first, then every macro added since construction,
    in the order of the additions, and one terminator of two null
    pointers at the end; it is built afresh at each call, so the calls of
    [GetPtr] made in between leave no trace in it. *)
Theorem ShaderMacro_GetPtr_lists_added_macros :
  forall (fl : ShaderMacro.D3D_FEATURE_LEVEL) (uses : list ShaderMacro.use),
    (ShaderMacro.GetPtr (fold_left ShaderMacro.apply uses (ShaderMacro.ShaderMacro fl))).1
    = map (fun i : string * string => (Some i.1, Some i.2))
        (("SHADER_MODEL"%string, ShaderMacro.shader_model fl) :: ShaderMacro.added uses)
      ++ [(None, None)].
Proof.
  intros fl uses.
  assert (H : forall uses s,
             ShaderMacro.mlist (fold_left ShaderMacro.apply uses s)
             = ShaderMacro.mlist s ++ ShaderMacro.added uses).
  { clear. induction uses as [| u uses IH]; intros s.
    - cbn. rewrite app_nil_r. reflexivity.
    - cbn [fold_left]. rewrite IH. destruct u; cbn; rewrite <- ?app_assoc; reflexivity. }
  unfold ShaderMacro.GetPtr. cbn [fst]. rewrite H. reflexivity.
Qed.

Example ShaderMacro_GetPtr_twice :
  (ShaderMacro.GetPtr
     (fold_left ShaderMacro.apply
        [ShaderMacro.Use_AddMacro_int "PS_SCALE_FACTOR" 2; ShaderMacro.Use_GetPtr;
         ShaderMacro.Use_AddMacro_int "VS_TME" (-1); ShaderMacro.Use_AddMacro "A" "b"]
        (ShaderMacro.ShaderMacro ShaderMacro.D3D_FEATURE_LEVEL_10_1))).1
  = [(Some "SHADER_MODEL", Some "0x401"); (Some "PS_SCALE_FACTOR", Some "2");
     (Some "VS_TME", Some "-1"); (Some "A", Some "b"); (None, None)]%string.
Proof. reflexivity. Qed.

(** ** Uploading indices and drawing them *)

Lemma IAMapIndexBuffer_run :
  forall (I : Z) (W : Type) (h : Prog.handler Device11.CTX W) (w : W)
         (this : Device11.t) (count : Z),
    (exists after,
        Prog.run h (Device11.IAMapIndexBuffer I this count) w
        = (Device11.nullptr, after, w, [])
        /\ Device11.m_state after = Device11.m_state this
        /\ Device11.m_vertex after = Device11.m_vertex this)
    \/ (exists type hr pData w1 after,
           Prog.run h (Device11.IAMapIndexBuffer I this count) w
           = (if Device11.FAILED hr then Device11.nullptr
              else pData + 4 * Device11.Range.start (Device11.m_index after),
              after, w1,
              [Prog.ev (E := Device11.CTX) (Device11.Ctx_Map Device11.m_ib type) (hr, pData)])
           /\ Device11.m_state after = Device11.m_state this
           /\ Device11.m_vertex after = Device11.m_vertex this).
Proof.
  intros I W h w this count. unfold Device11.IAMapIndexBuffer.
  destruct (I / 4 <? count).
  - left. exists this. repeat split; reflexivity.
  - right.
    cbn [Device11.m_ib_pos Device11.set_m_ib_pos Device11.set_m_index Device11.m_index
         Device11.Range.start].
    match goal with |- context [if ?b then _ else _] => destruct b end;
      unfold mbind, prog_bind, Device11.ctx, Prog.call; cbn;
      answer_call h; destruct r as [hr pData];
      [exists Device11.D3D11_MAP_WRITE_DISCARD, hr, pData, w0
      | exists Device11.D3D11_MAP_WRITE_NO_OVERWRITE, hr, pData, w0];
      eexists; (split; [destruct (Device11.FAILED hr); reflexivity | split; reflexivity]).
Qed.

(** X27.  What [IASetIndexBuffer] uploads is what [DrawIndexedPrimitive]
    draws.  When the upload returns true, the context mapped the index
    buffer, [count] indices of four bytes were copied to the mapped
    address advanced to the first index of the new range, the buffer was
    unmapped, and a draw that follows asks the context for [count]
    indices from that first index.  When it returns false, nothing was
    copied or unmapped. *)
Theorem IASetIndexBuffer_then_draw :
  forall (INDEX_BUFFER_SIZE : Z) (W : Type) (h : Prog.handler Device11.CTX W) (w : W)
         (this : Device11.t) (index count : Z),
    let ok :=
      (Prog.result h (Device11.IASetIndexBuffer INDEX_BUFFER_SIZE this index count) w).1 in
    let after :=
      (Prog.result h (Device11.IASetIndexBuffer INDEX_BUFFER_SIZE this index count) w).2 in
    let w1 := Prog.final h (Device11.IASetIndexBuffer INDEX_BUFFER_SIZE this index count) w in
    let first := Device11.Range.start (Device11.m_index after) in
    if ok then
      exists (type : Device11.D3D11_MAP) (hr pData : Z),
        Prog.trace h (Device11.IASetIndexBuffer INDEX_BUFFER_SIZE this index count) w
        = [Prog.ev (E := Device11.CTX) (Device11.Ctx_Map Device11.m_ib type) (hr, pData);
           Prog.ev (E := Device11.CTX)
             (Device11.Ctx_memcpy (pData + 4 * first) index (count * 4)) tt;
           Prog.ev (E := Device11.CTX) (Device11.Ctx_Unmap Device11.m_ib) tt]
        /\ Device11.FAILED hr = false
        /\ Prog.calls h (Device11.DrawIndexedPrimitive after) w1
           = [Device11.PerfMon_Put_DrawCalls;
              Device11.Ctx_PSSetShaderResources (Device11.ps_sr_views (Device11.m_state this));
              Device11.Ctx_PSSetSamplers (Device11.ps_ss (Device11.m_state this));
              Device11.Ctx_DrawIndexed count first
                (Device11.Range.start (Device11.m_vertex this))]
    else
      (forall c,
          In c (Prog.calls h (Device11.IASetIndexBuffer INDEX_BUFFER_SIZE this index count) w) ->
          exists type, c = Device11.Ctx_Map Device11.m_ib type)
      /\ Device11.m_state after = Device11.m_state this.
Proof.
  intros I W h w this index count.
  unfold Prog.result, Prog.calls, Prog.trace, Prog.final.
  remember (Prog.run h (Device11.IASetIndexBuffer I this index count) w) as res eqn:Hres.
  unfold Device11.IASetIndexBuffer in Hres.
  unfold mbind at 1, prog_bind at 1 in Hres. rewrite ProgFacts.run_bind in Hres.
  destruct (IAMapIndexBuffer_run I W h w this count)
    as [(mid & Hrun & Hst & Hvx) | (type & hr & pData & w1 & mid & Hrun & Hst & Hvx)];
    unfold Device11.ptr in Hrun; rewrite Hrun in Hres.
  - subst res. cbn. split; [intros c [] | exact Hst].
  - destruct (Device11.FAILED hr) eqn:Hhr; rewrite ?Hhr in Hres.
    + subst res. cbn. split; [| exact Hst]. intros c [<- | []]. exists type. reflexivity.
    + destruct (Z.eqb_spec (pData + 4 * Device11.Range.start (Device11.m_index mid))
                  Device11.nullptr) as [Hnull | Hmap].
      * cbn in Hres. subst res. cbn.
        split; [| exact Hst]. intros c [<- | []]. exists type. reflexivity.
      * unfold Device11.IAUnmapIndexBuffer, mbind, prog_bind, Device11.ctx, Prog.call in Hres.
        cbn in Hres.
        destruct (h (Device11.Ctx_memcpy _ _ _) w1) as [[] w2] eqn:H1 in Hres.
        cbn in Hres.
        destruct (h (Device11.Ctx_Unmap Device11.m_ib) w2) as [[] w3] eqn:H2 in Hres.
        subst res. cbn -[Z.mul]. exists type, hr, pData.
        split; [reflexivity |]. split; [exact Hhr |].
        unfold Device11.DrawIndexedPrimitive, Device11.PSUpdateShaderState,
          mbind, prog_bind, Device11.ctx, Prog.call.
        cbn -[Z.mul]. repeat answer_call h. rewrite Hst, Hvx. reflexivity.
Qed.

Example IASetIndexBuffer_then_draw_wraps :
  Prog.calls Device11.context_example
    (r ← Device11.IASetIndexBuffer 16777216 (Device11.unbound 0 4194300) 20480 6;
     Device11.DrawIndexedPrimitive r.2) tt
  = [Device11.Ctx_Map Device11.m_ib Device11.D3D11_MAP_WRITE_DISCARD;
     Device11.Ctx_memcpy 4096 20480 24; Device11.Ctx_Unmap Device11.m_ib;
     Device11.PerfMon_Put_DrawCalls; Device11.Ctx_PSSetShaderResources [];
     Device11.Ctx_PSSetSamplers []; Device11.Ctx_DrawIndexed 6 0 0].
Proof. reflexivity. Qed.
